(** * Token lifecycle of the auth service: a shallow embedding

    The development follows the Go packages of the repository:
    [config] (configuration), [utils] (JWT manager, WeChat manager),
    [models] (user store on Redis), [middleware] (bearer authentication)
    and [handlers] (register, login, refresh, logout, me, WeChat login).

    Redis is an explicit store threaded through every operation; the
    third-party packages the code calls (encoding/json, golang-jwt,
    bcrypt, the e-mail validator, the WeChat endpoint) are an interface,
    [Externals], with the few laws the proofs rely on, and a computable
    instance of it at the end of the definitions. *)

From Stdlib Require Import ZArith String Ascii List Lia HexString.
From stdpp Require Import base option list gmap strings countable pretty.

Local Open Scope string_scope.
Local Open Scope Z_scope.

(** ** Go values: errors, results, time *)

(** A Go [error] is carried by its message. *)
Definition error := string.

Inductive result (A : Type) : Type :=
| Ok (a : A)
| Err (e : error).
Arguments Ok {A} a.
Arguments Err {A} e.

Definition is_Ok {A} (r : result A) : bool :=
  match r with Ok _ => true | Err _ => false end.

(** Instants are nanoseconds since the Unix epoch, durations are
    nanoseconds ([time.Duration]). *)
Definition Second : Z := 1000000000.
Definition Minute : Z := 60 * Second.
Definition Hour : Z := 60 * Minute.

(** ** package config *)
Module config.

Record WeChatConfig := { AppID : string; AppSecret : string }.

Record JWTConfig := {
  SecretKey : string;
  AccessTokenTTL : Z;
  RefreshTokenTTL : Z
}.

Record Config := { JWT : JWTConfig; WeChat : WeChatConfig }.

(** [GetConfig]; the process environment is the argument [Getenv]. The
    Redis and server entries only address the connection and the port. *)
Definition GetConfig (Getenv : string -> string) : Config :=
  {| JWT := {| SecretKey := Getenv "JWT_SECRET_KEY";
               AccessTokenTTL := 15 * Minute;
               RefreshTokenTTL := 7 * 24 * Hour |};
     WeChat := {| AppID := Getenv "WECHAT_APPID";
                  AppSecret := Getenv "WECHAT_APPSECRET" |} |}.

End config.

(** ** JSON objects

    The objects the service reads and writes are flat: a list of members
    in document order. A [time.Time] member keeps its instant. *)
Module json.
Inductive jvalue :=
| JString (s : string)
| JNumber (n : Z)
| JTime (t : Z).

(** The member a decoder assigns to a struct field: the last one with
    that name. Names are compared as they are written; [encoding/json]
    also takes a name that differs from the tag in letter case, so
    fewer bodies bind here than in the service. *)
Fixpoint member (k : string) (j : list (string * jvalue)) : option jvalue :=
  match j with
  | [] => None
  | (k', v) :: rest =>
      match member k rest with
      | Some v' => Some v'
      | None => if String.eqb k' k then Some v else None
      end
  end.

(** Decoding one member into a string, integer or time field: an absent
    member leaves the zero value, a member of another type is an error. *)
Definition zeroTime : Z := -62135596800 * Second.

Definition string_field (k : string) (j : list (string * jvalue)) : result string :=
  match member k j with
  | None => Ok ""
  | Some (JString s) => Ok s
  | Some _ => Err ("json: cannot unmarshal into field " +:+ k)
  end.

Definition int_field (k : string) (j : list (string * jvalue)) : result Z :=
  match member k j with
  | None => Ok 0
  | Some (JNumber n) => Ok n
  | Some _ => Err ("json: cannot unmarshal into field " +:+ k)
  end.

Definition time_field (k : string) (j : list (string * jvalue)) : result Z :=
  match member k j with
  | None => Ok zeroTime
  | Some (JTime t) => Ok t
  | Some _ => Err ("json: cannot unmarshal into field " +:+ k)
  end.

(** A string member tagged [omitempty] is left out when empty. *)
Definition omitempty (k s : string) : list (string * jvalue) :=
  if String.eqb s "" then [] else [(k, JString s)].

End json.
Import json.

(** ** Token claims ([utils.Claims]) *)

Definition TokenType := string.

(** [jwt.RegisteredClaims], the three dates the service sets; a date is
    absent ([None]) or an instant. *)
Record RegisteredClaims := {
  ExpiresAt : option Z;
  IssuedAt : option Z;
  NotBefore : option Z
}.

Record Claims := {
  UserID : string;
  Type_ : TokenType;
  Registered : RegisteredClaims
}.

(** Numeric dates travel as whole seconds. *)
Definition on_the_second (date : option Z) : Prop :=
  match date with
  | Some t => t `div` Second * Second = t
  | None => True
  end.

Definition whole_seconds (c : Claims) : Prop :=
  on_the_second (ExpiresAt (Registered c)) /\
  on_the_second (IssuedAt (Registered c)) /\
  on_the_second (NotBefore (Registered c)).

(** ** External collaborators *)

Class Externals := {
  (** encoding/json: the text of an object and its parser; strings
      stand for texts and instants for dates the text form can hold. *)
  json_render : list (string * jvalue) -> string;
  json_parse : string -> option (list (string * jvalue));
  json_parse_render : forall j, json_parse (json_render j) = Some j;
  (** golang-jwt: compact serialisation. [jwt_compact alg c sig] is the
      token text for header algorithm [alg], claims [c] and signature
      [sig]; [jwt_signing_input alg c] is its first two segments;
      [jwt_parse] splits and decodes a token text into algorithm, claims,
      signing input and signature, and inverts [jwt_compact] on claims
      whose dates are whole seconds. *)
  jwt_signing_input : string -> Claims -> string;
  jwt_compact : string -> Claims -> string -> string;
  jwt_parse : string -> option (string * Claims * string * string);
  jwt_parse_compact : forall alg c sig,
    whole_seconds c ->
    jwt_parse (jwt_compact alg c sig) = Some (alg, c, jwt_signing_input alg c, sig);
  (** crypto/hmac: [hmac alg key input]. *)
  hmac : string -> string -> string -> string;
  (** x/crypto/bcrypt. *)
  bcrypt_GenerateFromPassword : string -> result string;
  bcrypt_CompareHashAndPassword : string -> string -> bool;
  (** go-playground/validator, the [email] tag. *)
  validator_email : string -> bool;
  (** net/http: the answer of the remote endpoint to a GET of a URL. *)
  http_Get : string -> result string
}.

(** ** Redis (go-redis client and server)

    An entry is a string with an optional instant of expiry. The list
    [faults] scripts the connection: every command consumes one flag,
    and a [true] flag makes that command return an I/O error without
    touching the data. *)
Module redis.

Record entry := Entry { value : string; expireAt : option Z }.

Record World := {
  now : Z;
  db : gmap string entry;
  faults : list bool
}.

Definition M (A : Type) : Type := World -> A * World.

Definition ret {A} (a : A) : M A := fun w => (a, w).

Definition bind {A B} (m : M A) (k : A -> M B) : M B :=
  fun w => let (a, w') := m w in k a w'.

Declare Scope go_scope.
Delimit Scope go_scope with go.
Notation "x <- m ;; k" := (bind m (fun x => k))
  (at level 100, m at next level, right associativity) : go_scope.
Local Open Scope go_scope.

(** [time.Now()]: the clock stands still while one request is handled. *)
Definition time_Now : M Z := fun w => (now w, w).

Definition Nil : error := "redis: nil".
Definition io_error : error := "redis: connection refused".

(** One round trip to the server: consumes a fault flag. *)
Definition roundtrip : M bool :=
  fun w =>
    match faults w with
    | [] => (false, w)
    | f :: rest => (f, {| now := now w; db := db w; faults := rest |})
    end.

(** The flag the next command will consume, and the world once it has. *)
Definition next_fault (w : World) : bool :=
  match faults w with
  | [] => false
  | f :: _ => f
  end.

Definition served (w : World) : World := snd (roundtrip w).

Definition live (t : Z) (e : entry) : bool :=
  match expireAt e with
  | None => true
  | Some x => t <? x
  end.

(** The entry a read sees: expired entries are gone. *)
Definition visible (w : World) (key : string) : option entry :=
  match db w !! key with
  | Some e => if live (now w) e then Some e else None
  | None => None
  end.

Definition Get (key : string) : M (result string) :=
  failed <- roundtrip ;;
  if failed : bool then ret (Err io_error)
  else fun w =>
    match visible w key with
    | Some e => (Ok (value e), w)
    | None => (Err Nil, w)
    end.

Definition Exists (key : string) : M (result Z) :=
  failed <- roundtrip ;;
  if failed : bool then ret (Err io_error)
  else fun w =>
    match visible w key with
    | Some _ => (Ok 1, w)
    | None => (Ok 0, w)
    end.

(** [Set key value expiration]: a positive expiration sets the expiry,
    zero stores the entry without one. *)
Definition Set_ (key val : string) (expiration : Z) : M (result unit) :=
  failed <- roundtrip ;;
  if failed : bool then ret (Err io_error)
  else fun w =>
    let e := {| value := val;
                expireAt := if 0 <? expiration then Some (now w + expiration) else None |} in
    (Ok tt, {| now := now w; db := <[key := e]> (db w); faults := faults w |}).

Definition Del (key : string) : M (result unit) :=
  failed <- roundtrip ;;
  if failed : bool then ret (Err io_error)
  else fun w =>
    (Ok tt, {| now := now w; db := delete key (db w); faults := faults w |}).

End redis.
Import (notations) redis.
Abbreviation World := redis.World.
Abbreviation M := redis.M.
Abbreviation ret := redis.ret.
Abbreviation now := redis.now.
Abbreviation db := redis.db.
Abbreviation faults := redis.faults.
Local Open Scope go_scope.

(** ** golang-jwt as the service uses it *)
Module jwt.
Section jwt.
Context `{Ext : Externals}.

Definition SigningMethodHS256 : string := "HS256".

(** Algorithms of the HMAC family, the ones of type [*SigningMethodHMAC]. *)
Definition is_HMAC (alg : string) : bool :=
  String.eqb alg "HS256" || String.eqb alg "HS384" || String.eqb alg "HS512".

(** Algorithms the library has a signing method for. *)
Definition registered_methods : list string :=
  ["HS256"; "HS384"; "HS512"; "RS256"; "RS384"; "RS512";
   "ES256"; "ES384"; "ES512"; "PS256"; "PS384"; "PS512"; "EdDSA"; "none"].

Definition GetSigningMethod (alg : string) : bool :=
  existsb (String.eqb alg) registered_methods.

(** [jwt.NewNumericDate]: the instant truncated to the second. *)
Definition NewNumericDate (t : Z) : option Z := Some (t `div` Second * Second).

(** [token.SignedString(key)] for a token built by [NewWithClaims]. *)
Definition SignedString (alg : string) (c : Claims) (key : string) : result string :=
  Ok (jwt_compact alg c (hmac alg key (jwt_signing_input alg c))).

(** [Method.Verify]: only the HMAC methods take a byte-string key. *)
Definition Verify (alg signingString sig key : string) : bool :=
  is_HMAC alg && String.eqb sig (hmac alg key signingString).

(** The default claims validator: expiry and not-before, when present. *)
Definition validate_claims (t : Z) (c : Claims) : result unit :=
  match ExpiresAt (Registered c) with
  | Some exp => if t <? exp then
      match NotBefore (Registered c) with
      | Some nbf => if t <? nbf then Err "token is not valid yet" else Ok tt
      | None => Ok tt
      end
    else Err "token is expired"
  | None =>
      match NotBefore (Registered c) with
      | Some nbf => if t <? nbf then Err "token is not valid yet" else Ok tt
      | None => Ok tt
      end
  end.

(** [jwt.ParseWithClaims]: decode, look the method up, ask [keyFunc] for
    the key, verify the signature, validate the claims. *)
Definition ParseWithClaims (tokenString : string)
    (keyFunc : string -> result string) : M (result Claims) :=
  t <- redis.time_Now ;;
  ret match jwt_parse tokenString with
      | None => Err "token is malformed"
      | Some (alg, c, signingString, sig) =>
          if GetSigningMethod alg then
            match keyFunc alg with
            | Err e => Err ("token is unverifiable: error while executing keyfunc: " +:+ e)
            | Ok key =>
                if Verify alg signingString sig key then
                  match validate_claims t c with
                  | Ok _ => Ok c
                  | Err e => Err e
                  end
                else Err "token signature is invalid"
            end
          else Err "token is unverifiable: signing method (alg) is unavailable"
      end.

End jwt.
End jwt.

(** ** package utils *)
Module utils.
Section utils.
Context `{Ext : Externals}.

Definition AccessToken : TokenType := "access".
Definition RefreshToken : TokenType := "refresh".

Record JWTManager := { config : config.JWTConfig }.

Definition NewJWTManager (cfg : config.JWTConfig) : JWTManager := {| config := cfg |}.

Definition generateToken (m : JWTManager) (userID : string)
    (tokenType : TokenType) (ttl : Z) : M (result string) :=
  now <- redis.time_Now ;;
  let claims := {| UserID := userID;
                   Type_ := tokenType;
                   Registered := {| ExpiresAt := jwt.NewNumericDate (now + ttl);
                                    IssuedAt := jwt.NewNumericDate now;
                                    NotBefore := jwt.NewNumericDate now |} |} in
  ret (jwt.SignedString jwt.SigningMethodHS256 claims (config.SecretKey (config m))).

Definition GenerateAccessToken (m : JWTManager) (userID : string) : M (result string) :=
  generateToken m userID AccessToken (config.AccessTokenTTL (config m)).

Definition GenerateRefreshToken (m : JWTManager) (userID : string) : M (result string) :=
  generateToken m userID RefreshToken (config.RefreshTokenTTL (config m)).

Definition ValidateToken (m : JWTManager) (tokenString : string) : M (result Claims) :=
  r <- jwt.ParseWithClaims tokenString
         (fun alg =>
            if jwt.is_HMAC alg then Ok (config.SecretKey (config m))
            else Err ("unexpected signing method: " +:+ alg)) ;;
  match r with
  | Err err => ret (Err ("invalid token: " +:+ err))
  | Ok claims => ret (Ok claims)
  end.

Definition ValidateAccessToken (m : JWTManager) (tokenString : string) : M (result Claims) :=
  r <- ValidateToken m tokenString ;;
  match r with
  | Err err => ret (Err err)
  | Ok claims =>
      if negb (String.eqb (Type_ claims) AccessToken)
      then ret (Err "token is not an access token")
      else ret (Ok claims)
  end.

Definition ValidateRefreshToken (m : JWTManager) (tokenString : string) : M (result Claims) :=
  r <- ValidateToken m tokenString ;;
  match r with
  | Err err => ret (Err err)
  | Ok claims =>
      if negb (String.eqb (Type_ claims) RefreshToken)
      then ret (Err "token is not a refresh token")
      else ret (Ok claims)
  end.

(** WeChatManager *)

Record WeChatManager := { wechat_config : config.WeChatConfig }.

Definition NewWeChatManager (cfg : config.WeChatConfig) : WeChatManager :=
  {| wechat_config := cfg |}.

Record Code2SessionResponse := {
  OpenID : string;
  SessionKey : string;
  UnionID : string;
  ErrCode : Z;
  ErrMsg : string
}.

Definition WeChatCode2SessionURL (appid secret code : string) : string :=
  "https://api.weixin.qq.com/sns/jscode2session?appid=" +:+ appid +:+
  "&secret=" +:+ secret +:+ "&js_code=" +:+ code +:+
  "&grant_type=authorization_code".

Definition Unmarshal_Code2SessionResponse (body : string) : result Code2SessionResponse :=
  match json_parse body with
  | None => Err "invalid character"
  | Some j =>
      match string_field "openid" j, string_field "session_key" j,
            string_field "unionid" j, int_field "errcode" j, string_field "errmsg" j with
      | Ok o, Ok k, Ok u, Ok c, Ok m =>
          Ok {| OpenID := o; SessionKey := k; UnionID := u; ErrCode := c; ErrMsg := m |}
      | Err e, _, _, _, _ | _, Err e, _, _, _ | _, _, Err e, _, _
      | _, _, _, Err e, _ | _, _, _, _, Err e => Err e
      end
  end.

Definition Code2Session (m : WeChatManager) (code : string) : result Code2SessionResponse :=
  let url := WeChatCode2SessionURL (config.AppID (wechat_config m)) (config.AppSecret (wechat_config m)) code in
  match http_Get url with
  | Err err => Err ("failed to make request to WeChat API: " +:+ err)
  | Ok body =>
      match Unmarshal_Code2SessionResponse body with
      | Err err => Err ("failed to parse response: " +:+ err)
      | Ok sessionResp =>
          if negb (ErrCode sessionResp =? 0)
          then Err ("WeChat API error: " +:+ pretty (ErrCode sessionResp) +:+ " - " +:+ ErrMsg sessionResp)
          else Ok sessionResp
      end
  end.

End utils.
End utils.

(** Sequencing of fallible steps ([if err != nil { return err }]). *)
Definition and_then {A B} (r : result A) (k : A -> result B) : result B :=
  match r with
  | Ok a => k a
  | Err e => Err e
  end.

(** ** package models *)
Module models.
Section models.
Context `{Ext : Externals}.

Record User := {
  ID : string;
  Username : string;
  Password : string;
  Email : string;
  OpenID : string;
  CreatedAt : Z;
  UpdatedAt : Z
}.

(** The JSON object of a user, by the struct tags: [password] and
    [open_id] carry [omitempty]. *)
Definition User_json (user : User) : list (string * jvalue) :=
  [("id", JString (ID user)); ("username", JString (Username user))]
  ++ omitempty "password" (Password user)
  ++ [("email", JString (Email user))]
  ++ omitempty "open_id" (OpenID user)
  ++ [("created_at", JTime (CreatedAt user)); ("updated_at", JTime (UpdatedAt user))].

Definition Marshal (user : User) : result string :=
  Ok (json_render (User_json user)).

Definition Unmarshal (data : string) : result User :=
  match json_parse data with
  | None => Err "invalid character"
  | Some j =>
      and_then (string_field "id" j) (fun id =>
      and_then (string_field "username" j) (fun username =>
      and_then (string_field "password" j) (fun password =>
      and_then (string_field "email" j) (fun email =>
      and_then (string_field "open_id" j) (fun openID =>
      and_then (time_field "created_at" j) (fun createdAt =>
      and_then (time_field "updated_at" j) (fun updatedAt =>
      Ok {| ID := id; Username := username; Password := password;
            Email := email; OpenID := openID;
            CreatedAt := createdAt; UpdatedAt := updatedAt |})))))))
  end.

(** [UserStore.Create]. The timestamps it writes into [user] are not
    read by its caller, so only the error is returned. *)
Definition Create (user : User) : M (result unit) :=
  if String.eqb (ID user) "" then ret (Err "user ID cannot be empty")
  else
    now <- redis.time_Now ;;
    let user := {| ID := ID user; Username := Username user;
                   Password := Password user; Email := Email user;
                   OpenID := OpenID user; CreatedAt := now; UpdatedAt := now |} in
    match Marshal user with
    | Err err => ret (Err ("failed to marshal user: " +:+ err))
    | Ok userJSON =>
        let key := "user:" +:+ ID user in
        r <- redis.Set_ key userJSON 0 ;;
        match r with
        | Err err => ret (Err ("failed to store user: " +:+ err))
        | Ok _ =>
            let usernameKey := "username:" +:+ Username user in
            r <- redis.Set_ usernameKey (ID user) 0 ;;
            match r with
            | Err err => ret (Err ("failed to create username index: " +:+ err))
            | Ok _ => ret (Ok tt)
            end
        end
    end.

Definition GetByID (id : string) : M (result User) :=
  let key := "user:" +:+ id in
  r <- redis.Get key ;;
  match r with
  | Err err =>
      if String.eqb err redis.Nil then ret (Err "user not found")
      else ret (Err ("failed to get user: " +:+ err))
  | Ok userJSON =>
      match Unmarshal userJSON with
      | Err err => ret (Err ("failed to unmarshal user: " +:+ err))
      | Ok user => ret (Ok user)
      end
  end.

Definition GetByUsername (username : string) : M (result User) :=
  let usernameKey := "username:" +:+ username in
  r <- redis.Get usernameKey ;;
  match r with
  | Err err =>
      if String.eqb err redis.Nil then ret (Err "user not found")
      else ret (Err ("failed to get user ID: " +:+ err))
  | Ok id => GetByID id
  end.

Definition GetByOpenID (openID : string) : M (result User) :=
  let openIDKey := "openid:" +:+ openID in
  r <- redis.Get openIDKey ;;
  match r with
  | Err err =>
      if String.eqb err redis.Nil then ret (Err "user not found")
      else ret (Err ("failed to get user ID: " +:+ err))
  | Ok id => GetByID id
  end.

(** [UserStore.CreateWeChatUser]. The two timestamps are two reads of
    the clock; it stands still here, in the service the second read is
    the later one. *)
Definition CreateWeChatUser (openID : string) : M (result User) :=
  if String.eqb openID "" then ret (Err "OpenID cannot be empty")
  else
    let openIDKey := "openid:" +:+ openID in
    r <- redis.Exists openIDKey ;;
    match r with
    | Err err => ret (Err ("failed to check if OpenID exists: " +:+ err))
    | Ok exists_ =>
        if 0 <? exists_ then
          r <- redis.Get openIDKey ;;
          match r with
          | Err err => ret (Err ("failed to get user ID: " +:+ err))
          | Ok id => GetByID id
          end
        else
          let id := "wx_" +:+ openID in
          createdAt <- redis.time_Now ;;
          updatedAt <- redis.time_Now ;;
          let user := {| ID := id; Username := id; Password := ""; Email := "";
                         OpenID := openID;
                         CreatedAt := createdAt; UpdatedAt := updatedAt |} in
          match Marshal user with
          | Err err => ret (Err ("failed to marshal user: " +:+ err))
          | Ok userJSON =>
              let key := "user:" +:+ ID user in
              r <- redis.Set_ key userJSON 0 ;;
              match r with
              | Err err => ret (Err ("failed to store user: " +:+ err))
              | Ok _ =>
                  let usernameKey := "username:" +:+ Username user in
                  r <- redis.Set_ usernameKey (ID user) 0 ;;
                  match r with
                  | Err err => ret (Err ("failed to create username index: " +:+ err))
                  | Ok _ =>
                      r <- redis.Set_ openIDKey (ID user) 0 ;;
                      match r with
                      | Err err => ret (Err ("failed to create OpenID index: " +:+ err))
                      | Ok _ => ret (Ok user)
                      end
                  end
              end
          end
    end.

(** [UserStore.Update]. As in [Create], the timestamp written into
    [user] is not read back by a caller. *)
Definition Update (user : User) : M (result unit) :=
  r <- GetByID (ID user) ;;
  match r with
  | Err err => ret (Err err)
  | Ok _ =>
      now <- redis.time_Now ;;
      let user := {| ID := ID user; Username := Username user;
                     Password := Password user; Email := Email user;
                     OpenID := OpenID user; CreatedAt := CreatedAt user;
                     UpdatedAt := now |} in
      match Marshal user with
      | Err err => ret (Err ("failed to marshal user: " +:+ err))
      | Ok userJSON =>
          let key := "user:" +:+ ID user in
          r <- redis.Set_ key userJSON 0 ;;
          match r with
          | Err err => ret (Err ("failed to update user: " +:+ err))
          | Ok _ => ret (Ok tt)
          end
      end
  end.

Definition Delete (id : string) : M (result unit) :=
  r <- GetByID id ;;
  match r with
  | Err err => ret (Err err)
  | Ok user =>
      let key := "user:" +:+ id in
      r <- redis.Del key ;;
      match r with
      | Err err => ret (Err ("failed to delete user: " +:+ err))
      | Ok _ =>
          let usernameKey := "username:" +:+ Username user in
          r <- redis.Del usernameKey ;;
          match r with
          | Err err => ret (Err ("failed to delete username index: " +:+ err))
          | Ok _ =>
              if negb (String.eqb (OpenID user) "") then
                let openIDKey := "openid:" +:+ OpenID user in
                r <- redis.Del openIDKey ;;
                match r with
                | Err err => ret (Err ("failed to delete OpenID index: " +:+ err))
                | Ok _ => ret (Ok tt)
                end
              else ret (Ok tt)
          end
      end
  end.

End models.
End models.

(** ** net/http status codes and the [strings] package *)
Module http.
Definition StatusOK : Z := 200.
Definition StatusCreated : Z := 201.
Definition StatusBadRequest : Z := 400.
Definition StatusUnauthorized : Z := 401.
Definition StatusConflict : Z := 409.
Definition StatusInternalServerError : Z := 500.
End http.

Module strings.

(** [strings.Split(s, sep)] for a one-byte separator: every occurrence
    of [sep] ends a part, so [n] separators give [n + 1] parts. *)
Fixpoint Split (s : string) (sep : ascii) : list string :=
  match s with
  | EmptyString => [""]
  | String ch rest =>
      if Ascii.eqb ch sep then "" :: Split rest sep
      else match Split rest sep with
           | part :: parts => String ch part :: parts
           | [] => [String ch ""]
           end
  end.

Fixpoint Join (parts : list string) (sep : string) : string :=
  match parts with
  | [] => ""
  | [part] => part
  | part :: rest => part +:+ sep +:+ Join rest sep
  end.

End strings.

(** ** gin: request context, responses, handler chains *)
Module gin.

Record Response := { status : Z; body : list (string * jvalue) }.

Record Context := {
  Authorization : string;   (* the request header, empty when absent *)
  RequestBody : string;
  Keys : gmap string string;
  Writer : option Response;
  Aborted : bool
}.

(** A request as the router hands it to the first handler. *)
Definition request (authorization body : string) : Context :=
  {| Authorization := authorization; RequestBody := body;
     Keys := ∅; Writer := None; Aborted := false |}.

(** [gin.H]: a map literal, rendered with its keys in sorted order. *)
Definition H (members : list (string * jvalue)) : list (string * jvalue) := members.

Definition JSON (code : Z) (obj : list (string * jvalue)) (c : Context) : Context :=
  {| Authorization := Authorization c; RequestBody := RequestBody c;
     Keys := Keys c; Writer := Some {| status := code; body := obj |};
     Aborted := Aborted c |}.

Definition Abort (c : Context) : Context :=
  {| Authorization := Authorization c; RequestBody := RequestBody c;
     Keys := Keys c; Writer := Writer c; Aborted := true |}.

Definition AbortWithStatusJSON (code : Z) (obj : list (string * jvalue))
    (c : Context) : Context :=
  JSON code obj (Abort c).

Definition Set_ (key val : string) (c : Context) : Context :=
  {| Authorization := Authorization c; RequestBody := RequestBody c;
     Keys := <[key := val]> (Keys c); Writer := Writer c;
     Aborted := Aborted c |}.

Definition Get (key : string) (c : Context) : option string := Keys c !! key.

Definition HandlerFunc : Type := Context -> M Context.

(** [c.Next()]: the handlers of the route run in order until one aborts. *)
Fixpoint Next (handlers : list HandlerFunc) (c : Context) : M Context :=
  match handlers with
  | [] => ret c
  | h :: rest =>
      if Aborted c then ret c
      else c' <- h c ;; Next rest c'
  end.

Definition status_of (c : Context) : option Z := status <$> Writer c.
Definition body_of (c : Context) : option (list (string * jvalue)) := body <$> Writer c.

End gin.

(** ** go-playground/validator: the binding tags in use *)
Module validator.

(** [utf8.RuneCountInString] on well-formed UTF-8 (the JSON decoder
    yields nothing else): the bytes that do not continue a rune. *)
Fixpoint RuneCountInString (s : string) : Z :=
  match s with
  | EmptyString => 0
  | String ch rest =>
      let b := Z.of_N (N_of_ascii ch) in
      (if (128 <=? b) && (b <? 192) then 0 else 1) + RuneCountInString rest
  end.

Definition required (s : string) : bool := negb (String.eqb s "").
Definition min (n : Z) (s : string) : bool := n <=? RuneCountInString s.
Definition max (n : Z) (s : string) : bool := RuneCountInString s <=? n.

Fixpoint first_failed (tags : list (string * bool)) : option string :=
  match tags with
  | [] => None
  | (tag, passed) :: rest => if passed then first_failed rest else Some tag
  end.

Definition field_error (struct field tag : string) : string :=
  "Key: '" +:+ struct +:+ "." +:+ field +:+ "' Error:Field validation for '"
  +:+ field +:+ "' failed on the '" +:+ tag +:+ "' tag".

Fixpoint field_errors (struct : string)
    (fields : list (string * list (string * bool))) : list string :=
  match fields with
  | [] => []
  | (field, tags) :: rest =>
      match first_failed tags with
      | Some tag => field_error struct field tag :: field_errors struct rest
      | None => field_errors struct rest
      end
  end.

(** [Struct]: every field is checked, the failures are reported together. *)
Definition Struct (struct : string)
    (fields : list (string * list (string * bool))) : result unit :=
  match field_errors struct fields with
  | [] => Ok tt
  | errs => Err (strings.Join errs (String "010"%char ""))
  end.

End validator.

(** ** package middleware *)
Module middleware.
Section middleware.
Context `{Ext : Externals}.

Record AuthMiddleware := { jwtManager : utils.JWTManager }.

Definition NewAuthMiddleware (jwtManager : utils.JWTManager) : AuthMiddleware :=
  {| jwtManager := jwtManager |}.

(** [AuthRequired]. Its final [c.Next()] is the chain going on to the
    next handler, which [gin.Next] does for a context not aborted. *)
Definition AuthRequired (m : AuthMiddleware) : gin.HandlerFunc := fun c =>
  let authHeader := gin.Authorization c in
  if String.eqb authHeader "" then
    ret (gin.AbortWithStatusJSON http.StatusUnauthorized
           (gin.H [("error", JString "Authorization header is required")]) c)
  else
    let parts := strings.Split authHeader " "%char in
    match parts with
    | [scheme; tokenString] =>
        if negb (String.eqb scheme "Bearer") then
          ret (gin.AbortWithStatusJSON http.StatusUnauthorized
                 (gin.H [("error", JString "Authorization header format must be Bearer {token}")]) c)
        else
          r <- utils.ValidateAccessToken (jwtManager m) tokenString ;;
          match r with
          | Err _ =>
              ret (gin.AbortWithStatusJSON http.StatusUnauthorized
                     (gin.H [("error", JString "Invalid or expired token")]) c)
          | Ok claims => ret (gin.Set_ "userID" (UserID claims) c)
          end
    | _ =>
        ret (gin.AbortWithStatusJSON http.StatusUnauthorized
               (gin.H [("error", JString "Authorization header format must be Bearer {token}")]) c)
    end.

End middleware.
End middleware.

(** ** package handlers *)
Module handlers.

Module RegisterRequest.
Record t := { Username : string; Password : string; Email : string }.
End RegisterRequest.

Module LoginRequest.
Record t := { Username : string; Password : string }.
End LoginRequest.

Module TokenResponse.
Record t := { AccessToken : string; RefreshToken : string; ExpiresIn : Z }.

Definition json (r : t) : list (string * jvalue) :=
  [("access_token", JString (AccessToken r));
   ("refresh_token", JString (RefreshToken r));
   ("expires_in", JNumber (ExpiresIn r))].
End TokenResponse.

Module RefreshRequest.
Record t := { RefreshToken : string }.
End RefreshRequest.

Module WeChatLoginRequest.
Record t := { Code : string }.
End WeChatLoginRequest.

Section handlers.
Context `{Ext : Externals}.

Record AuthHandler := {
  jwtManager : utils.JWTManager;
  wechatManager : utils.WeChatManager
}.

(** The user store and the Redis client of the handler are the one
    Redis of the [World]. *)
Definition NewAuthHandler (jwtManager : utils.JWTManager)
    (wechatManager : utils.WeChatManager) : AuthHandler :=
  {| jwtManager := jwtManager; wechatManager := wechatManager |}.

(** [c.ShouldBindJSON(&req)] for each request type: decode the body into
    the struct, then check the [binding] tags. *)
Definition ShouldBindJSON_RegisterRequest (c : gin.Context) : result RegisterRequest.t :=
  match json_parse (gin.RequestBody c) with
  | None => Err "invalid character"
  | Some j =>
      and_then (string_field "username" j) (fun username =>
      and_then (string_field "password" j) (fun password =>
      and_then (string_field "email" j) (fun email =>
      and_then (validator.Struct "RegisterRequest"
                  [("Username", [("required", validator.required username);
                                 ("min", validator.min 3 username);
                                 ("max", validator.max 30 username)]);
                   ("Password", [("required", validator.required password);
                                 ("min", validator.min 6 password)]);
                   ("Email", [("required", validator.required email);
                              ("email", validator_email email)])])
        (fun _ => Ok {| RegisterRequest.Username := username;
                        RegisterRequest.Password := password;
                        RegisterRequest.Email := email |}))))
  end.

Definition ShouldBindJSON_LoginRequest (c : gin.Context) : result LoginRequest.t :=
  match json_parse (gin.RequestBody c) with
  | None => Err "invalid character"
  | Some j =>
      and_then (string_field "username" j) (fun username =>
      and_then (string_field "password" j) (fun password =>
      and_then (validator.Struct "LoginRequest"
                  [("Username", [("required", validator.required username)]);
                   ("Password", [("required", validator.required password)])])
        (fun _ => Ok {| LoginRequest.Username := username;
                        LoginRequest.Password := password |})))
  end.

Definition ShouldBindJSON_RefreshRequest (c : gin.Context) : result RefreshRequest.t :=
  match json_parse (gin.RequestBody c) with
  | None => Err "invalid character"
  | Some j =>
      and_then (string_field "refresh_token" j) (fun refreshToken =>
      and_then (validator.Struct "RefreshRequest"
                  [("RefreshToken", [("required", validator.required refreshToken)])])
        (fun _ => Ok {| RefreshRequest.RefreshToken := refreshToken |}))
  end.

Definition ShouldBindJSON_WeChatLoginRequest (c : gin.Context) : result WeChatLoginRequest.t :=
  match json_parse (gin.RequestBody c) with
  | None => Err "invalid character"
  | Some j =>
      and_then (string_field "code" j) (fun code =>
      and_then (validator.Struct "WeChatLoginRequest"
                  [("Code", [("required", validator.required code)])])
        (fun _ => Ok {| WeChatLoginRequest.Code := code |}))
  end.

Definition error_body (msg : string) : list (string * jvalue) :=
  gin.H [("error", JString msg)].

Definition Register (h : AuthHandler) : gin.HandlerFunc := fun c =>
  match ShouldBindJSON_RegisterRequest c with
  | Err err => ret (gin.JSON http.StatusBadRequest (error_body err) c)
  | Ok req =>
      r <- models.GetByUsername (RegisterRequest.Username req) ;;
      match r with
      | Ok _ => ret (gin.JSON http.StatusConflict (error_body "username already exists") c)
      | Err _ =>
          match bcrypt_GenerateFromPassword (RegisterRequest.Password req) with
          | Err _ =>
              ret (gin.JSON http.StatusInternalServerError
                     (error_body "failed to hash password") c)
          | Ok hashedPassword =>
              let user := {| models.ID := RegisterRequest.Username req;
                             models.Username := RegisterRequest.Username req;
                             models.Password := hashedPassword;
                             models.Email := RegisterRequest.Email req;
                             models.OpenID := "";
                             models.CreatedAt := zeroTime;
                             models.UpdatedAt := zeroTime |} in
              r <- models.Create user ;;
              match r with
              | Err _ =>
                  ret (gin.JSON http.StatusInternalServerError
                         (error_body "failed to create user") c)
              | Ok _ =>
                  ret (gin.JSON http.StatusCreated
                         (gin.H [("message", JString "user registered successfully");
                                 ("user_id", JString (models.ID user))]) c)
              end
          end
      end
  end.

Definition Login (h : AuthHandler) : gin.HandlerFunc := fun c =>
  match ShouldBindJSON_LoginRequest c with
  | Err err => ret (gin.JSON http.StatusBadRequest (error_body err) c)
  | Ok req =>
      r <- models.GetByUsername (LoginRequest.Username req) ;;
      match r with
      | Err _ =>
          ret (gin.JSON http.StatusUnauthorized
                 (error_body "invalid username or password") c)
      | Ok user =>
          if negb (bcrypt_CompareHashAndPassword (models.Password user)
                     (LoginRequest.Password req))
          then ret (gin.JSON http.StatusUnauthorized
                      (error_body "invalid username or password") c)
          else
            r <- utils.GenerateAccessToken (jwtManager h) (models.ID user) ;;
            match r with
            | Err _ =>
                ret (gin.JSON http.StatusInternalServerError
                       (error_body "failed to generate access token") c)
            | Ok accessToken =>
                r <- utils.GenerateRefreshToken (jwtManager h) (models.ID user) ;;
                match r with
                | Err _ =>
                    ret (gin.JSON http.StatusInternalServerError
                           (error_body "failed to generate refresh token") c)
                | Ok refreshToken =>
                    let refreshTokenKey := "refresh_token:" +:+ refreshToken in
                    r <- redis.Set_ refreshTokenKey (models.ID user) (7 * 24 * Hour) ;;
                    match r with
                    | Err _ =>
                        ret (gin.JSON http.StatusInternalServerError
                               (error_body "failed to store refresh token") c)
                    | Ok _ =>
                        ret (gin.JSON http.StatusOK
                               (TokenResponse.json
                                  {| TokenResponse.AccessToken := accessToken;
                                     TokenResponse.RefreshToken := refreshToken;
                                     TokenResponse.ExpiresIn := 15 * 60 |}) c)
                    end
                end
            end
      end
  end.

Definition RefreshToken (h : AuthHandler) : gin.HandlerFunc := fun c =>
  match ShouldBindJSON_RefreshRequest c with
  | Err err => ret (gin.JSON http.StatusBadRequest (error_body err) c)
  | Ok req =>
      r <- utils.ValidateRefreshToken (jwtManager h) (RefreshRequest.RefreshToken req) ;;
      match r with
      | Err _ =>
          ret (gin.JSON http.StatusUnauthorized (error_body "invalid refresh token") c)
      | Ok claims =>
          let refreshTokenKey := "refresh_token:" +:+ RefreshRequest.RefreshToken req in
          r <- redis.Get refreshTokenKey ;;
          match r with
          | Err _ =>
              ret (gin.JSON http.StatusUnauthorized
                     (error_body "refresh token has been revoked") c)
          | Ok userID =>
              if negb (String.eqb userID (UserID claims)) then
                ret (gin.JSON http.StatusUnauthorized
                       (error_body "invalid refresh token") c)
              else
                r <- utils.GenerateAccessToken (jwtManager h) (UserID claims) ;;
                match r with
                | Err _ =>
                    ret (gin.JSON http.StatusInternalServerError
                           (error_body "failed to generate access token") c)
                | Ok accessToken =>
                    ret (gin.JSON http.StatusOK
                           (gin.H [("access_token", JString accessToken);
                                   ("expires_in", JNumber (15 * 60))]) c)
                end
          end
      end
  end.

Definition Logout (h : AuthHandler) : gin.HandlerFunc := fun c =>
  match ShouldBindJSON_RefreshRequest c with
  | Err err => ret (gin.JSON http.StatusBadRequest (error_body err) c)
  | Ok req =>
      let refreshTokenKey := "refresh_token:" +:+ RefreshRequest.RefreshToken req in
      r <- redis.Del refreshTokenKey ;;
      match r with
      | Err _ =>
          ret (gin.JSON http.StatusInternalServerError (error_body "failed to logout") c)
      | Ok _ =>
          ret (gin.JSON http.StatusOK
                 (gin.H [("message", JString "logged out successfully")]) c)
      end
  end.

Definition Me (h : AuthHandler) : gin.HandlerFunc := fun c =>
  match gin.Get "userID" c with
  | None => ret (gin.JSON http.StatusUnauthorized (error_body "not authenticated") c)
  | Some userID =>
      r <- models.GetByID userID ;;
      match r with
      | Err _ =>
          ret (gin.JSON http.StatusInternalServerError (error_body "failed to get user") c)
      | Ok user => ret (gin.JSON http.StatusOK (models.User_json user) c)
      end
  end.

Definition WeChatLogin (h : AuthHandler) : gin.HandlerFunc := fun c =>
  match ShouldBindJSON_WeChatLoginRequest c with
  | Err err => ret (gin.JSON http.StatusBadRequest (error_body err) c)
  | Ok req =>
      match utils.Code2Session (wechatManager h) (WeChatLoginRequest.Code req) with
      | Err err =>
          ret (gin.JSON http.StatusInternalServerError
                 (error_body ("failed to exchange code: " +:+ err)) c)
      | Ok sessionInfo =>
          r <- models.CreateWeChatUser (utils.OpenID sessionInfo) ;;
          match r with
          | Err err =>
              ret (gin.JSON http.StatusInternalServerError
                     (error_body ("failed to create user: " +:+ err)) c)
          | Ok user =>
              r <- utils.GenerateAccessToken (jwtManager h) (models.ID user) ;;
              match r with
              | Err _ =>
                  ret (gin.JSON http.StatusInternalServerError
                         (error_body "failed to generate access token") c)
              | Ok accessToken =>
                  r <- utils.GenerateRefreshToken (jwtManager h) (models.ID user) ;;
                  match r with
                  | Err _ =>
                      ret (gin.JSON http.StatusInternalServerError
                             (error_body "failed to generate refresh token") c)
                  | Ok refreshToken =>
                      let refreshTokenKey := "refresh_token:" +:+ refreshToken in
                      r <- redis.Set_ refreshTokenKey (models.ID user) (7 * 24 * Hour) ;;
                      match r with
                      | Err _ =>
                          ret (gin.JSON http.StatusInternalServerError
                                 (error_body "failed to store refresh token") c)
                      | Ok _ =>
                          let tokenResp :=
                            {| TokenResponse.AccessToken := accessToken;
                               TokenResponse.RefreshToken := refreshToken;
                               TokenResponse.ExpiresIn := 15 * 60 |} in
                          ret (gin.JSON http.StatusOK (TokenResponse.json tokenResp) c)
                      end
                  end
              end
          end
      end
  end.

End handlers.
End handlers.

(** ** package main: wiring and routes *)
Module main.
Section main.
Context `{Ext : Externals}.

(** The process environment and the reverse proxy behind the
    authenticated routes. *)
Variable Getenv : string -> string.
Variable proxyHandler : gin.HandlerFunc.

Definition cfg : config.Config := config.GetConfig Getenv.
Definition jwtManager : utils.JWTManager := utils.NewJWTManager (config.JWT cfg).
Definition wechatManager : utils.WeChatManager := utils.NewWeChatManager (config.WeChat cfg).
Definition authMiddleware : middleware.AuthMiddleware :=
  middleware.NewAuthMiddleware jwtManager.
Definition authHandler : handlers.AuthHandler :=
  handlers.NewAuthHandler jwtManager wechatManager.

Definition health : gin.HandlerFunc := fun c =>
  ret (gin.JSON http.StatusOK (gin.H [("status", JString "ok")]) c).

Definition api_protected : gin.HandlerFunc := fun c =>
  let userID := default "" (gin.Get "userID" c) in
  ret (gin.JSON http.StatusOK
         (gin.H [("message", JString "This is a protected endpoint");
                 ("user_id", JString userID)]) c).

(** The group [protected]: [AuthRequired] runs before the handler. *)
Definition protected (handler : gin.HandlerFunc) : list gin.HandlerFunc :=
  [middleware.AuthRequired authMiddleware; handler].

Definition proxied : list string :=
  ["/v1/daily_house"; "/v1/daily_new_house"; "/v1/daily_unfinished_house";
   "/v1/month_house"; "/v2/sh/new_daily_house"; "/v2/sh/old_daily_house";
   "/v3/fortune/daily"].

Definition routes (method path : string) : option (list gin.HandlerFunc) :=
  if String.eqb method "POST" then
    if String.eqb path "/register" then Some [handlers.Register authHandler]
    else if String.eqb path "/login" then Some [handlers.Login authHandler]
    else if String.eqb path "/refresh" then Some [handlers.RefreshToken authHandler]
    else if String.eqb path "/logout" then Some [handlers.Logout authHandler]
    else if String.eqb path "/wechat/login" then Some [handlers.WeChatLogin authHandler]
    else None
  else if String.eqb method "GET" then
    if String.eqb path "/health" then Some [health]
    else if String.eqb path "/me" then Some (protected (handlers.Me authHandler))
    else if String.eqb path "/api/protected" then Some (protected api_protected)
    else if existsb (String.eqb path) proxied then Some (protected proxyHandler)
    else None
  else None.

End main.
End main.

(** * Vocabulary of the statements *)

Section Vocabulary.
Context `{Ext : Externals}.

(** The claims [generateToken] builds at instant [t], and the token text
    it signs them into. *)
Definition minted_claims (userID : string) (tokenType : TokenType) (ttl t : Z) : Claims :=
  {| UserID := userID;
     Type_ := tokenType;
     Registered := {| ExpiresAt := jwt.NewNumericDate (t + ttl);
                      IssuedAt := jwt.NewNumericDate t;
                      NotBefore := jwt.NewNumericDate t |} |}.

Definition minted (m : utils.JWTManager) (userID : string)
    (tokenType : TokenType) (ttl t : Z) : string :=
  jwt_compact jwt.SigningMethodHS256 (minted_claims userID tokenType ttl t)
    (hmac jwt.SigningMethodHS256 (config.SecretKey (utils.config m))
       (jwt_signing_input jwt.SigningMethodHS256 (minted_claims userID tokenType ttl t))).

(** The claims a token text carries, whoever signed it. *)
Definition carried_claims (tokenString : string) : option Claims :=
  match jwt_parse tokenString with
  | Some (_, c, _, _) => Some c
  | None => None
  end.

(** The Redis key of a refresh token, and what a lookup of it yields:
    the owner recorded for the token, if the store answers and holds an
    unexpired entry. *)
Definition ledger_key (refreshToken : string) : string :=
  "refresh_token:" +:+ refreshToken.

Definition ledger_lookup (w : World) (refreshToken : string) : option string :=
  if redis.next_fault w then None
  else redis.value <$> redis.visible w (ledger_key refreshToken).

(** A string member of a response body. *)
Definition body_string (k : string) (c : gin.Context) : option string :=
  match gin.body_of c with
  | Some b => match member k b with
              | Some (JString s) => Some s
              | _ => None
              end
  | None => None
  end.

Definition body_number (k : string) (c : gin.Context) : option Z :=
  match gin.body_of c with
  | Some b => match member k b with
              | Some (JNumber n) => Some n
              | _ => None
              end
  | None => None
  end.

(** The tail [Login] and [WeChatLogin] have in common: mint both tokens,
    record the refresh token in Redis, answer with the token response. *)
Definition issue_tokens (h : handlers.AuthHandler) (userID : string) : gin.HandlerFunc := fun c =>
  r <- utils.GenerateAccessToken (handlers.jwtManager h) userID ;;
  match r with
  | Err _ =>
      ret (gin.JSON http.StatusInternalServerError
             (handlers.error_body "failed to generate access token") c)
  | Ok accessToken =>
      r <- utils.GenerateRefreshToken (handlers.jwtManager h) userID ;;
      match r with
      | Err _ =>
          ret (gin.JSON http.StatusInternalServerError
                 (handlers.error_body "failed to generate refresh token") c)
      | Ok refreshToken =>
          let refreshTokenKey := "refresh_token:" +:+ refreshToken in
          r <- redis.Set_ refreshTokenKey userID (7 * 24 * Hour) ;;
          match r with
          | Err _ =>
              ret (gin.JSON http.StatusInternalServerError
                     (handlers.error_body "failed to store refresh token") c)
          | Ok _ =>
              ret (gin.JSON http.StatusOK
                     (handlers.TokenResponse.json
                        {| handlers.TokenResponse.AccessToken := accessToken;
                           handlers.TokenResponse.RefreshToken := refreshToken;
                           handlers.TokenResponse.ExpiresIn := 15 * 60 |}) c)
          end
      end
  end.

(** The conditions under which a refresh token is honoured: it
    validates as a refresh token, the ledger lookup of its exact value
    yields an owner, and that owner is the subject it claims. *)
Definition refreshable (h : handlers.AuthHandler) (w : World) (T : string) : Prop :=
  exists claims owner,
    fst (utils.ValidateRefreshToken (handlers.jwtManager h) T w) = Ok claims /\
    ledger_lookup w T = Some owner /\
    owner = UserID claims.

(** Keys of the revocation ledger; every other key belongs to the
    identity records and their indexes. *)
Definition ledger_entry (key : string) : Prop :=
  exists refreshToken, key = ledger_key refreshToken.

(** Only ledger entries carry an expiry. Every write of the service
    keeps it so: identity records and indexes are stored without one. *)
Definition persistent_identities (w : World) : Prop :=
  forall key e,
    db w !! key = Some e -> redis.expireAt e <> None -> ledger_entry key.

(** A computation that keeps identities persistent. *)
Definition keeps_persistent {A} (m : M A) : Prop :=
  forall w, persistent_identities w -> persistent_identities (snd (m w)).

(** Two stores hold the same identity records and indexes. *)
Definition same_identities (w w' : World) : Prop :=
  forall key, ~ ledger_entry key -> db w !! key = db w' !! key.

(** The principal a token response was issued to: the subject of its
    access token. *)
Definition principal (c : gin.Context) : option string :=
  match body_string "access_token" c with
  | Some accessToken => UserID <$> carried_claims accessToken
  | None => None
  end.

(** What a response body shows of a user record: its id, username,
    e-mail address, OpenID when it has one, and timestamps. Nothing is
    said of a password member. *)
Definition shows_record (user : models.User) (body : list (string * jvalue)) : Prop :=
  member "id" body = Some (JString (models.ID user)) /\
  member "username" body = Some (JString (models.Username user)) /\
  member "email" body = Some (JString (models.Email user)) /\
  (models.OpenID user <> "" ->
   member "open_id" body = Some (JString (models.OpenID user))) /\
  member "created_at" body = Some (JTime (models.CreatedAt user)) /\
  member "updated_at" body = Some (JTime (models.UpdatedAt user)).

(** The user [CreateWeChatUser] makes for an OpenID, stamped with the
    two instants it read off the clock. *)
Definition wechat_user (openID : string) (createdAt updatedAt : Z) : models.User :=
  {| models.ID := "wx_" +:+ openID; models.Username := "wx_" +:+ openID;
     models.Password := ""; models.Email := ""; models.OpenID := openID;
     models.CreatedAt := createdAt; models.UpdatedAt := updatedAt |}.

(** The record [CreateWeChatUser] makes for an OpenID not seen before. *)
Definition new_wechat_user (openID : string) (t : Z) : models.User :=
  {| models.ID := "wx_" +:+ openID; models.Username := "wx_" +:+ openID;
     models.Password := ""; models.Email := ""; models.OpenID := openID;
     models.CreatedAt := t; models.UpdatedAt := t |}.

(** A user record with the timestamps [Create] stamps on it, and with
    the one [Update] stamps. *)
Definition created_at (user : models.User) (t : Z) : models.User :=
  {| models.ID := models.ID user; models.Username := models.Username user;
     models.Password := models.Password user; models.Email := models.Email user;
     models.OpenID := models.OpenID user;
     models.CreatedAt := t; models.UpdatedAt := t |}.

Definition updated_at (user : models.User) (t : Z) : models.User :=
  {| models.ID := models.ID user; models.Username := models.Username user;
     models.Password := models.Password user; models.Email := models.Email user;
     models.OpenID := models.OpenID user;
     models.CreatedAt := models.CreatedAt user; models.UpdatedAt := t |}.

(** The entry a user record is stored as. *)
Definition record_of (user : models.User) : redis.entry :=
  {| redis.value := json_render (models.User_json user); redis.expireAt := None |}.

(** An index entry pointing to a primary id. *)
Definition index_to (id : string) : redis.entry :=
  {| redis.value := id; redis.expireAt := None |}.

(** The store is coherent when every username index entry points to
    the username itself, and every record stored under an id names that
    id. *)
Definition coherent (w : World) : Prop :=
  (forall username e,
     db w !! ("username:" +:+ username) = Some e -> redis.value e = username) /\
  (forall id e user,
     db w !! ("user:" +:+ id) = Some e ->
     models.Unmarshal (redis.value e) = Ok user -> models.ID user = id).

Definition keeps_coherent {A} (m : M A) : Prop :=
  forall w, coherent w -> coherent (snd (m w)).

(** The request carries a bearer token that validates as an access
    token of the principal [userID]. *)
Definition authenticated (m : middleware.AuthMiddleware) (w : World)
    (c : gin.Context) (userID : string) : Prop :=
  exists tokenString claims,
    strings.Split (gin.Authorization c) " "%char = ["Bearer"; tokenString] /\
    fst (utils.ValidateAccessToken (middleware.jwtManager m) tokenString w) = Ok claims /\
    UserID claims = userID.

(** The ways a request to a protected route fails authentication: no
    header, a header that is not [Bearer {token}], a signature that does
    not verify, an expired token, a token of another kind, or any other
    token the validator turns down. *)
Inductive auth_failure (m : middleware.AuthMiddleware) (w : World)
    (c : gin.Context) : Prop :=
| missing_header :
    gin.Authorization c = "" ->
    auth_failure m w c
| malformed_header :
    gin.Authorization c <> "" ->
    (forall tokenString,
       strings.Split (gin.Authorization c) " "%char <> ["Bearer"; tokenString]) ->
    auth_failure m w c
| bad_signature tokenString alg claims signingString sig :
    strings.Split (gin.Authorization c) " "%char = ["Bearer"; tokenString] ->
    jwt_parse tokenString = Some (alg, claims, signingString, sig) ->
    jwt.Verify alg signingString sig
      (config.SecretKey (utils.config (middleware.jwtManager m))) = false ->
    auth_failure m w c
| expired_token tokenString claims exp :
    strings.Split (gin.Authorization c) " "%char = ["Bearer"; tokenString] ->
    carried_claims tokenString = Some claims ->
    ExpiresAt (Registered claims) = Some exp ->
    exp <= now w ->
    auth_failure m w c
| wrong_kind tokenString claims :
    strings.Split (gin.Authorization c) " "%char = ["Bearer"; tokenString] ->
    carried_claims tokenString = Some claims ->
    Type_ claims <> utils.AccessToken ->
    auth_failure m w c
| rejected_token tokenString :
    strings.Split (gin.Authorization c) " "%char = ["Bearer"; tokenString] ->
    is_Ok (fst (utils.ValidateAccessToken (middleware.jwtManager m) tokenString w)) = false ->
    auth_failure m w c.

End Vocabulary.

(** ** A computable instance of the collaborators

    Texts are the hexadecimal numeral of the value's code, so parsing
    inverts rendering; the MAC is the numeral of algorithm, key and
    input; the remote endpoint knows two codes of one WeChat user. *)
Module Mock.

#[local] Instance jvalue_eq_dec : EqDecision jvalue.
Proof. solve_decision. Defined.

#[local] Instance jvalue_countable : Countable jvalue.
Proof.
  refine (inj_countable'
    (fun v => match v with
              | JString s => inl s
              | JNumber n => inr (inl n)
              | JTime t => inr (inr t)
              end)
    (fun x => match x with
              | inl s => JString s
              | inr (inl n) => JNumber n
              | inr (inr t) => JTime t
              end) _).
  intros []; reflexivity.
Defined.

#[local] Instance RegisteredClaims_eq_dec : EqDecision RegisteredClaims.
Proof. solve_decision. Defined.

#[local] Instance Claims_eq_dec : EqDecision Claims.
Proof. solve_decision. Defined.

#[local] Instance Claims_countable : Countable Claims.
Proof.
  refine (inj_countable'
    (fun c => (UserID c, Type_ c,
               (ExpiresAt (Registered c), IssuedAt (Registered c), NotBefore (Registered c))))
    (fun x => match x with
              | (u, t, (e, i, n)) =>
                  {| UserID := u; Type_ := t;
                     Registered := {| ExpiresAt := e; IssuedAt := i; NotBefore := n |} |}
              end) _).
  intros [u t [e i n]]; reflexivity.
Defined.

Definition text {A} `{Countable A} (a : A) : string := HexString.of_pos (encode a).
Definition untext {A} `{Countable A} (s : string) : option A := decode (HexString.to_pos s).

Definition signing_input (alg : string) (c : Claims) : string := text (alg, c).

Definition parse (tokenString : string) : option (string * Claims * string * string) :=
  match untext tokenString with
  | Some (alg, c, sig) => Some (alg, c, signing_input alg c, sig)
  | None => None
  end.

Definition code2session_url (code : string) : string :=
  utils.WeChatCode2SessionURL "wx-app" "wx-secret" code.

Definition endpoint (url : string) : result string :=
  if String.eqb url (code2session_url "code-1")
     || String.eqb url (code2session_url "code-2")
  then Ok (text [("openid", JString "o-alice"); ("session_key", JString "sk");
                 ("errcode", JNumber 0)])
  else if String.eqb url (code2session_url "down") then Err "dial tcp: timeout"
  else Ok (text [("errcode", JNumber 40029); ("errmsg", JString "invalid code")]).

#[export] Instance externals : Externals.
Proof.
  refine {|
    json_render := text;
    json_parse := untext;
    jwt_signing_input := signing_input;
    jwt_compact := fun alg c sig => text (alg, c, sig);
    jwt_parse := parse;
    hmac := fun alg key input => text (alg, key, input);
    bcrypt_GenerateFromPassword := fun password =>
      if (72 <? Z.of_nat (String.length password))
      then Err "bcrypt: password length exceeds 72 bytes"
      else Ok ("$2a$10$" +:+ password);
    bcrypt_CompareHashAndPassword := fun hashed password =>
      String.eqb hashed ("$2a$10$" +:+ password);
    validator_email := fun s => existsb (Ascii.eqb "@"%char) (list_ascii_of_string s);
    http_Get := endpoint
  |}.
  - intros j. unfold untext, text.
    rewrite HexString.to_pos_of_pos. apply decode_encode.
  - intros alg c sig _. unfold parse, untext, text.
    rewrite HexString.to_pos_of_pos, decode_encode. reflexivity.
Defined.

Definition Getenv (name : string) : string :=
  if String.eqb name "JWT_SECRET_KEY" then "s3cret"
  else if String.eqb name "WECHAT_APPID" then "wx-app"
  else if String.eqb name "WECHAT_APPSECRET" then "wx-secret"
  else "".

Definition h : handlers.AuthHandler := main.authHandler Getenv.
Definition m : utils.JWTManager := main.jwtManager Getenv.

(** A fresh deployment at ten o'clock on some day. *)
Definition w0 : World := {| redis.now := 1700000000 * Second; redis.db := ∅; redis.faults := [] |}.

Definition post (body : list (string * jvalue)) : gin.Context :=
  gin.request "" (text body).

Definition bearer (tokenString : string) : gin.Context :=
  gin.request ("Bearer " +:+ tokenString) "".

(** Alice registers, then logs in. *)
Definition register_alice : gin.Context :=
  post [("username", JString "alice"); ("password", JString "secret1");
        ("email", JString "a@x.com")].

Definition login_alice : gin.Context :=
  post [("username", JString "alice"); ("password", JString "secret1")].

Definition alice : models.User :=
  {| models.ID := "alice"; models.Username := "alice";
     models.Password := "$2a$10$secret1"; models.Email := "a@x.com";
     models.OpenID := ""; models.CreatedAt := now w0; models.UpdatedAt := now w0 |}.

Definition registered : World := snd (handlers.Register h register_alice w0).
Definition logged_in : World := snd (handlers.Login h login_alice registered).

Definition alice_access : string :=
  minted m "alice" utils.AccessToken (15 * Minute) (now w0).
Definition alice_refresh : string :=
  minted m "alice" utils.RefreshToken (7 * 24 * Hour) (now w0).

(** One minute later. *)
Definition later (w : World) : World :=
  {| redis.now := now w + Minute; redis.db := db w; redis.faults := faults w |}.

(** The next Redis command fails. *)
Definition outage (w : World) : World :=
  {| redis.now := now w; redis.db := db w; redis.faults := [true] |}.

(** A valid access token whose subject has no record in the store. *)
Definition ghost_access : string :=
  minted m "ghost" utils.AccessToken (15 * Minute) (now w0).

Definition me : list gin.HandlerFunc :=
  main.protected Getenv (handlers.Me h).

(** What the WeChat endpoint answers for the two codes it knows. *)
Definition session : utils.Code2SessionResponse :=
  {| utils.OpenID := "o-alice"; utils.SessionKey := "sk"; utils.UnionID := "";
     utils.ErrCode := 0; utils.ErrMsg := "" |}.

(** The same service after its signing key was rotated. *)
Definition Getenv_rotated (name : string) : string :=
  if String.eqb name "JWT_SECRET_KEY" then "r0tated" else Getenv name.

Definition m_rotated : utils.JWTManager := main.jwtManager Getenv_rotated.

(** A store whose coming Redis commands fail as scripted. *)
Definition scripted (fs : list bool) (w : World) : World :=
  {| redis.now := now w; redis.db := db w; redis.faults := fs |}.

(** Alice's record stored by the user store alone, and the record an
    update renames her with. *)
Definition created : World := snd (models.Create alice w0).

Definition alicia : models.User :=
  {| models.ID := "alice"; models.Username := "alicia";
     models.Password := "$2a$10$secret1"; models.Email := "a@x.com";
     models.OpenID := ""; models.CreatedAt := now w0; models.UpdatedAt := now w0 |}.

(** A reverse proxy that touches no state. *)
Definition proxy : gin.HandlerFunc := fun c => ret c.

Definition refresh_alice : gin.Context :=
  post [("refresh_token", JString alice_refresh)].

End Mock.
(** * Properties *)

Section Properties.
Context `{Ext : Externals}.

(** ** Redis commands in closed form *)

Lemma roundtrip_eq w :
  redis.roundtrip w = (redis.next_fault w, redis.served w).
Proof.
  unfold redis.served, redis.next_fault, redis.roundtrip.
  destruct (faults w); reflexivity.
Qed.

Lemma served_now w : now (redis.served w) = now w.
Proof. unfold redis.served, redis.roundtrip. destruct (faults w); reflexivity. Qed.

Lemma served_db w : db (redis.served w) = db w.
Proof. unfold redis.served, redis.roundtrip. destruct (faults w); reflexivity. Qed.

Lemma visible_served w key :
  redis.visible (redis.served w) key = redis.visible w key.
Proof. unfold redis.visible. rewrite served_db, served_now. reflexivity. Qed.

Lemma Get_eq key w :
  redis.Get key w =
  (if redis.next_fault w then Err redis.io_error
   else match redis.visible w key with
        | Some e => Ok (redis.value e)
        | None => Err redis.Nil
        end,
   redis.served w).
Proof.
  unfold redis.Get, redis.bind. rewrite roundtrip_eq.
  destruct (redis.next_fault w); [reflexivity|].
  rewrite visible_served. destruct (redis.visible w key); reflexivity.
Qed.

Lemma Exists_eq key w :
  redis.Exists key w =
  (if redis.next_fault w then Err redis.io_error
   else match redis.visible w key with
        | Some _ => Ok 1
        | None => Ok 0
        end,
   redis.served w).
Proof.
  unfold redis.Exists, redis.bind. rewrite roundtrip_eq.
  destruct (redis.next_fault w); [reflexivity|].
  rewrite visible_served. destruct (redis.visible w key); reflexivity.
Qed.

Lemma Set_eq key val expiration w :
  redis.Set_ key val expiration w =
  if redis.next_fault w then (Err redis.io_error, redis.served w)
  else (Ok tt,
        {| redis.now := now w;
           redis.db := <[key := {| redis.value := val;
                                   redis.expireAt :=
                                     if 0 <? expiration
                                     then Some (now w + expiration) else None |}]> (db w);
           redis.faults := faults (redis.served w) |}).
Proof.
  unfold redis.Set_, redis.bind. rewrite roundtrip_eq.
  destruct (redis.next_fault w); [reflexivity|].
  rewrite served_now, served_db. reflexivity.
Qed.

Lemma Del_eq key w :
  redis.Del key w =
  if redis.next_fault w then (Err redis.io_error, redis.served w)
  else (Ok tt,
        {| redis.now := now w; redis.db := delete key (db w);
           redis.faults := faults (redis.served w) |}).
Proof.
  unfold redis.Del, redis.bind. rewrite roundtrip_eq.
  destruct (redis.next_fault w); [reflexivity|].
  rewrite served_now, served_db. reflexivity.
Qed.

(** ** Tokens *)

Lemma generateToken_eq m userID tokenType ttl w :
  utils.generateToken m userID tokenType ttl w =
  (Ok (minted m userID tokenType ttl (now w)), w).
Proof. reflexivity. Qed.

Lemma GenerateAccessToken_eq m userID w :
  utils.GenerateAccessToken m userID w =
  (Ok (minted m userID utils.AccessToken
         (config.AccessTokenTTL (utils.config m)) (now w)), w).
Proof. reflexivity. Qed.

Lemma GenerateRefreshToken_eq m userID w :
  utils.GenerateRefreshToken m userID w =
  (Ok (minted m userID utils.RefreshToken
         (config.RefreshTokenTTL (utils.config m)) (now w)), w).
Proof. reflexivity. Qed.

Lemma ParseWithClaims_eq tokenString keyFunc w :
  jwt.ParseWithClaims tokenString keyFunc w =
  (fst (jwt.ParseWithClaims tokenString keyFunc w), w).
Proof. reflexivity. Qed.

Lemma ValidateToken_eq m tokenString w :
  utils.ValidateToken m tokenString w = (fst (utils.ValidateToken m tokenString w), w).
Proof.
  unfold utils.ValidateToken, redis.bind. rewrite ParseWithClaims_eq.
  destruct (fst _); reflexivity.
Qed.

Lemma ValidateAccessToken_eq m tokenString w :
  utils.ValidateAccessToken m tokenString w =
  (fst (utils.ValidateAccessToken m tokenString w), w).
Proof.
  unfold utils.ValidateAccessToken, redis.bind. rewrite ValidateToken_eq.
  destruct (fst _) as [c|e]; [|reflexivity].
  destruct (negb _); reflexivity.
Qed.

Lemma ValidateRefreshToken_eq m tokenString w :
  utils.ValidateRefreshToken m tokenString w =
  (fst (utils.ValidateRefreshToken m tokenString w), w).
Proof.
  unfold utils.ValidateRefreshToken, redis.bind. rewrite ValidateToken_eq.
  destruct (fst _) as [c|e]; [|reflexivity].
  destruct (negb _); reflexivity.
Qed.

(** A token that validates carries the claims returned. *)
Lemma ValidateToken_carried m tokenString w c :
  fst (utils.ValidateToken m tokenString w) = Ok c ->
  carried_claims tokenString = Some c.
Proof.
  unfold utils.ValidateToken, jwt.ParseWithClaims, carried_claims, redis.bind,
    redis.time_Now, redis.ret. simpl.
  destruct (jwt_parse tokenString) as [[[[alg c'] input] sig]|]; [|discriminate].
  destruct (jwt.GetSigningMethod alg); [|discriminate].
  destruct (jwt.is_HMAC alg); [|discriminate].
  destruct (jwt.Verify _ _ _ _); [|discriminate].
  destruct (jwt.validate_claims _ _); [|discriminate].
  intros [= ->]. reflexivity.
Qed.

Lemma truncate_le t : t `div` Second * Second <= t.
Proof.
  pose proof (Z.mul_div_le t Second ltac:(reflexivity)). lia.
Qed.

Lemma truncate_idempotent t :
  (t `div` Second * Second) `div` Second * Second = t `div` Second * Second.
Proof. rewrite Z.div_mul by discriminate. reflexivity. Qed.

Lemma minted_whole_seconds userID tokenType ttl t :
  whole_seconds (minted_claims userID tokenType ttl t).
Proof.
  unfold whole_seconds, minted_claims, on_the_second, jwt.NewNumericDate.
  cbn [ExpiresAt IssuedAt NotBefore Registered].
  repeat split; apply truncate_idempotent.
Qed.

Lemma carried_minted m userID tokenType ttl t :
  carried_claims (minted m userID tokenType ttl t) =
  Some (minted_claims userID tokenType ttl t).
Proof.
  unfold carried_claims, minted.
  rewrite jwt_parse_compact by apply minted_whole_seconds. reflexivity.
Qed.

(** A freshly minted token validates with its own manager until expiry. *)
Lemma ValidateToken_minted m userID tokenType ttl w w' :
  now w <= now w' ->
  now w' < (now w + ttl) `div` Second * Second ->
  fst (utils.ValidateToken m (minted m userID tokenType ttl (now w)) w') =
  Ok (minted_claims userID tokenType ttl (now w)).
Proof.
  intros Hle Hlt.
  unfold utils.ValidateToken, jwt.ParseWithClaims, redis.bind,
    redis.time_Now, redis.ret, minted.
  cbn [fst snd]. rewrite jwt_parse_compact by apply minted_whole_seconds.
  change (jwt.GetSigningMethod jwt.SigningMethodHS256) with true.
  change (jwt.is_HMAC jwt.SigningMethodHS256) with true.
  cbv iota.
  unfold jwt.Verify.
  change (jwt.is_HMAC jwt.SigningMethodHS256) with true.
  rewrite String.eqb_refl. cbn [andb].
  unfold jwt.validate_claims, minted_claims, jwt.NewNumericDate.
  cbn [ExpiresAt NotBefore Registered].
  pose proof (truncate_le (now w)).
  destruct (Z.ltb_spec (now w') ((now w + ttl) `div` Second * Second)); [|lia].
  destruct (Z.ltb_spec (now w') (now w `div` Second * Second)); [lia|].
  reflexivity.
Qed.

(** C4. Round trip: the access token issued for an identity [I]
    validates, with the signing key that issued it and before its
    expires-at instant, to claims with subject [I] and kind access. *)
Theorem C4_access_token_round_trip (m : utils.JWTManager) (I : string) (w w' : World) :
  now w <= now w' ->
  now w' < (now w + config.AccessTokenTTL (utils.config m)) `div` Second * Second ->
  exists tok c,
    utils.GenerateAccessToken m I w = (Ok tok, w) /\
    ExpiresAt (Registered c) =
      Some ((now w + config.AccessTokenTTL (utils.config m)) `div` Second * Second) /\
    fst (utils.ValidateToken m tok w') = Ok c /\
    fst (utils.ValidateAccessToken m tok w') = Ok c /\
    UserID c = I /\ Type_ c = utils.AccessToken.
Proof.
  intros Hle Hlt.
  eexists _, (minted_claims I utils.AccessToken _ (now w)).
  split; [apply generateToken_eq|].
  split; [reflexivity|].
  pose proof (ValidateToken_minted m I utils.AccessToken _ w w' Hle Hlt) as Hv.
  split; [exact Hv|].
  split; [|split; reflexivity].
  unfold utils.ValidateAccessToken, redis.bind.
  rewrite ValidateToken_eq, Hv. reflexivity.
Qed.

Lemma wrong_kind_rejected (validate : utils.JWTManager -> string -> M (result Claims))
    (expected issued : TokenType) (msg : error) m m' userID ttl t w' :
  (forall tokenString w,
     validate m' tokenString w =
     (r <- utils.ValidateToken m' tokenString ;;
      match r with
      | Err err => ret (Err err)
      | Ok claims =>
          if negb (String.eqb (Type_ claims) expected)
          then ret (Err msg) else ret (Ok claims)
      end) w) ->
  String.eqb issued expected = false ->
  is_Ok (fst (validate m' (minted m userID issued ttl t) w')) = false.
Proof.
  intros Hdef Hkind. rewrite Hdef. unfold redis.bind.
  rewrite ValidateToken_eq.
  destruct (fst (utils.ValidateToken m' _ w')) as [c|e] eqn:Hv; [|reflexivity].
  apply ValidateToken_carried in Hv. rewrite carried_minted in Hv.
  injection Hv as <-. cbn [Type_ minted_claims]. rewrite Hkind. reflexivity.
Qed.

(** C3. Kind isolation: an issued access token never validates as a
    refresh token and an issued refresh token never validates as an
    access token, whatever the validating key and instant. *)
Theorem C3_kind_isolation (m m' : utils.JWTManager) (I : string) (w w' : World) :
  exists access refresh,
    utils.GenerateAccessToken m I w = (Ok access, w) /\
    utils.GenerateRefreshToken m I w = (Ok refresh, w) /\
    is_Ok (fst (utils.ValidateRefreshToken m' access w')) = false /\
    is_Ok (fst (utils.ValidateAccessToken m' refresh w')) = false.
Proof.
  eexists _, _.
  split; [apply generateToken_eq|].
  split; [apply generateToken_eq|].
  split.
  - apply (wrong_kind_rejected utils.ValidateRefreshToken utils.RefreshToken
             utils.AccessToken "token is not a refresh token");
      [intros; reflexivity | reflexivity].
  - apply (wrong_kind_rejected utils.ValidateAccessToken utils.AccessToken
             utils.RefreshToken "token is not an access token");
      [intros; reflexivity | reflexivity].
Qed.

(** The mismatch of kind is the reason: with its own key and before
    expiry the access token passes [ValidateToken] and is turned down by
    [ValidateRefreshToken] for its kind. *)
Lemma access_token_at_refresh (m : utils.JWTManager) (I : string) (w w' : World) :
  now w <= now w' ->
  now w' < (now w + config.AccessTokenTTL (utils.config m)) `div` Second * Second ->
  is_Ok (fst (utils.ValidateToken m
                (minted m I utils.AccessToken (config.AccessTokenTTL (utils.config m)) (now w))
                w')) = true /\
  fst (utils.ValidateRefreshToken m
         (minted m I utils.AccessToken (config.AccessTokenTTL (utils.config m)) (now w))
         w') = Err "token is not a refresh token".
Proof.
  intros Hle Hlt.
  pose proof (ValidateToken_minted m I utils.AccessToken _ w w' Hle Hlt) as Hv.
  split; [rewrite Hv; reflexivity|].
  unfold utils.ValidateRefreshToken, redis.bind.
  rewrite ValidateToken_eq, Hv. reflexivity.
Qed.

(** ** Refresh *)

(** The ledger key determines the token it was built from. *)
Lemma ledger_key_inj T T' : ledger_key T = ledger_key T' -> T = T'.
Proof. unfold ledger_key. simpl. intros [= H]. exact H. Qed.

(** A request presents a refresh token when its body is a JSON object
    whose [refresh_token] member is a non-empty string. *)
Lemma ShouldBindJSON_RefreshRequest_Ok c req :
  handlers.ShouldBindJSON_RefreshRequest c = Ok req <->
  exists j,
    json_parse (gin.RequestBody c) = Some j /\
    string_field "refresh_token" j = Ok (handlers.RefreshRequest.RefreshToken req) /\
    handlers.RefreshRequest.RefreshToken req <> "".
Proof.
  unfold handlers.ShouldBindJSON_RefreshRequest, and_then, validator.Struct,
    validator.required.
  destruct req as [T]. cbn [handlers.RefreshRequest.RefreshToken]. split.
  - destruct (json_parse _) as [j|]; [|discriminate].
    destruct (string_field _ j) as [s|e] eqn:Hs; [|discriminate].
    cbv beta iota. cbn [validator.field_errors validator.first_failed].
    destruct (String.eqb_spec s ""); cbn [negb]; [discriminate|].
    intros [= <-]. exists j. auto.
  - intros (j & -> & -> & Hne).
    cbv beta iota. cbn [validator.field_errors validator.first_failed].
    destruct (String.eqb_spec T ""); [contradiction|reflexivity].
Qed.

Lemma Get_ledger w T v :
  fst (redis.Get (ledger_key T) w) = Ok v <-> ledger_lookup w T = Some v.
Proof.
  rewrite Get_eq. unfold ledger_lookup. cbn [fst].
  destruct (redis.next_fault w); [split; discriminate|].
  destruct (redis.visible w (ledger_key T)) as [e|]; cbn.
  - split; intros [= <-]; reflexivity.
  - split; discriminate.
Qed.

(** C1. A presented refresh token (a request that binds) is answered
    with a new access token exactly when it validates as a refresh
    token, the ledger lookup of its exact value finds an owner, and the
    owner is the claimed subject; otherwise the answer is 401 and
    carries no token. *)
Theorem C1_refresh_iff (h : handlers.AuthHandler) (c : gin.Context) (w : World)
    (req : handlers.RefreshRequest.t) :
  handlers.ShouldBindJSON_RefreshRequest c = Ok req ->
  let T := handlers.RefreshRequest.RefreshToken req in
  let c' := fst (handlers.RefreshToken h c w) in
  (gin.status_of c' = Some http.StatusOK <-> refreshable h w T) /\
  (refreshable h w T ->
   exists claims tok,
     fst (utils.ValidateRefreshToken (handlers.jwtManager h) T w) = Ok claims /\
     utils.GenerateAccessToken (handlers.jwtManager h) (UserID claims) w = (Ok tok, w) /\
     body_string "access_token" c' = Some tok) /\
  (~ refreshable h w T ->
   gin.status_of c' = Some http.StatusUnauthorized /\
   body_string "access_token" c' = None).
Proof.
  intros Hbind T c'. subst c'.
  unfold handlers.RefreshToken. rewrite Hbind. fold T.
  unfold redis.bind. rewrite ValidateRefreshToken_eq.
  unfold refreshable.
  destruct (fst (utils.ValidateRefreshToken (handlers.jwtManager h) T w))
    as [claims|e] eqn:Hv.
  2:{ cbn. split; [split; [discriminate|intros (? & ? & [=] & _)]|].
      split; [intros (? & ? & [=] & _)|]. intros _. split; reflexivity. }
  change ("refresh_token:" +:+ T) with (ledger_key T).
  pose proof (Get_ledger w T) as Hget.
  destruct (redis.Get (ledger_key T) w) as [r w1] eqn:Hg. cbn [fst] in Hget.
  destruct r as [userID|e].
  2:{ cbn. assert (Hnone : ledger_lookup w T = None).
      { destruct (ledger_lookup w T) as [v|]; [|reflexivity].
        pose proof (proj2 (Hget v) eq_refl). discriminate. }
      split; [split; [discriminate|intros (? & ? & _ & Hl & _); congruence]|].
      split; [intros (? & ? & _ & Hl & _); congruence|].
      intros _. split; reflexivity. }
  assert (Hl : ledger_lookup w T = Some userID) by (apply Hget; reflexivity).
  assert (Hnow : now w1 = now w).
  { rewrite Get_eq in Hg. injection Hg as _ <-. apply served_now. }
  destruct (String.eqb_spec userID (UserID claims)) as [Heq|Hne]; cbn [negb].
  - rewrite GenerateAccessToken_eq, Hnow. cbn.
    split; [split; [intros _|reflexivity]|].
    { exists claims, userID. auto. }
    split.
    + intros _. exists claims, (minted (handlers.jwtManager h) (UserID claims)
        utils.AccessToken (config.AccessTokenTTL (utils.config (handlers.jwtManager h)))
        (now w)).
      split; [reflexivity|]. split; reflexivity.
    + intros Hn. exfalso. apply Hn. exists claims, userID. auto.
  - cbn.
    assert (Hno : ~ (exists claims0 owner, Ok claims = Ok claims0 /\
                       ledger_lookup w T = Some owner /\ owner = UserID claims0)).
    { intros (c0 & o & [= <-] & Hl' & ->). congruence. }
    split; [split; [discriminate|intros Hr; contradiction]|].
    split; [intros Hr; contradiction|].
    intros _. split; reflexivity.
Qed.

(** ** Logout *)

(** C7. Logout deletes the ledger key of whatever string is presented
    (a request that binds), consults no JWT manager, and answers 200
    whenever the store answers; it fails, with 500, only when the store
    command fails. A second logout of the same token succeeds again and
    leaves the store as the first left it. *)
Theorem C7_logout_idempotent (h : handlers.AuthHandler) (c : gin.Context) (w : World)
    (req : handlers.RefreshRequest.t) :
  handlers.ShouldBindJSON_RefreshRequest c = Ok req ->
  let key := ledger_key (handlers.RefreshRequest.RefreshToken req) in
  let c1 := fst (handlers.Logout h c w) in
  let w1 := snd (handlers.Logout h c w) in
  (redis.next_fault w = false ->
   gin.status_of c1 = Some http.StatusOK /\
   body_string "message" c1 = Some "logged out successfully" /\
   db w1 = delete key (db w) /\ db w1 !! key = None) /\
  (redis.next_fault w = true ->
   gin.status_of c1 = Some http.StatusInternalServerError /\ db w1 = db w) /\
  (forall w2, db w2 = db w1 ->
     redis.next_fault w = false -> redis.next_fault w2 = false ->
     gin.status_of (fst (handlers.Logout h c w2)) = Some http.StatusOK /\
     db (snd (handlers.Logout h c w2)) = db w1) /\
  (forall h', handlers.Logout h' c w = handlers.Logout h c w).
Proof.
  intros Hbind key c1 w1.
  assert (Hrun : forall w0,
    handlers.Logout h c w0 =
    if redis.next_fault w0
    then (gin.JSON http.StatusInternalServerError
            (handlers.error_body "failed to logout") c, redis.served w0)
    else (gin.JSON http.StatusOK
            (gin.H [("message", JString "logged out successfully")]) c,
          {| redis.now := now w0; redis.db := delete key (db w0);
             redis.faults := faults (redis.served w0) |})).
  { intros w0. unfold handlers.Logout. rewrite Hbind. unfold redis.bind.
    fold key. fold (ledger_key (handlers.RefreshRequest.RefreshToken req)). fold key.
    rewrite Del_eq. destruct (redis.next_fault w0); reflexivity. }
  subst c1 w1. split; [|split; [|split]].
  - intros Hf. rewrite Hrun, Hf. cbn.
    repeat split; try reflexivity. apply lookup_delete_eq.
  - intros Hf. rewrite Hrun, Hf. cbn. split; [reflexivity|apply served_db].
  - intros w2 Hdb Hf Hf2. rewrite (Hrun w2), Hf2. cbn.
    rewrite Hdb, Hrun, Hf. cbn. split; [reflexivity|].
    apply delete_id, lookup_delete_eq.
  - intros h'. reflexivity.
Qed.

(** ** Login *)

(** C5. A login with a username the store does not know and a login
    with a known username and a wrong password get the same response,
    401 with the one generic message; the two attempts may be two
    requests on one store or one request on two stores. *)
Theorem C5_login_failures_indistinguishable (h : handlers.AuthHandler)
    (c1 c2 : gin.Context) (w1 w2 : World)
    (req1 req2 : handlers.LoginRequest.t) (user : models.User) :
  handlers.ShouldBindJSON_LoginRequest c1 = Ok req1 ->
  handlers.ShouldBindJSON_LoginRequest c2 = Ok req2 ->
  redis.visible w1 ("username:" +:+ handlers.LoginRequest.Username req1) = None ->
  fst (models.GetByUsername (handlers.LoginRequest.Username req2) w2) = Ok user ->
  bcrypt_CompareHashAndPassword (models.Password user)
    (handlers.LoginRequest.Password req2) = false ->
  gin.Writer (fst (handlers.Login h c1 w1)) = gin.Writer (fst (handlers.Login h c2 w2)) /\
  gin.Writer (fst (handlers.Login h c1 w1)) =
    Some {| gin.status := http.StatusUnauthorized;
            gin.body := [("error", JString "invalid username or password")] |}.
Proof.
  intros Hb1 Hb2 Hnone Hsome Hpw.
  assert (H1 : gin.Writer (fst (handlers.Login h c1 w1)) =
    Some {| gin.status := http.StatusUnauthorized;
            gin.body := [("error", JString "invalid username or password")] |}).
  { unfold handlers.Login. rewrite Hb1. unfold redis.bind, models.GetByUsername.
    unfold redis.bind. rewrite Get_eq, Hnone.
    destruct (redis.next_fault w1); reflexivity. }
  split; [|exact H1]. rewrite H1.
  unfold handlers.Login. rewrite Hb2. unfold redis.bind.
  destruct (models.GetByUsername _ w2) as [r w3]. cbn [fst] in Hsome. subst r.
  rewrite Hpw. reflexivity.
Qed.

(** ** Registration *)

Lemma user_key_not_username_key (id username : string) :
  "user:" +:+ id <> "username:" +:+ username.
Proof. cbn. discriminate. Qed.

Lemma member_app_last k v (j : list (string * jvalue)) :
  member k (j ++ [(k, v)]) = Some v.
Proof.
  induction j as [|[k' v'] j IH]; cbn.
  - rewrite String.eqb_refl. reflexivity.
  - rewrite IH. reflexivity.
Qed.

(** What is stored for a user decodes to that user. *)
Lemma Unmarshal_Marshal (user : models.User) :
  models.Unmarshal (json_render (models.User_json user)) = Ok user.
Proof.
  unfold models.Unmarshal. rewrite json_parse_render.
  destruct user as [id username password email openID createdAt updatedAt].
  unfold models.User_json, omitempty, string_field, time_field, and_then.
  cbn [models.ID models.Username models.Password models.Email models.OpenID
       models.CreatedAt models.UpdatedAt].
  destruct (String.eqb_spec password ""), (String.eqb_spec openID "");
    subst; reflexivity.
Qed.

(** C10. A registration answered 201 created the identity whose primary
    id is the submitted username, verbatim: the [user_id] of the response,
    the key of the stored record, its [id] member and the target of the
    username index are all that string. *)
Theorem C10_registered_id_is_username (h : handlers.AuthHandler)
    (c : gin.Context) (w : World) :
  let c' := fst (handlers.Register h c w) in
  let w' := snd (handlers.Register h c w) in
  gin.status_of c' = Some http.StatusCreated ->
  exists req user,
    handlers.ShouldBindJSON_RegisterRequest c = Ok req /\
    body_string "user_id" c' = Some (handlers.RegisterRequest.Username req) /\
    models.ID user = handlers.RegisterRequest.Username req /\
    models.Username user = handlers.RegisterRequest.Username req /\
    db w' !! ("user:" +:+ handlers.RegisterRequest.Username req) =
      Some {| redis.value := json_render (models.User_json user);
              redis.expireAt := None |} /\
    models.Unmarshal (json_render (models.User_json user)) = Ok user /\
    db w' !! ("username:" +:+ handlers.RegisterRequest.Username req) =
      Some {| redis.value := handlers.RegisterRequest.Username req;
              redis.expireAt := None |}.
Proof.
  intros c' w'. subst c' w'. unfold handlers.Register.
  destruct (handlers.ShouldBindJSON_RegisterRequest c) as [req|e]; [|discriminate].
  unfold redis.bind.
  destruct (models.GetByUsername _ w) as [[u|e] w1]; [discriminate|].
  destruct (bcrypt_GenerateFromPassword _) as [hashed|e']; [|discriminate].
  unfold models.Create. cbn [models.ID models.Username].
  destruct (String.eqb (handlers.RegisterRequest.Username req) ""); [discriminate|].
  unfold redis.bind, redis.time_Now, models.Marshal.
  rewrite Set_eq. destruct (redis.next_fault w1); [discriminate|].
  rewrite Set_eq. cbn [redis.next_fault redis.served redis.faults redis.db redis.now].
  match goal with |- context [redis.next_fault ?x] => destruct (redis.next_fault x) end;
    [discriminate|].
  intros _.
  exists req, {| models.ID := handlers.RegisterRequest.Username req;
                 models.Username := handlers.RegisterRequest.Username req;
                 models.Password := hashed;
                 models.Email := handlers.RegisterRequest.Email req;
                 models.OpenID := "";
                 models.CreatedAt := now w1; models.UpdatedAt := now w1 |}.
  split; [reflexivity|]. split; [reflexivity|].
  split; [reflexivity|]. split; [reflexivity|].
  split; [|split].
  - cbn. rewrite lookup_insert_ne by (apply not_eq_sym, user_key_not_username_key).
    rewrite lookup_insert_eq. reflexivity.
  - apply Unmarshal_Marshal.
  - cbn. rewrite lookup_insert_eq. reflexivity.
Qed.

(** ** Bearer authentication *)

Lemma ValidateAccessToken_Ok m tokenString w c :
  fst (utils.ValidateAccessToken m tokenString w) = Ok c ->
  exists alg signingString sig,
    jwt_parse tokenString = Some (alg, c, signingString, sig) /\
    jwt.Verify alg signingString sig (config.SecretKey (utils.config m)) = true /\
    jwt.validate_claims (now w) c = Ok tt /\
    Type_ c = utils.AccessToken.
Proof.
  unfold utils.ValidateAccessToken, utils.ValidateToken, jwt.ParseWithClaims,
    redis.bind, redis.time_Now, redis.ret. cbn [fst snd].
  destruct (jwt_parse tokenString) as [[[[alg c'] input] sig]|]; [|discriminate].
  destruct (jwt.GetSigningMethod alg); [|discriminate].
  destruct (jwt.is_HMAC alg); [|discriminate].
  destruct (jwt.Verify _ _ _ _) eqn:Hver; [|discriminate].
  destruct (jwt.validate_claims _ _) as [[]|] eqn:Hval; [|discriminate].
  destruct (String.eqb_spec (Type_ c') utils.AccessToken) as [Hk|Hk]; [|discriminate].
  cbn. intros [= <-]. eauto 10.
Qed.

Lemma validate_claims_unexpired t c exp :
  jwt.validate_claims t c = Ok tt ->
  ExpiresAt (Registered c) = Some exp ->
  t < exp.
Proof.
  unfold jwt.validate_claims. intros Hv He. rewrite He in Hv.
  destruct (Z.ltb_spec t exp); [assumption|discriminate].
Qed.

Lemma Split_empty_header (authHeader tokenString : string) :
  strings.Split authHeader " "%char = ["Bearer"; tokenString] -> authHeader <> "".
Proof. intros Hs ->. discriminate. Qed.

Lemma AuthRequired_accepts m c w userID :
  authenticated m w c userID ->
  middleware.AuthRequired m c w = (gin.Set_ "userID" userID c, w).
Proof.
  intros (tok & claims & Hs & Hv & <-).
  unfold middleware.AuthRequired.
  destruct (String.eqb_spec (gin.Authorization c) "") as [He|_].
  { exfalso. exact (Split_empty_header _ _ Hs He). }
  rewrite Hs. cbn [String.eqb Ascii.eqb Bool.eqb negb].
  unfold redis.bind. rewrite ValidateAccessToken_eq, Hv. reflexivity.
Qed.

Lemma AuthRequired_rejects m c w :
  auth_failure m w c ->
  exists msg,
    middleware.AuthRequired m c w =
    (gin.AbortWithStatusJSON http.StatusUnauthorized
       (gin.H [("error", JString msg)]) c, w).
Proof.
  assert (Htoken : forall tok,
    strings.Split (gin.Authorization c) " "%char = ["Bearer"; tok] ->
    is_Ok (fst (utils.ValidateAccessToken (middleware.jwtManager m) tok w)) = false ->
    exists msg,
      middleware.AuthRequired m c w =
      (gin.AbortWithStatusJSON http.StatusUnauthorized
         (gin.H [("error", JString msg)]) c, w)).
  { intros tok Hs Hv. unfold middleware.AuthRequired.
    destruct (String.eqb_spec (gin.Authorization c) "") as [He|_].
    { exfalso. exact (Split_empty_header _ _ Hs He). }
    rewrite Hs. cbn [String.eqb Ascii.eqb Bool.eqb negb].
    unfold redis.bind. rewrite ValidateAccessToken_eq.
    destruct (fst _) as [cl|e]; [discriminate|]. eexists. reflexivity. }
  assert (Hnot : forall tok,
    (forall cl, fst (utils.ValidateAccessToken (middleware.jwtManager m) tok w) <> Ok cl) ->
    is_Ok (fst (utils.ValidateAccessToken (middleware.jwtManager m) tok w)) = false).
  { intros tok Hn. destruct (fst _) as [cl|e]; [|reflexivity].
    exfalso. exact (Hn cl eq_refl). }
  intros [He | Hne Hshape | tok alg cl input sig Hs Hp Hver
          | tok cl exp Hs Hc Hexp Hle | tok cl Hs Hc Hk | tok Hs Hv].
  - unfold middleware.AuthRequired. rewrite He. eexists. reflexivity.
  - unfold middleware.AuthRequired.
    destruct (String.eqb_spec (gin.Authorization c) "") as [He|_]; [contradiction|].
    destruct (strings.Split (gin.Authorization c) " "%char)
      as [|scheme [|tok [|third rest]]] eqn:Hs; try (eexists; reflexivity).
    destruct (String.eqb_spec scheme "Bearer") as [->|_]; [|eexists; reflexivity].
    exfalso. exact (Hshape tok eq_refl).
  - apply (Htoken tok Hs), Hnot. intros cl' Hv.
    apply ValidateAccessToken_Ok in Hv as (alg' & input' & sig' & Hp' & Hver' & _).
    rewrite Hp in Hp'. injection Hp' as <- <- <- <-. congruence.
  - apply (Htoken tok Hs), Hnot. intros cl' Hv.
    apply ValidateAccessToken_Ok in Hv as (alg' & input' & sig' & Hp' & _ & Hval & _).
    unfold carried_claims in Hc. rewrite Hp' in Hc. injection Hc as <-.
    pose proof (validate_claims_unexpired _ _ _ Hval Hexp). lia.
  - apply (Htoken tok Hs), Hnot. intros cl' Hv.
    apply ValidateAccessToken_Ok in Hv as (alg' & input' & sig' & Hp' & _ & _ & Hty).
    unfold carried_claims in Hc. rewrite Hp' in Hc. injection Hc as <-. contradiction.
  - exact (Htoken tok Hs Hv).
Qed.

(** Every request either authenticates as some principal or fails in
    one of the ways of [auth_failure]. *)
Lemma authenticated_or_failure m w c :
  (exists userID, authenticated m w c userID) \/ auth_failure m w c.
Proof.
  destruct (String.eqb_spec (gin.Authorization c) "") as [He|Hne].
  { right. apply missing_header. exact He. }
  destruct (strings.Split (gin.Authorization c) " "%char)
    as [|scheme [|tok [|third rest]]] eqn:Hs;
    try (right; apply malformed_header; [exact Hne|rewrite Hs; intros ?; discriminate]).
  destruct (String.eqb_spec scheme "Bearer") as [->|Hsch].
  2:{ right. apply malformed_header; [exact Hne|].
      rewrite Hs. intros t [= ? ?]. contradiction. }
  destruct (fst (utils.ValidateAccessToken (middleware.jwtManager m) tok w))
    as [cl|e] eqn:Hv.
  - left. exists (UserID cl), tok, cl. auto.
  - right. apply (rejected_token m w c tok Hs). rewrite Hv. reflexivity.
Qed.

Lemma rejected_is_unauthorized (m : middleware.AuthMiddleware)
    (handler : gin.HandlerFunc) (c : gin.Context) (w : World) :
  gin.Aborted c = false ->
  auth_failure m w c ->
  gin.status_of (fst (gin.Next [middleware.AuthRequired m; handler] c w)) =
    Some http.StatusUnauthorized.
Proof.
  intros Hfresh Hfail.
  destruct (AuthRequired_rejects m c w Hfail) as [msg Hrej].
  cbn [gin.Next]. rewrite Hfresh. unfold redis.bind. rewrite Hrej. reflexivity.
Qed.

(** C6. Whatever the reason authentication fails for (missing header,
    malformed header, bad signature, expired token, wrong kind), the
    outcome is the same: status 401 with the chain aborted; the route
    answers as the middleware alone does, so the protected handler is
    not run, the store is untouched and no principal is attached. *)
Theorem C6_uniform_rejection (m : middleware.AuthMiddleware)
    (handler : gin.HandlerFunc) (c : gin.Context) (w : World) :
  gin.Aborted c = false ->
  auth_failure m w c ->
  let chain := [middleware.AuthRequired m; handler] in
  gin.status_of (fst (gin.Next chain c w)) = Some http.StatusUnauthorized /\
  gin.Aborted (fst (gin.Next chain c w)) = true /\
  gin.Next chain c w = middleware.AuthRequired m c w /\
  snd (gin.Next chain c w) = w /\
  gin.Get "userID" (fst (gin.Next chain c w)) = gin.Get "userID" c.
Proof.
  intros Hfresh Hfail chain. subst chain.
  destruct (AuthRequired_rejects m c w Hfail) as [msg Hrej].
  cbn [gin.Next]. rewrite Hfresh. unfold redis.bind. rewrite Hrej.
  cbn. repeat split; reflexivity.
Qed.

(** ** Issuing tokens at login *)

Lemma issue_tokens_eq h userID c w :
  issue_tokens h userID c w =
  let accessToken :=
    minted (handlers.jwtManager h) userID utils.AccessToken
      (config.AccessTokenTTL (utils.config (handlers.jwtManager h))) (now w) in
  let refreshToken :=
    minted (handlers.jwtManager h) userID utils.RefreshToken
      (config.RefreshTokenTTL (utils.config (handlers.jwtManager h))) (now w) in
  if redis.next_fault w
  then (gin.JSON http.StatusInternalServerError
          (handlers.error_body "failed to store refresh token") c, redis.served w)
  else (gin.JSON http.StatusOK
          (handlers.TokenResponse.json
             {| handlers.TokenResponse.AccessToken := accessToken;
                handlers.TokenResponse.RefreshToken := refreshToken;
                handlers.TokenResponse.ExpiresIn := 15 * 60 |}) c,
        {| redis.now := now w;
           redis.db := <[ledger_key refreshToken :=
                          {| redis.value := userID;
                             redis.expireAt := Some (now w + 7 * 24 * Hour) |}]> (db w);
           redis.faults := faults (redis.served w) |}).
Proof.
  unfold issue_tokens, redis.bind.
  rewrite GenerateAccessToken_eq, GenerateRefreshToken_eq, Set_eq.
  destruct (redis.next_fault w); reflexivity.
Qed.

Lemma GetByID_eq id w :
  models.GetByID id w =
  (if redis.next_fault w then Err ("failed to get user: " +:+ redis.io_error)
   else match redis.visible w ("user:" +:+ id) with
        | None => Err "user not found"
        | Some e =>
            match models.Unmarshal (redis.value e) with
            | Err err => Err ("failed to unmarshal user: " +:+ err)
            | Ok user => Ok user
            end
        end,
   redis.served w).
Proof.
  unfold models.GetByID, redis.bind. rewrite Get_eq.
  destruct (redis.next_fault w); [reflexivity|].
  destruct (redis.visible w _) as [e|]; [|reflexivity].
  destruct (models.Unmarshal _); reflexivity.
Qed.

Lemma GetByUsername_world username w :
  now (snd (models.GetByUsername username w)) = now w /\
  db (snd (models.GetByUsername username w)) = db w.
Proof.
  unfold models.GetByUsername, redis.bind. rewrite Get_eq.
  destruct (redis.next_fault w).
  - cbn. split; [apply served_now|apply served_db].
  - destruct (redis.visible w _) as [e|].
    + rewrite GetByID_eq. cbn [snd]. rewrite !served_now, !served_db. auto.
    + cbn. split; [apply served_now|apply served_db].
Qed.

(** A login answered 200 went through the token tail, at the instant
    of the request, for the id of the user found. *)
Lemma Login_OK h c w :
  gin.status_of (fst (handlers.Login h c w)) = Some http.StatusOK ->
  exists user w1,
    now w1 = now w /\ db w1 = db w /\ redis.next_fault w1 = false /\
    handlers.Login h c w = issue_tokens h (models.ID user) c w1.
Proof.
  unfold handlers.Login.
  destruct (handlers.ShouldBindJSON_LoginRequest c) as [req|e]; [|discriminate].
  unfold redis.bind.
  pose proof (GetByUsername_world (handlers.LoginRequest.Username req) w) as [Hn Hd].
  destruct (models.GetByUsername _ w) as [[user|e] w1]; [|discriminate].
  cbn [snd] in Hn, Hd.
  destruct (bcrypt_CompareHashAndPassword _ _); [|discriminate].
  cbn [negb]. intros H200. exists user, w1.
  repeat split; try assumption.
  change (gin.status_of (fst (issue_tokens h (models.ID user) c w1)) =
          Some http.StatusOK) in H200.
  rewrite issue_tokens_eq in H200.
  destruct (redis.next_fault w1); [discriminate|reflexivity].
Qed.

Lemma truncate_add_seconds t k :
  (t + k * Second) `div` Second * Second - t `div` Second * Second = k * Second.
Proof.
  rewrite Z.div_add by discriminate. lia.
Qed.

(** ** Key spaces *)

Lemma ledger_key_not_openid T o : ledger_key T <> "openid:" +:+ o.
Proof. cbn. discriminate. Qed.

Lemma ledger_key_not_user T id : ledger_key T <> "user:" +:+ id.
Proof. cbn. discriminate. Qed.

Lemma ledger_key_not_username T u : ledger_key T <> "username:" +:+ u.
Proof. cbn. discriminate. Qed.

Lemma openid_key_not_user o id : "openid:" +:+ o <> "user:" +:+ id.
Proof. cbn. discriminate. Qed.

Lemma openid_key_not_username o u : "openid:" +:+ o <> "username:" +:+ u.
Proof. cbn. discriminate. Qed.

Lemma openid_key_identity o : ~ ledger_entry ("openid:" +:+ o).
Proof. intros [T HT]. symmetry in HT. exact (ledger_key_not_openid _ _ HT). Qed.

Lemma user_key_identity id : ~ ledger_entry ("user:" +:+ id).
Proof. intros [T HT]. symmetry in HT. exact (ledger_key_not_user _ _ HT). Qed.

Lemma username_key_identity u : ~ ledger_entry ("username:" +:+ u).
Proof. intros [T HT]. symmetry in HT. exact (ledger_key_not_username _ _ HT). Qed.

Lemma visible_db w key e : redis.visible w key = Some e -> db w !! key = Some e.
Proof.
  unfold redis.visible. destruct (db w !! key) as [e'|]; [|discriminate].
  destruct (redis.live _ _); [|discriminate]. congruence.
Qed.

Lemma visible_persistent w key e :
  db w !! key = Some e -> redis.expireAt e = None -> redis.visible w key = Some e.
Proof.
  intros Hdb Hex. unfold redis.visible, redis.live. rewrite Hdb, Hex. reflexivity.
Qed.

(** ** Find-or-create of WeChat users *)

Lemma CreateWeChatUser_Ok openID w user w1 :
  models.CreateWeChatUser openID w = (Ok user, w1) ->
  now w1 = now w /\
  ((exists e e',
      redis.visible w ("openid:" +:+ openID) = Some e /\
      redis.visible w ("user:" +:+ redis.value e) = Some e' /\
      models.Unmarshal (redis.value e') = Ok user /\
      db w1 = db w) \/
   (redis.visible w ("openid:" +:+ openID) = None /\
    user = new_wechat_user openID (now w) /\
    db w1 =
      <["openid:" +:+ openID :=
          {| redis.value := "wx_" +:+ openID; redis.expireAt := None |}]>
        (<["username:" +:+ ("wx_" +:+ openID) :=
             {| redis.value := "wx_" +:+ openID; redis.expireAt := None |}]>
           (<["user:" +:+ ("wx_" +:+ openID) :=
                {| redis.value := json_render (models.User_json
                                                 (new_wechat_user openID (now w)));
                   redis.expireAt := None |}]> (db w))))).
Proof.
  unfold models.CreateWeChatUser.
  destruct (String.eqb openID ""); [discriminate|].
  unfold redis.bind. rewrite Exists_eq.
  destruct (redis.next_fault w); [discriminate|].
  destruct (redis.visible w ("openid:" +:+ openID)) as [e|] eqn:Hidx.
  - change (0 <? 1) with true. cbv beta iota. rewrite Get_eq.
    destruct (redis.next_fault (redis.served w)); [discriminate|].
    rewrite visible_served, Hidx, GetByID_eq.
    destruct (redis.next_fault _); [discriminate|].
    rewrite !visible_served.
    destruct (redis.visible w ("user:" +:+ redis.value e)) as [e'|] eqn:Husr;
      [|discriminate].
    destruct (models.Unmarshal (redis.value e')) as [u|err] eqn:Hu; [|discriminate].
    intros [= <- <-]. rewrite !served_now, !served_db.
    split; [reflexivity|]. left. exists e, e'. auto.
  - change (0 <? 0) with false. cbv beta iota.
    unfold redis.time_Now, models.Marshal. cbn [models.ID models.Username].
    rewrite Set_eq. destruct (redis.next_fault (redis.served w)); [discriminate|].
    rewrite Set_eq. cbn [redis.next_fault redis.served redis.faults redis.db redis.now].
    match goal with |- context [redis.next_fault ?x] => destruct (redis.next_fault x) end;
      [discriminate|].
    rewrite Set_eq. cbn [redis.next_fault redis.served redis.faults redis.db redis.now].
    match goal with |- context [redis.next_fault ?x] => destruct (redis.next_fault x) end;
      [discriminate|].
    intros [= <- <-]. cbn [redis.now redis.db].
    rewrite !served_now, !served_db.
    split; [reflexivity|]. right. split; [reflexivity|]. split; reflexivity.
Qed.

(** Once the index and the record of an OpenID are in the store, the
    call finds them and writes nothing. *)
Lemma CreateWeChatUser_again openID w e e' user user2 w2 :
  redis.visible w ("openid:" +:+ openID) = Some e ->
  redis.visible w ("user:" +:+ redis.value e) = Some e' ->
  models.Unmarshal (redis.value e') = Ok user ->
  models.CreateWeChatUser openID w = (Ok user2, w2) ->
  user2 = user /\ db w2 = db w /\ now w2 = now w.
Proof.
  intros Hidx Husr Hu Hrun.
  apply CreateWeChatUser_Ok in Hrun
    as [Hnow [(e1 & e1' & Hidx1 & Husr1 & Hu1 & Hdb) | (Hnone & _)]].
  - rewrite Hidx in Hidx1. injection Hidx1 as <-.
    rewrite Husr in Husr1. injection Husr1 as <-.
    rewrite Hu in Hu1. injection Hu1 as <-. auto.
  - congruence.
Qed.

(** What a successful call leaves in the store: the index entry and the
    record it points to, both without expiry when identities are
    persistent, and the record decodes to a user with the id returned. *)
Lemma CreateWeChatUser_leaves openID w user w1 :
  persistent_identities w ->
  models.CreateWeChatUser openID w = (Ok user, w1) ->
  exists e e' stored,
    db w1 !! ("openid:" +:+ openID) = Some e /\ redis.expireAt e = None /\
    db w1 !! ("user:" +:+ redis.value e) = Some e' /\ redis.expireAt e' = None /\
    models.Unmarshal (redis.value e') = Ok stored /\
    models.ID stored = models.ID user.
Proof.
  intros Hpers Hrun.
  apply CreateWeChatUser_Ok in Hrun
    as [Hnow [(e & e' & Hidx & Husr & Hu & Hdb) | (Hnone & -> & Hdb)]].
  - apply visible_db in Hidx, Husr. exists e, e', user. rewrite Hdb.
    assert (He : redis.expireAt e = None).
    { destruct (redis.expireAt e) eqn:Hx; [|reflexivity].
      exfalso. apply (openid_key_identity openID), (Hpers _ e Hidx). congruence. }
    assert (He' : redis.expireAt e' = None).
    { destruct (redis.expireAt e') eqn:Hx; [|reflexivity].
      exfalso. apply (user_key_identity (redis.value e)), (Hpers _ e' Husr). congruence. }
    auto 10.
  - eexists _, _, (new_wechat_user openID (now w)). rewrite Hdb.
    rewrite lookup_insert_eq. split; [reflexivity|]. split; [reflexivity|].
    cbn [redis.value].
    rewrite lookup_insert_ne by apply openid_key_not_user.
    rewrite lookup_insert_ne by (apply not_eq_sym, user_key_not_username_key).
    rewrite lookup_insert_eq. split; [reflexivity|]. split; [reflexivity|].
    cbn [redis.value]. split; [apply Unmarshal_Marshal|reflexivity].
Qed.

(** A WeChat login answered 200 found or created its user and went
    through the token tail for that user's id. *)
Lemma WeChatLogin_OK h c w :
  gin.status_of (fst (handlers.WeChatLogin h c w)) = Some http.StatusOK ->
  exists req sessionInfo user w1,
    handlers.ShouldBindJSON_WeChatLoginRequest c = Ok req /\
    utils.Code2Session (handlers.wechatManager h)
      (handlers.WeChatLoginRequest.Code req) = Ok sessionInfo /\
    models.CreateWeChatUser (utils.OpenID sessionInfo) w = (Ok user, w1) /\
    redis.next_fault w1 = false /\
    handlers.WeChatLogin h c w = issue_tokens h (models.ID user) c w1.
Proof.
  unfold handlers.WeChatLogin.
  destruct (handlers.ShouldBindJSON_WeChatLoginRequest c) as [req|e]; [|discriminate].
  destruct (utils.Code2Session _ _) as [s|e] eqn:Hs; [|discriminate].
  unfold redis.bind.
  destruct (models.CreateWeChatUser _ w) as [[user|e] w1] eqn:Hc; [|discriminate].
  intros H200. exists req, s, user, w1.
  split; [reflexivity|]. split; [exact Hs|]. split; [exact Hc|].
  split; [|reflexivity].
  change (gin.status_of (fst (issue_tokens h (models.ID user) c w1)) =
          Some http.StatusOK) in H200.
  rewrite issue_tokens_eq in H200.
  destruct (redis.next_fault w1); [discriminate|reflexivity].
Qed.

Lemma issue_tokens_served h userID c w :
  redis.next_fault w = false ->
  let refreshToken :=
    minted (handlers.jwtManager h) userID utils.RefreshToken
      (config.RefreshTokenTTL (utils.config (handlers.jwtManager h))) (now w) in
  let r := issue_tokens h userID c w in
  gin.status_of (fst r) = Some http.StatusOK /\
  body_string "access_token" (fst r) =
    Some (minted (handlers.jwtManager h) userID utils.AccessToken
            (config.AccessTokenTTL (utils.config (handlers.jwtManager h))) (now w)) /\
  body_string "refresh_token" (fst r) = Some refreshToken /\
  body_number "expires_in" (fst r) = Some (15 * 60) /\
  now (snd r) = now w /\
  db (snd r) = <[ledger_key refreshToken :=
                   {| redis.value := userID;
                      redis.expireAt := Some (now w + 7 * 24 * Hour) |}]> (db w).
Proof.
  intros Hf refreshToken r. subst r refreshToken.
  rewrite issue_tokens_eq, Hf. cbn. repeat split; reflexivity.
Qed.

(** C9. With the configuration the service runs with, a login or WeChat
    login answered 200 has recorded its refresh token in the ledger with
    an expiry one refresh-token TTL away, which is the validity window
    signed into the token; and [expires_in] is the access-token TTL in
    seconds. *)
Theorem C9_ledger_ttl_and_expires_in (Getenv : string -> string)
    (handler : gin.HandlerFunc) (c : gin.Context) (w : World) :
  let h := main.authHandler Getenv in
  let jwtConfig := config.JWT (main.cfg Getenv) in
  handler = handlers.Login h \/ handler = handlers.WeChatLogin h ->
  gin.status_of (fst (handler c w)) = Some http.StatusOK ->
  exists refreshToken claims issuedAt expiresAt,
    body_string "refresh_token" (fst (handler c w)) = Some refreshToken /\
    carried_claims refreshToken = Some claims /\
    Type_ claims = utils.RefreshToken /\
    IssuedAt (Registered claims) = Some issuedAt /\
    ExpiresAt (Registered claims) = Some expiresAt /\
    expiresAt - issuedAt = config.RefreshTokenTTL jwtConfig /\
    db (snd (handler c w)) !! ledger_key refreshToken =
      Some {| redis.value := UserID claims;
              redis.expireAt := Some (now w + config.RefreshTokenTTL jwtConfig) |} /\
    body_number "expires_in" (fst (handler c w)) =
      Some (config.AccessTokenTTL jwtConfig `div` Second).
Proof.
  intros h jwtConfig Hwhich H200.
  assert (Htail : exists userID w1,
            now w1 = now w /\ redis.next_fault w1 = false /\
            handler c w = issue_tokens h userID c w1).
  { destruct Hwhich as [-> | ->].
    - apply Login_OK in H200 as (user & w1 & Hn & _ & Hf & Hrun). eauto 6.
    - apply WeChatLogin_OK in H200 as (req & s & user & w1 & _ & _ & Hc & Hf & Hrun).
      apply CreateWeChatUser_Ok in Hc as [Hn _]. eauto 6. }
  destruct Htail as (userID & w1 & Hn & Hf & ->).
  destruct (issue_tokens_served h userID c w1 Hf)
    as (_ & _ & Hrt & Hexp & _ & Hdb).
  rewrite Hn in Hrt, Hdb.
  eexists _, (minted_claims userID utils.RefreshToken _ (now w)), _, _.
  split; [exact Hrt|].
  split; [apply carried_minted|].
  split; [reflexivity|].
  split; [reflexivity|].
  split; [reflexivity|].
  split; [|split].
  - change (config.RefreshTokenTTL (utils.config (handlers.jwtManager h)))
      with (604800 * Second).
    change (config.RefreshTokenTTL jwtConfig) with (604800 * Second).
    apply truncate_add_seconds.
  - rewrite Hdb, lookup_insert_eq. reflexivity.
  - exact Hexp.
Qed.

(** C8. Two WeChat logins whose codes resolve to the same OpenID, the
    second arriving later on a store with the same identity records,
    are issued tokens for the same principal, and the second login
    leaves every identity record and index as it found it. *)
Theorem C8_wechat_login_idempotent (h : handlers.AuthHandler)
    (c1 c2 : gin.Context) (w w2 : World)
    (req1 req2 : handlers.WeChatLoginRequest.t)
    (s1 s2 : utils.Code2SessionResponse) :
  persistent_identities w ->
  handlers.ShouldBindJSON_WeChatLoginRequest c1 = Ok req1 ->
  handlers.ShouldBindJSON_WeChatLoginRequest c2 = Ok req2 ->
  utils.Code2Session (handlers.wechatManager h)
    (handlers.WeChatLoginRequest.Code req1) = Ok s1 ->
  utils.Code2Session (handlers.wechatManager h)
    (handlers.WeChatLoginRequest.Code req2) = Ok s2 ->
  utils.OpenID s1 = utils.OpenID s2 ->
  let r1 := handlers.WeChatLogin h c1 w in
  same_identities w2 (snd r1) ->
  let r2 := handlers.WeChatLogin h c2 w2 in
  gin.status_of (fst r1) = Some http.StatusOK ->
  gin.status_of (fst r2) = Some http.StatusOK ->
  (exists userID,
     principal (fst r1) = Some userID /\ principal (fst r2) = Some userID) /\
  same_identities (snd r2) w2.
Proof.
  intros Hpers Hb1 Hb2 Hs1 Hs2 Hopen r1 Hsame r2 H1 H2. subst r1 r2.
  apply WeChatLogin_OK in H1
    as (req1' & s1' & user1 & wa & Hb1' & Hs1' & Hc1 & Hf1 & Hrun1).
  apply WeChatLogin_OK in H2
    as (req2' & s2' & user2 & wb & Hb2' & Hs2' & Hc2 & Hf2 & Hrun2).
  rewrite Hb1 in Hb1'. injection Hb1' as <-.
  rewrite Hb2 in Hb2'. injection Hb2' as <-.
  rewrite Hs1 in Hs1'. injection Hs1' as <-.
  rewrite Hs2 in Hs2'. injection Hs2' as <-.
  rewrite <- Hopen in Hc2.
  rewrite Hrun1 in Hsame. rewrite Hrun1, Hrun2.
  destruct (issue_tokens_served h (models.ID user1) c1 wa Hf1)
    as (_ & Hat1 & _ & _ & _ & Hdb1).
  destruct (issue_tokens_served h (models.ID user2) c2 wb Hf2)
    as (_ & Hat2 & _ & _ & _ & Hdb2).
  (* what the first login left behind, seen from the second *)
  destruct (CreateWeChatUser_leaves _ _ _ _ Hpers Hc1)
    as (e & e' & stored & Hidx & Hex & Husr & Hex' & Hu & Hid).
  assert (Hidx2 : redis.visible w2 ("openid:" +:+ utils.OpenID s1) = Some e).
  { apply visible_persistent; [|exact Hex].
    rewrite (Hsame _ (openid_key_identity _)), Hdb1.
    rewrite lookup_insert_ne by apply ledger_key_not_openid. exact Hidx. }
  assert (Husr2 : redis.visible w2 ("user:" +:+ redis.value e) = Some e').
  { apply visible_persistent; [|exact Hex'].
    rewrite (Hsame _ (user_key_identity _)), Hdb1.
    rewrite lookup_insert_ne by apply ledger_key_not_user. exact Husr. }
  destruct (CreateWeChatUser_again _ _ _ _ _ _ _ Hidx2 Husr2 Hu Hc2)
    as (-> & Hdbb & _).
  split.
  - exists (models.ID user1). unfold principal.
    rewrite Hat1, Hat2, !carried_minted, Hid. split; reflexivity.
  - intros key Hkey. rewrite Hdb2, Hdbb.
    apply lookup_insert_ne. intros <-. apply Hkey. eexists. reflexivity.
Qed.

(** ** The current user *)

Lemma User_json_shows_record user : shows_record user (models.User_json user).
Proof.
  destruct user as [id username password email openID createdAt updatedAt].
  unfold shows_record, models.User_json, omitempty.
  cbn [models.ID models.Username models.Password models.Email models.OpenID
       models.CreatedAt models.UpdatedAt].
  destruct (String.eqb password ""), (String.eqb_spec openID "");
    repeat split; try reflexivity; intros Hopen; contradiction.
Qed.

(** C2, as the code has it. On GET /me a request that fails bearer
    authentication is answered 401; an authenticated request whose
    principal's record is found is answered 200 with a body that shows
    that record; an authenticated request whose principal's record
    cannot be loaded is answered 500. *)
Theorem C2_me_outcomes (Getenv : string -> string) (c : gin.Context) (w : World) :
  gin.Aborted c = false ->
  let m := main.authMiddleware Getenv in
  let c' := fst (gin.Next (main.protected Getenv (handlers.Me (main.authHandler Getenv)))
                   c w) in
  (auth_failure m w c -> gin.status_of c' = Some http.StatusUnauthorized) /\
  (forall userID, authenticated m w c userID ->
     match fst (models.GetByID userID w) with
     | Ok user =>
         gin.status_of c' = Some http.StatusOK /\
         exists body, gin.body_of c' = Some body /\ shows_record user body
     | Err _ => gin.status_of c' = Some http.StatusInternalServerError
     end).
Proof.
  intros Hfresh m c'. subst c'. split.
  - intros Hfail.
    apply (rejected_is_unauthorized m (handlers.Me (main.authHandler Getenv)) c w
             Hfresh Hfail).
  - intros userID Hauth.
    unfold main.protected. cbn [gin.Next]. rewrite Hfresh. unfold redis.bind.
    fold m. rewrite (AuthRequired_accepts m c w userID Hauth).
    cbv beta iota. unfold gin.Set_. cbn [gin.Aborted]. rewrite Hfresh.
    unfold handlers.Me, gin.Get.
    cbn [gin.Keys]. rewrite lookup_insert_eq. unfold redis.bind.
    destruct (models.GetByID userID w) as [[user|e] w1]; cbn [fst]; [|reflexivity].
    split; [reflexivity|].
    exists (models.User_json user). split; [reflexivity|].
    apply User_json_shows_record.
Qed.

(** ** Identity records never expire

    [persistent_identities] holds of the empty store and every route of
    the service keeps it, so it holds of every store the service can
    reach. *)

Lemma persistent_empty t fs :
  persistent_identities {| redis.now := t; redis.db := ∅; redis.faults := fs |}.
Proof. intros key e Hkey. cbn [redis.db] in Hkey. rewrite lookup_empty in Hkey. discriminate. Qed.

Lemma persistent_same_db w w' :
  db w' = db w -> persistent_identities w -> persistent_identities w'.
Proof. intros Hdb Hp key e. rewrite Hdb. apply Hp. Qed.

Lemma keeps_ret {A} (a : A) : keeps_persistent (ret a).
Proof. intros w Hp. exact Hp. Qed.

Lemma keeps_bind {A B} (m : M A) (k : A -> M B) :
  keeps_persistent m -> (forall a, keeps_persistent (k a)) ->
  keeps_persistent (redis.bind m k).
Proof.
  intros Hm Hk w Hp. unfold redis.bind.
  specialize (Hm w Hp). destruct (m w) as [a w1]. exact (Hk a w1 Hm).
Qed.

Lemma keeps_time_Now : keeps_persistent redis.time_Now.
Proof. intros w Hp. exact Hp. Qed.

Lemma keeps_Get key : keeps_persistent (redis.Get key).
Proof.
  intros w Hp. rewrite Get_eq. cbn [snd].
  apply (persistent_same_db w); [apply served_db|exact Hp].
Qed.

Lemma keeps_Exists key : keeps_persistent (redis.Exists key).
Proof.
  intros w Hp. rewrite Exists_eq. cbn [snd].
  apply (persistent_same_db w); [apply served_db|exact Hp].
Qed.

Lemma keeps_Del key : keeps_persistent (redis.Del key).
Proof.
  intros w Hp. rewrite Del_eq. destruct (redis.next_fault w); cbn [snd].
  - apply (persistent_same_db w); [apply served_db|exact Hp].
  - intros k e Hk. cbn [redis.db] in Hk.
    apply lookup_delete_Some in Hk as [_ Hk]. exact (Hp k e Hk).
Qed.

Lemma keeps_Set_forever key val : keeps_persistent (redis.Set_ key val 0).
Proof.
  intros w Hp. rewrite Set_eq. destruct (redis.next_fault w); cbn [snd].
  - apply (persistent_same_db w); [apply served_db|exact Hp].
  - intros k e Hk Hex. cbn [redis.db] in Hk.
    destruct (decide (key = k)) as [->|Hne].
    + rewrite lookup_insert_eq in Hk. injection Hk as <-.
      exfalso. apply Hex. reflexivity.
    + rewrite lookup_insert_ne in Hk by exact Hne. exact (Hp k e Hk Hex).
Qed.

Lemma keeps_Set_ledger T val expiration :
  keeps_persistent (redis.Set_ (ledger_key T) val expiration).
Proof.
  intros w Hp. rewrite Set_eq. destruct (redis.next_fault w); cbn [snd].
  - apply (persistent_same_db w); [apply served_db|exact Hp].
  - intros k e Hk Hex. cbn [redis.db] in Hk.
    destruct (decide (ledger_key T = k)) as [<-|Hne].
    + exists T. reflexivity.
    + rewrite lookup_insert_ne in Hk by exact Hne. exact (Hp k e Hk Hex).
Qed.

Ltac keeps :=
  repeat first
    [ apply keeps_ret | apply keeps_time_Now | apply keeps_Get
    | apply keeps_Exists | apply keeps_Del | apply keeps_Set_forever
    | apply keeps_Set_ledger
    | apply keeps_bind; [|intros ?]
    | progress cbv zeta
    | match goal with
      | |- keeps_persistent (match ?x with _ => _ end) => destruct x
      end ].

Lemma keeps_GetByID id : keeps_persistent (models.GetByID id).
Proof. unfold models.GetByID. keeps. Qed.

Lemma keeps_GetByUsername username : keeps_persistent (models.GetByUsername username).
Proof. unfold models.GetByUsername. keeps. Qed.

Lemma keeps_Create user : keeps_persistent (models.Create user).
Proof. unfold models.Create. keeps. Qed.

Lemma keeps_CreateWeChatUser openID : keeps_persistent (models.CreateWeChatUser openID).
Proof. unfold models.CreateWeChatUser. keeps. Qed.

Lemma keeps_ValidateToken m tokenString : keeps_persistent (utils.ValidateToken m tokenString).
Proof. intros w Hp. rewrite ValidateToken_eq. exact Hp. Qed.

Lemma keeps_ValidateAccessToken m tokenString :
  keeps_persistent (utils.ValidateAccessToken m tokenString).
Proof. intros w Hp. rewrite ValidateAccessToken_eq. exact Hp. Qed.

Lemma keeps_ValidateRefreshToken m tokenString :
  keeps_persistent (utils.ValidateRefreshToken m tokenString).
Proof. intros w Hp. rewrite ValidateRefreshToken_eq. exact Hp. Qed.

Lemma keeps_generateToken m userID tokenType ttl :
  keeps_persistent (utils.generateToken m userID tokenType ttl).
Proof. intros w Hp. exact Hp. Qed.

Ltac keeps_handler :=
  keeps;
  repeat first
    [ apply keeps_GetByID | apply keeps_GetByUsername | apply keeps_Create
    | apply keeps_CreateWeChatUser | apply keeps_ValidateAccessToken
    | apply keeps_ValidateRefreshToken | apply keeps_generateToken
    | apply keeps_Set_ledger
    | progress keeps ].

Lemma keeps_Register h c : keeps_persistent (handlers.Register h c).
Proof. unfold handlers.Register. keeps_handler. Qed.

Lemma keeps_Login h c : keeps_persistent (handlers.Login h c).
Proof.
  unfold handlers.Login, utils.GenerateAccessToken, utils.GenerateRefreshToken.
  keeps_handler.
Qed.

Lemma keeps_RefreshToken h c : keeps_persistent (handlers.RefreshToken h c).
Proof. unfold handlers.RefreshToken, utils.GenerateAccessToken. keeps_handler. Qed.

Lemma keeps_Logout h c : keeps_persistent (handlers.Logout h c).
Proof. unfold handlers.Logout. keeps_handler. Qed.

Lemma keeps_Me h c : keeps_persistent (handlers.Me h c).
Proof. unfold handlers.Me. keeps_handler. Qed.

Lemma keeps_WeChatLogin h c : keeps_persistent (handlers.WeChatLogin h c).
Proof.
  unfold handlers.WeChatLogin, utils.GenerateAccessToken, utils.GenerateRefreshToken.
  keeps_handler.
Qed.

Lemma keeps_AuthRequired m c : keeps_persistent (middleware.AuthRequired m c).
Proof. unfold middleware.AuthRequired. keeps_handler. Qed.

Lemma keeps_Next (chain : list gin.HandlerFunc) :
  Forall (fun handler => forall c, keeps_persistent (handler c)) chain ->
  forall c, keeps_persistent (gin.Next chain c).
Proof.
  induction 1 as [|handler chain Hh _ IH]; intros c; cbn [gin.Next].
  - apply keeps_ret.
  - destruct (gin.Aborted c); [apply keeps_ret|].
    apply keeps_bind; [apply Hh|exact IH].
Qed.

(** Every route keeps identities persistent, provided the reverse proxy
    behind the authenticated routes does. *)
Theorem routes_keep_identities_persistent (Getenv : string -> string)
    (proxyHandler : gin.HandlerFunc) (method path : string)
    (chain : list gin.HandlerFunc) (c : gin.Context) :
  (forall c', keeps_persistent (proxyHandler c')) ->
  main.routes Getenv proxyHandler method path = Some chain ->
  keeps_persistent (gin.Next chain c).
Proof.
  intros Hproxy Hroute. apply keeps_Next. unfold main.routes in Hroute.
  repeat match type of Hroute with
         | context [if ?b then _ else _] => destruct b
         end;
    try discriminate; injection Hroute as <-;
    unfold main.protected;
    repeat constructor; intros c';
    first [ apply keeps_Register | apply keeps_Login | apply keeps_RefreshToken
          | apply keeps_Logout | apply keeps_WeChatLogin | apply keeps_Me
          | apply keeps_AuthRequired | apply Hproxy | apply keeps_ret ].
Qed.

(** * Further properties of the code *)

(** ** What the validator accepts *)

(** [ValidateToken] returns claims only for a token text that decodes to
    them, names an HMAC algorithm, carries the MAC of its signing input
    under the manager's secret, has not expired and is past its
    not-before date. *)
Theorem ValidateToken_sound (m : utils.JWTManager) (tokenString : string)
    (w : World) (c : Claims) :
  fst (utils.ValidateToken m tokenString w) = Ok c ->
  exists alg signingString sig,
    jwt_parse tokenString = Some (alg, c, signingString, sig) /\
    jwt.is_HMAC alg = true /\
    sig = hmac alg (config.SecretKey (utils.config m)) signingString /\
    (forall exp, ExpiresAt (Registered c) = Some exp -> now w < exp) /\
    (forall nbf, NotBefore (Registered c) = Some nbf -> nbf <= now w).
Proof.
  unfold utils.ValidateToken, jwt.ParseWithClaims, redis.bind,
    redis.time_Now, redis.ret. cbn [fst snd].
  destruct (jwt_parse tokenString) as [[[[alg c'] input] sig]|]; [|discriminate].
  destruct (jwt.GetSigningMethod alg); [|discriminate].
  destruct (jwt.is_HMAC alg) eqn:Hh; [|discriminate].
  unfold jwt.Verify. rewrite Hh. cbn [andb].
  destruct (String.eqb_spec sig (hmac alg (config.SecretKey (utils.config m)) input))
    as [Hsig|_]; [|discriminate].
  destruct (jwt.validate_claims (now w) c') as [[]|] eqn:Hval; [|discriminate].
  intros [= <-]. exists alg, input, sig.
  split; [reflexivity|]. split; [exact Hh|]. split; [exact Hsig|].
  unfold jwt.validate_claims in Hval. split.
  - intros exp He. rewrite He in Hval.
    destruct (Z.ltb_spec (now w) exp); [assumption|discriminate].
  - intros nbf Hn. rewrite Hn in Hval.
    destruct (ExpiresAt (Registered c')) as [exp|].
    + destruct (now w <? exp); [|discriminate].
      destruct (Z.ltb_spec (now w) nbf); [discriminate|lia].
    + destruct (Z.ltb_spec (now w) nbf); [discriminate|lia].
Qed.

Lemma ValidateToken_minted_window m userID tokenType ttl t w' :
  is_Ok (fst (utils.ValidateToken m (minted m userID tokenType ttl t) w')) = true <->
  t `div` Second * Second <= now w' < (t + ttl) `div` Second * Second.
Proof.
  unfold utils.ValidateToken, jwt.ParseWithClaims, redis.bind,
    redis.time_Now, redis.ret, minted.
  cbn [fst snd]. rewrite jwt_parse_compact by apply minted_whole_seconds.
  change (jwt.GetSigningMethod jwt.SigningMethodHS256) with true.
  change (jwt.is_HMAC jwt.SigningMethodHS256) with true.
  cbv iota. unfold jwt.Verify.
  change (jwt.is_HMAC jwt.SigningMethodHS256) with true.
  rewrite String.eqb_refl. cbn [andb].
  unfold jwt.validate_claims, minted_claims, jwt.NewNumericDate.
  cbn [ExpiresAt NotBefore Registered].
  destruct (Z.ltb_spec (now w') ((t + ttl) `div` Second * Second));
    [destruct (Z.ltb_spec (now w') (t `div` Second * Second))|];
    cbn; split; try lia; try discriminate; reflexivity.
Qed.

(** The window of an issued token: with the key that signed it, it
    validates from the second it was issued in up to, and not
    including, the second its TTL ends in. *)
Theorem issued_token_window (m : utils.JWTManager) (userID : string)
    (tokenType : TokenType) (ttl : Z) (w w' : World) :
  exists tok,
    utils.generateToken m userID tokenType ttl w = (Ok tok, w) /\
    (is_Ok (fst (utils.ValidateToken m tok w')) = true <->
     now w `div` Second * Second <= now w' < (now w + ttl) `div` Second * Second).
Proof.
  eexists. split; [apply generateToken_eq|]. apply ValidateToken_minted_window.
Qed.

(** A token issued under one secret is turned down under another,
    whenever the two secrets give its signing input different MACs. *)
Theorem foreign_key_rejected (m m' : utils.JWTManager) (userID : string)
    (tokenType : TokenType) (ttl : Z) (w w' : World) :
  let signingString :=
    jwt_signing_input jwt.SigningMethodHS256
      (minted_claims userID tokenType ttl (now w)) in
  hmac jwt.SigningMethodHS256 (config.SecretKey (utils.config m)) signingString <>
  hmac jwt.SigningMethodHS256 (config.SecretKey (utils.config m')) signingString ->
  exists tok,
    utils.generateToken m userID tokenType ttl w = (Ok tok, w) /\
    is_Ok (fst (utils.ValidateToken m' tok w')) = false.
Proof.
  intros signingString Hmac. eexists. split; [apply generateToken_eq|].
  unfold utils.ValidateToken, jwt.ParseWithClaims, redis.bind,
    redis.time_Now, redis.ret, minted.
  cbn [fst snd]. rewrite jwt_parse_compact by apply minted_whole_seconds.
  change (jwt.GetSigningMethod jwt.SigningMethodHS256) with true.
  change (jwt.is_HMAC jwt.SigningMethodHS256) with true.
  cbv iota. unfold jwt.Verify.
  change (jwt.is_HMAC jwt.SigningMethodHS256) with true.
  cbn [andb].
  fold signingString.
  destruct (String.eqb_spec
              (hmac jwt.SigningMethodHS256 (config.SecretKey (utils.config m))
                 signingString)
              (hmac jwt.SigningMethodHS256 (config.SecretKey (utils.config m'))
                 signingString)) as [Heq|_].
  - exfalso. exact (Hmac Heq).
  - reflexivity.
Qed.

(** ** Bearer authentication keeps no state *)

Lemma ValidateToken_clock m tokenString w w' :
  now w = now w' ->
  fst (utils.ValidateToken m tokenString w) = fst (utils.ValidateToken m tokenString w').
Proof.
  intros Hnow. unfold utils.ValidateToken, redis.bind.
  rewrite (ParseWithClaims_eq _ _ w), (ParseWithClaims_eq _ _ w').
  assert (Hp : forall keyFunc,
            fst (jwt.ParseWithClaims tokenString keyFunc w) =
            fst (jwt.ParseWithClaims tokenString keyFunc w')).
  { intros keyFunc. unfold jwt.ParseWithClaims, redis.bind, redis.time_Now, redis.ret.
    cbn [fst snd]. rewrite Hnow. reflexivity. }
  rewrite Hp. destruct (fst (jwt.ParseWithClaims _ _ w')); reflexivity.
Qed.

Lemma ValidateAccessToken_clock m tokenString w w' :
  now w = now w' ->
  fst (utils.ValidateAccessToken m tokenString w) =
  fst (utils.ValidateAccessToken m tokenString w').
Proof.
  intros Hnow. unfold utils.ValidateAccessToken, redis.bind.
  rewrite (ValidateToken_eq _ _ w), (ValidateToken_eq _ _ w').
  rewrite (ValidateToken_clock _ _ w w' Hnow).
  destruct (fst (utils.ValidateToken _ _ w')) as [c|e]; [|reflexivity].
  destruct (negb _); reflexivity.
Qed.

(** [AuthRequired] reads the clock and nothing else of the world: on
    two worlds showing the same instant it decides alike, whatever
    their stores hold and whether Redis answers, and it leaves the world
    as it was. A logout therefore does not unseat an access token. *)
Theorem AuthRequired_stateless (m : middleware.AuthMiddleware)
    (c : gin.Context) (w w' : World) :
  now w = now w' ->
  fst (middleware.AuthRequired m c w) = fst (middleware.AuthRequired m c w') /\
  snd (middleware.AuthRequired m c w) = w.
Proof.
  intros Hnow. unfold middleware.AuthRequired.
  destruct (String.eqb (gin.Authorization c) ""); [split; reflexivity|].
  destruct (strings.Split (gin.Authorization c) " "%char)
    as [|scheme [|tok [|third rest]]]; try (split; reflexivity).
  destruct (negb (String.eqb scheme "Bearer")); [split; reflexivity|].
  unfold redis.bind.
  rewrite (ValidateAccessToken_eq _ _ w), (ValidateAccessToken_eq _ _ w').
  rewrite (ValidateAccessToken_clock _ _ w w' Hnow).
  destruct (fst (utils.ValidateAccessToken _ _ w')); split; reflexivity.
Qed.

Lemma Split_bearer (tokenString : string) :
  strings.Split tokenString " "%char = [tokenString] ->
  strings.Split ("Bearer " +:+ tokenString) " "%char = ["Bearer"; tokenString].
Proof.
  intros Hs.
  change (strings.Split ("Bearer " +:+ tokenString) " "%char) with
    (match strings.Split tokenString " "%char with
     | _ => match "" :: strings.Split tokenString " "%char with
            | part :: parts => ("Bearer" +:+ part) :: parts
            | [] => ["Bearer"]
            end
     end).
  rewrite Hs. reflexivity.
Qed.

(** From login to a protected route: the access token of a login
    answered 200, sent as [Bearer {token}] before it expires, passes
    [AuthRequired], and GET /api/protected answers 200 naming the
    principal the token was issued to. The token text must hold no
    space, or the header would not split in two. *)
Theorem login_token_opens_protected_route (Getenv : string -> string)
    (c : gin.Context) (w w' : World) (accessToken body : string) :
  let h := main.authHandler Getenv in
  let request := gin.request ("Bearer " +:+ accessToken) body in
  gin.status_of (fst (handlers.Login h c w)) = Some http.StatusOK ->
  body_string "access_token" (fst (handlers.Login h c w)) = Some accessToken ->
  strings.Split accessToken " "%char = [accessToken] ->
  now w <= now w' ->
  now w' < (now w + 15 * Minute) `div` Second * Second ->
  exists userID,
    principal (fst (handlers.Login h c w)) = Some userID /\
    authenticated (main.authMiddleware Getenv) w' request userID /\
    gin.Next (main.protected Getenv main.api_protected) request w' =
      (gin.JSON http.StatusOK
         (gin.H [("message", JString "This is a protected endpoint");
                 ("user_id", JString userID)])
         (gin.Set_ "userID" userID request), w').
Proof.
  intros h request H200 Hbody Hsplit Hle Hlt. subst request.
  apply Login_OK in H200 as (user & w1 & Hn & _ & Hf & Hrun).
  rewrite Hrun in Hbody |- *.
  destruct (issue_tokens_served h (models.ID user) c w1 Hf) as (_ & Hat & _).
  rewrite Hat in Hbody. injection Hbody as <-. rewrite Hn in *.
  exists (models.ID user).
  set (request := gin.request _ body).
  assert (Hauth : authenticated (main.authMiddleware Getenv) w' request (models.ID user)).
  { eexists _, (minted_claims (models.ID user) utils.AccessToken _ (now w)).
    split; [apply Split_bearer, Hsplit|]. split; [|reflexivity].
    unfold utils.ValidateAccessToken, redis.bind.
    rewrite ValidateToken_eq.
    rewrite (ValidateToken_minted _ (models.ID user) utils.AccessToken _ w w' Hle Hlt).
    reflexivity. }
  split; [|split; [exact Hauth|]].
  - unfold principal. rewrite Hat, carried_minted. reflexivity.
  - unfold main.protected. cbn [gin.Next gin.Aborted request gin.request].
    unfold redis.bind.
    rewrite (AuthRequired_accepts _ _ w' _ Hauth).
    cbv beta iota. unfold gin.Set_ at 1. cbn [gin.Aborted request gin.request].
    unfold redis.bind, main.api_protected, gin.Get.
    unfold redis.ret. cbv beta iota.
    change (gin.Keys (gin.Set_ "userID" (models.ID user) request))
      with (<["userID" := models.ID user]> (gin.Keys request)).
    rewrite lookup_insert_eq. reflexivity.
Qed.

(** ** The life of a refresh token *)

(** [RefreshToken] only reads: whatever it answers, the store holds
    what it held and the clock shows what it showed. The refresh token
    is neither rotated nor given a new expiry. *)
Theorem RefreshToken_reads_only (h : handlers.AuthHandler) (c : gin.Context)
    (w : World) :
  db (snd (handlers.RefreshToken h c w)) = db w /\
  now (snd (handlers.RefreshToken h c w)) = now w.
Proof.
  unfold handlers.RefreshToken.
  destruct (handlers.ShouldBindJSON_RefreshRequest c) as [req|e]; [|split; reflexivity].
  unfold redis.bind. rewrite ValidateRefreshToken_eq.
  destruct (fst (utils.ValidateRefreshToken _ _ w)) as [claims|e]; [|split; reflexivity].
  rewrite Get_eq.
  destruct (if redis.next_fault w then _ else _) as [userID|e];
    [|cbn; split; [apply served_db|apply served_now]].
  destruct (negb _); cbn; (split; [apply served_db|apply served_now]).
Qed.

Lemma ValidateRefreshToken_minted m userID ttl t w' :
  fst (utils.ValidateRefreshToken m (minted m userID utils.RefreshToken ttl t) w') =
    Ok (minted_claims userID utils.RefreshToken ttl t) \/
  is_Ok (fst (utils.ValidateRefreshToken m (minted m userID utils.RefreshToken ttl t) w'))
    = false.
Proof.
  unfold utils.ValidateRefreshToken, redis.bind. rewrite ValidateToken_eq.
  destruct (fst (utils.ValidateToken m _ w')) as [c|e] eqn:Hv; [|right; reflexivity].
  apply ValidateToken_carried in Hv. rewrite carried_minted in Hv.
  injection Hv as <-. left. reflexivity.
Qed.

Lemma ValidateRefreshToken_minted_window m userID ttl t w' :
  is_Ok (fst (utils.ValidateRefreshToken m (minted m userID utils.RefreshToken ttl t) w'))
    = true <->
  t `div` Second * Second <= now w' < (t + ttl) `div` Second * Second.
Proof.
  rewrite <- (ValidateToken_minted_window m userID utils.RefreshToken ttl t w').
  unfold utils.ValidateRefreshToken, redis.bind. rewrite ValidateToken_eq.
  destruct (fst (utils.ValidateToken m _ w')) as [c|e] eqn:Hv; [|reflexivity].
  apply ValidateToken_carried in Hv. rewrite carried_minted in Hv.
  injection Hv as <-. reflexivity.
Qed.

(** The refresh token of a login answered 200 refreshes, while its
    ledger entry stays as the login wrote it and Redis answers, exactly
    until the earlier of two instants: the second its signed TTL ends
    in, and seven days after the login, when the ledger entry expires. *)
Theorem refresh_token_lifetime (h : handlers.AuthHandler)
    (login refresh : gin.Context) (w w' : World) (refreshToken : string) :
  gin.status_of (fst (handlers.Login h login w)) = Some http.StatusOK ->
  body_string "refresh_token" (fst (handlers.Login h login w)) = Some refreshToken ->
  handlers.ShouldBindJSON_RefreshRequest refresh =
    Ok {| handlers.RefreshRequest.RefreshToken := refreshToken |} ->
  db w' !! ledger_key refreshToken =
    db (snd (handlers.Login h login w)) !! ledger_key refreshToken ->
  redis.next_fault w' = false ->
  now w <= now w' ->
  (gin.status_of (fst (handlers.RefreshToken h refresh w')) = Some http.StatusOK <->
   now w' < (now w + config.RefreshTokenTTL (utils.config (handlers.jwtManager h)))
              `div` Second * Second /\
   now w' < now w + 7 * 24 * Hour).
Proof.
  intros H200 Hbody Hbind Hentry Hf Hle.
  apply Login_OK in H200 as (user & w1 & Hn & _ & Hf1 & Hrun).
  rewrite Hrun in Hbody, Hentry.
  destruct (issue_tokens_served h (models.ID user) login w1 Hf1)
    as (_ & _ & Hrt & _ & _ & Hdb).
  rewrite Hrt in Hbody. injection Hbody as <-.
  rewrite Hdb, lookup_insert_eq in Hentry. rewrite Hn in *.
  set (ttl := config.RefreshTokenTTL (utils.config (handlers.jwtManager h))) in *.
  set (rt := minted (handlers.jwtManager h) (models.ID user) utils.RefreshToken ttl (now w))
    in *.
  pose proof (ValidateRefreshToken_minted_window (handlers.jwtManager h)
                (models.ID user) ttl (now w) w') as Hwin.
  fold rt in Hwin.
  pose proof (truncate_le (now w)) as Htr.
  unfold handlers.RefreshToken. rewrite Hbind.
  cbn [handlers.RefreshRequest.RefreshToken].
  unfold redis.bind. rewrite ValidateRefreshToken_eq.
  destruct (ValidateRefreshToken_minted (handlers.jwtManager h) (models.ID user)
              ttl (now w) w') as [Hok|Hbad]; fold rt in Hok || fold rt in Hbad.
  2:{ destruct (fst (utils.ValidateRefreshToken _ rt w')) as [cl|e]; [discriminate|].
      cbn. split; [discriminate|]. intros [Hlt _].
      assert (Hc : false = true) by (apply Hwin; lia). discriminate. }
  rewrite Hok in Hwin |- *. cbn [is_Ok] in Hwin.
  change ("refresh_token:" +:+ rt) with (ledger_key rt).
  rewrite Get_eq, Hf. unfold redis.visible. rewrite Hentry.
  unfold redis.live. cbn [redis.expireAt redis.value].
  destruct (Z.ltb_spec (now w') (now w + 7 * 24 * Hour)).
  - cbn [UserID minted_claims]. rewrite String.eqb_refl. cbn [negb].
    rewrite GenerateAccessToken_eq. cbn.
    split; [intros _|reflexivity].
    split; [apply Hwin; reflexivity|assumption].
  - cbn. split; [discriminate|]. intros [_ Hlt]. lia.
Qed.

(** A logout that Redis carries out removes the ledger entry of the
    token presented and no other key; after it, and for as long as the
    entry stays absent, that token is answered 401 at the refresh
    endpoint. *)
Theorem logout_revokes_this_token_only (h : handlers.AuthHandler)
    (c : gin.Context) (w : World) (req : handlers.RefreshRequest.t) :
  handlers.ShouldBindJSON_RefreshRequest c = Ok req ->
  redis.next_fault w = false ->
  let key := ledger_key (handlers.RefreshRequest.RefreshToken req) in
  let w1 := snd (handlers.Logout h c w) in
  (forall key', key' <> key -> db w1 !! key' = db w !! key') /\
  (forall (refresh : gin.Context) (w2 : World),
     handlers.ShouldBindJSON_RefreshRequest refresh = Ok req ->
     db w2 !! key = db w1 !! key ->
     gin.status_of (fst (handlers.RefreshToken h refresh w2)) =
       Some http.StatusUnauthorized).
Proof.
  intros Hbind Hf key w1.
  assert (Hdb : db w1 = delete key (db w)).
  { subst w1. unfold handlers.Logout. rewrite Hbind. unfold redis.bind.
    change ("refresh_token:" +:+ handlers.RefreshRequest.RefreshToken req) with key.
    rewrite Del_eq, Hf. reflexivity. }
  split.
  - intros key' Hne. rewrite Hdb. apply lookup_delete_ne. auto.
  - intros refresh w2 Hb2 Hkey.
    rewrite Hdb, lookup_delete_eq in Hkey.
    unfold handlers.RefreshToken. rewrite Hb2. unfold redis.bind.
    rewrite ValidateRefreshToken_eq.
    destruct (fst (utils.ValidateRefreshToken _ _ w2)) as [claims|e]; [|reflexivity].
    change ("refresh_token:" +:+ handlers.RefreshRequest.RefreshToken req) with key.
    rewrite Get_eq. unfold redis.visible. rewrite Hkey.
    destruct (redis.next_fault w2); reflexivity.
Qed.

(** [Login] writes one key at most. A login not answered 200 leaves
    the whole store as it was; a login answered 200 leaves the store it
    found with one entry put in, under the ledger key of the refresh
    token in its answer: the principal of the tokens, to expire seven
    days on. No other key is written, changed or removed. *)
Theorem Login_writes_ledger_only (h : handlers.AuthHandler) (c : gin.Context)
    (w : World) :
  (gin.status_of (fst (handlers.Login h c w)) <> Some http.StatusOK /\
   db (snd (handlers.Login h c w)) = db w) \/
  (gin.status_of (fst (handlers.Login h c w)) = Some http.StatusOK /\
   exists refreshToken userID,
     body_string "refresh_token" (fst (handlers.Login h c w)) = Some refreshToken /\
     principal (fst (handlers.Login h c w)) = Some userID /\
     db (snd (handlers.Login h c w)) =
       <[ledger_key refreshToken :=
           {| redis.value := userID;
              redis.expireAt := Some (now w + 7 * 24 * Hour) |}]> (db w)).
Proof.
  destruct (decide (gin.status_of (fst (handlers.Login h c w)) = Some http.StatusOK))
    as [H200|Hnot].
  - right. split; [exact H200|].
    destruct (Login_OK h c w H200) as (user & w1 & Hnow & Hdb & Hf & ->).
    destruct (issue_tokens_served h (models.ID user) c w1 Hf)
      as (_ & Hat & Hrt & _ & _ & Hst).
    eexists _, (models.ID user). split; [exact Hrt|]. split.
    + unfold principal. rewrite Hat, carried_minted. reflexivity.
    + rewrite Hst, Hnow, Hdb. reflexivity.
  - left. split; [exact Hnot|]. revert Hnot.
    unfold handlers.Login.
    destruct (handlers.ShouldBindJSON_LoginRequest c) as [req|e]; [|reflexivity].
    unfold redis.bind.
    pose proof (GetByUsername_world (handlers.LoginRequest.Username req) w) as [_ Hd].
    destruct (models.GetByUsername _ w) as [[user|e] w1]; cbn [snd] in Hd;
      [|intros _; exact Hd].
    destruct (bcrypt_CompareHashAndPassword _ _); cbn [negb]; [|intros _; exact Hd].
    change (gin.status_of (fst (issue_tokens h (models.ID user) c w1)) <>
              Some http.StatusOK ->
            db (snd (issue_tokens h (models.ID user) c w1)) = db w).
    rewrite issue_tokens_eq. destruct (redis.next_fault w1); cbn.
    + intros _. rewrite served_db. exact Hd.
    + intros Hc. exfalso. apply Hc. reflexivity.
Qed.

(** ** The user store *)

Lemma GetByID_found id w e user :
  redis.next_fault w = false ->
  db w !! ("user:" +:+ id) = Some e -> redis.expireAt e = None ->
  models.Unmarshal (redis.value e) = Ok user ->
  fst (models.GetByID id w) = Ok user.
Proof.
  intros Hf Hdb Hex Hu. rewrite GetByID_eq, Hf.
  rewrite (visible_persistent _ _ _ Hdb Hex), Hu. reflexivity.
Qed.

Lemma GetByID_absent id w :
  redis.next_fault w = false ->
  db w !! ("user:" +:+ id) = None ->
  fst (models.GetByID id w) = Err "user not found".
Proof.
  intros Hf Hdb. rewrite GetByID_eq, Hf. unfold redis.visible. rewrite Hdb. reflexivity.
Qed.

Lemma GetByUsername_found username w e e' user :
  redis.next_fault w = false -> redis.next_fault (redis.served w) = false ->
  db w !! ("username:" +:+ username) = Some e -> redis.expireAt e = None ->
  db w !! ("user:" +:+ redis.value e) = Some e' -> redis.expireAt e' = None ->
  models.Unmarshal (redis.value e') = Ok user ->
  fst (models.GetByUsername username w) = Ok user.
Proof.
  intros Hf Hf' Hdb Hex Hdb' Hex' Hu.
  unfold models.GetByUsername, redis.bind. rewrite Get_eq, Hf.
  rewrite (visible_persistent _ _ _ Hdb Hex).
  apply GetByID_found with (e := e'); try assumption.
  rewrite served_db. exact Hdb'.
Qed.

Lemma GetByUsername_absent username w :
  redis.next_fault w = false ->
  db w !! ("username:" +:+ username) = None ->
  fst (models.GetByUsername username w) = Err "user not found".
Proof.
  intros Hf Hdb. unfold models.GetByUsername, redis.bind. rewrite Get_eq, Hf.
  unfold redis.visible. rewrite Hdb. reflexivity.
Qed.

Lemma GetByOpenID_found openID w e e' user :
  redis.next_fault w = false -> redis.next_fault (redis.served w) = false ->
  db w !! ("openid:" +:+ openID) = Some e -> redis.expireAt e = None ->
  db w !! ("user:" +:+ redis.value e) = Some e' -> redis.expireAt e' = None ->
  models.Unmarshal (redis.value e') = Ok user ->
  fst (models.GetByOpenID openID w) = Ok user.
Proof.
  intros Hf Hf' Hdb Hex Hdb' Hex' Hu.
  unfold models.GetByOpenID, redis.bind. rewrite Get_eq, Hf.
  rewrite (visible_persistent _ _ _ Hdb Hex).
  apply GetByID_found with (e := e'); try assumption.
  rewrite served_db. exact Hdb'.
Qed.

Lemma GetByOpenID_absent openID w :
  redis.next_fault w = false ->
  db w !! ("openid:" +:+ openID) = None ->
  fst (models.GetByOpenID openID w) = Err "user not found".
Proof.
  intros Hf Hdb. unfold models.GetByOpenID, redis.bind. rewrite Get_eq, Hf.
  unfold redis.visible. rewrite Hdb. reflexivity.
Qed.

(** What [Create] does, command by command. *)
Lemma Create_run user w :
  models.ID user <> "" ->
  let stored := <["user:" +:+ models.ID user := record_of (created_at user (now w))]>
                  (db w) in
  fst (models.Create user w) =
    (if redis.next_fault w
     then Err ("failed to store user: " +:+ redis.io_error)
     else if redis.next_fault (redis.served w)
          then Err ("failed to create username index: " +:+ redis.io_error)
          else Ok tt) /\
  db (snd (models.Create user w)) =
    (if redis.next_fault w then db w
     else if redis.next_fault (redis.served w) then stored
          else <["username:" +:+ models.Username user := index_to (models.ID user)]>
                 stored) /\
  now (snd (models.Create user w)) = now w.
Proof.
  intros Hid stored. subst stored. unfold models.Create.
  destruct (String.eqb_spec (models.ID user) "") as [He|_]; [contradiction|].
  unfold redis.bind, redis.time_Now, models.Marshal.
  cbn [models.ID models.Username].
  rewrite Set_eq. destruct (redis.next_fault w).
  { unfold redis.ret. cbn [fst snd]. rewrite served_db, served_now. auto. }
  match goal with |- context [redis.Set_ _ _ _ ?x] => set (w1 := x) end.
  assert (Hnf : redis.next_fault w1 = redis.next_fault (redis.served w)) by reflexivity.
  rewrite Set_eq, Hnf.
  destruct (redis.next_fault (redis.served w)); unfold redis.ret; cbn [fst snd].
  - rewrite served_db, served_now. subst w1. cbn [redis.db redis.now]. auto.
  - subst w1. cbn [redis.db redis.now]. auto.
Qed.

Lemma Create_Ok_nonempty user w w1 :
  models.Create user w = (Ok tt, w1) -> models.ID user <> "".
Proof.
  intros Hrun Hid. unfold models.Create in Hrun. rewrite Hid in Hrun.
  cbn in Hrun. discriminate.
Qed.

(** Round trip of [Create]: once it has succeeded, and for as long as
    the store keeps what it wrote, the record is found by id and by
    username, carrying the fields given and the instant of creation as
    both timestamps. *)
Theorem Create_then_lookup (user : models.User) (w w1 w2 : World) :
  models.Create user w = (Ok tt, w1) ->
  db w2 = db w1 ->
  redis.next_fault w2 = false ->
  fst (models.GetByID (models.ID user) w2) = Ok (created_at user (now w)) /\
  (redis.next_fault (redis.served w2) = false ->
   fst (models.GetByUsername (models.Username user) w2) = Ok (created_at user (now w))).
Proof.
  intros Hrun Hdb Hf.
  pose proof (Create_Ok_nonempty _ _ _ Hrun) as Hid.
  destruct (Create_run user w Hid) as (Hres & Hst & _).
  rewrite Hrun in Hres, Hst. cbn [fst snd] in Hres, Hst.
  destruct (redis.next_fault w); [discriminate|].
  destruct (redis.next_fault (redis.served w)); [discriminate|].
  assert (Huser : db w2 !! ("user:" +:+ models.ID user) =
                  Some (record_of (created_at user (now w)))).
  { rewrite Hdb, Hst.
    rewrite lookup_insert_ne by (apply not_eq_sym, user_key_not_username_key).
    apply lookup_insert_eq. }
  split.
  - apply (GetByID_found _ _ _ _ Hf Huser); [reflexivity|apply Unmarshal_Marshal].
  - intros Hf'.
    apply (GetByUsername_found _ _ (index_to (models.ID user))
             (record_of (created_at user (now w)))); try assumption; try reflexivity.
    + rewrite Hdb, Hst. apply lookup_insert_eq.
    + apply Unmarshal_Marshal.
Qed.

(** [Create] is two writes and no rollback: when the record is written
    and the write of the username index fails, the call reports an error
    and the record stays in the store, to be found by id, while the
    index is as it was. *)
Theorem Create_without_index (user : models.User) (w w2 : World) :
  models.ID user <> "" ->
  redis.next_fault w = false ->
  redis.next_fault (redis.served w) = true ->
  db w2 = db (snd (models.Create user w)) ->
  redis.next_fault w2 = false ->
  is_Ok (fst (models.Create user w)) = false /\
  fst (models.GetByID (models.ID user) w2) = Ok (created_at user (now w)) /\
  db w2 !! ("username:" +:+ models.Username user) =
    db w !! ("username:" +:+ models.Username user).
Proof.
  intros Hid Hf1 Hf2 Hdb Hf.
  destruct (Create_run user w Hid) as (Hres & Hst & _).
  rewrite Hf1, Hf2 in Hres, Hst. rewrite Hst in Hdb.
  split; [rewrite Hres; reflexivity|]. split.
  - apply (GetByID_found _ _ (record_of (created_at user (now w)))); try assumption;
      try reflexivity.
    + rewrite Hdb. apply lookup_insert_eq.
    + apply Unmarshal_Marshal.
  - rewrite Hdb. apply lookup_insert_ne, user_key_not_username_key.
Qed.

(** For an OpenID with no index entry, a successful [CreateWeChatUser]
    makes the user [wx_<OpenID>], with that id as username, no password
    and no e-mail address, stamped with what it read off the clock,
    under keys it does not check to be free; from then on that user is
    found by OpenID, by id and by username. *)
Theorem CreateWeChatUser_then_lookup (openID : string) (user : models.User)
    (w w1 w2 : World) :
  redis.visible w ("openid:" +:+ openID) = None ->
  models.CreateWeChatUser openID w = (Ok user, w1) ->
  db w2 = db w1 ->
  redis.next_fault w2 = false ->
  redis.next_fault (redis.served w2) = false ->
  (exists createdAt updatedAt, user = wechat_user openID createdAt updatedAt) /\
  fst (models.GetByOpenID openID w2) = Ok user /\
  fst (models.GetByID ("wx_" +:+ openID) w2) = Ok user /\
  fst (models.GetByUsername ("wx_" +:+ openID) w2) = Ok user.
Proof.
  intros Hnone Hrun Hdb Hf Hf'.
  apply CreateWeChatUser_Ok in Hrun
    as [_ [(e & e' & Hidx & _) | (_ & -> & Hst)]]; [congruence|].
  rewrite Hst in Hdb. clear Hst.
  set (id := "wx_" +:+ openID) in *.
  set (user := new_wechat_user openID (now w)).
  assert (Hidx : db w2 !! ("openid:" +:+ openID) = Some (index_to id)).
  { rewrite Hdb. apply lookup_insert_eq. }
  assert (Hname : db w2 !! ("username:" +:+ id) = Some (index_to id)).
  { rewrite Hdb. rewrite lookup_insert_ne by apply openid_key_not_username.
    apply lookup_insert_eq. }
  assert (Huser : db w2 !! ("user:" +:+ id) = Some (record_of user)).
  { rewrite Hdb. rewrite lookup_insert_ne by apply openid_key_not_user.
    rewrite lookup_insert_ne by (apply not_eq_sym, user_key_not_username_key).
    apply lookup_insert_eq. }
  split; [exists (now w), (now w); reflexivity|]. split; [|split].
  - apply (GetByOpenID_found _ _ (index_to id) (record_of user)); try assumption;
      try reflexivity. apply Unmarshal_Marshal.
  - apply (GetByID_found _ _ (record_of user)); try assumption; try reflexivity.
    apply Unmarshal_Marshal.
  - apply (GetByUsername_found _ _ (index_to id) (record_of user)); try assumption;
      try reflexivity. apply Unmarshal_Marshal.
Qed.

Lemma Update_run user w :
  fst (models.Update user w) =
    (if redis.next_fault w then Err ("failed to get user: " +:+ redis.io_error)
     else match redis.visible w ("user:" +:+ models.ID user) with
          | None => Err "user not found"
          | Some e =>
              match models.Unmarshal (redis.value e) with
              | Err err => Err ("failed to unmarshal user: " +:+ err)
              | Ok _ =>
                  if redis.next_fault (redis.served w)
                  then Err ("failed to update user: " +:+ redis.io_error)
                  else Ok tt
              end
          end) /\
  db (snd (models.Update user w)) =
    (if is_Ok (fst (models.Update user w))
     then <["user:" +:+ models.ID user := record_of (updated_at user (now w))]> (db w)
     else db w).
Proof.
  unfold models.Update, redis.bind. rewrite GetByID_eq.
  destruct (redis.next_fault w); [cbn; rewrite served_db; auto|].
  destruct (redis.visible w _) as [e|]; [|cbn; rewrite served_db; auto].
  destruct (models.Unmarshal (redis.value e)) as [old|err];
    [|cbn; rewrite served_db; auto].
  unfold redis.time_Now, models.Marshal. cbn [models.ID].
  rewrite Set_eq.
  destruct (redis.next_fault (redis.served w)); unfold redis.ret; cbn [fst snd is_Ok].
  - rewrite !served_db. auto.
  - cbn [redis.db]. rewrite served_db, served_now. auto.
Qed.

(** [Update] touches nothing for an id with no record and reports an
    error; when it succeeds it has rewritten the record under the id,
    and that key alone, so that the record is then found with the fields
    given, the creation date given, and the instant of the update. *)
Theorem Update_then_GetByID (user : models.User) (w : World) :
  (redis.visible w ("user:" +:+ models.ID user) = None ->
   is_Ok (fst (models.Update user w)) = false /\
   db (snd (models.Update user w)) = db w) /\
  (is_Ok (fst (models.Update user w)) = true ->
   (forall key, key <> "user:" +:+ models.ID user ->
      db (snd (models.Update user w)) !! key = db w !! key) /\
   (forall w2, db w2 = db (snd (models.Update user w)) ->
      redis.next_fault w2 = false ->
      fst (models.GetByID (models.ID user) w2) = Ok (updated_at user (now w)))).
Proof.
  destruct (Update_run user w) as [Hres Hst]. split.
  - intros Hnone. rewrite Hnone in Hres.
    assert (Hbad : is_Ok (fst (models.Update user w)) = false).
    { rewrite Hres. destruct (redis.next_fault w); reflexivity. }
    split; [exact Hbad|]. rewrite Hst, Hbad. reflexivity.
  - intros Hok. rewrite Hok in Hst. split.
    + intros key Hne. rewrite Hst. apply lookup_insert_ne. auto.
    + intros w2 Hdb Hf.
      apply (GetByID_found _ _ (record_of (updated_at user (now w)))); try assumption;
        try reflexivity.
      * rewrite Hdb, Hst. apply lookup_insert_eq.
      * apply Unmarshal_Marshal.
Qed.

(** [Update] does not maintain the username index: after an update that
    changes the username, the old username still leads to the record,
    now carrying the new one, and the new username, if it had no index
    entry, leads nowhere. *)
Theorem Update_leaves_username_index (user : models.User) (old : string)
    (w w2 : World) :
  is_Ok (fst (models.Update user w)) = true ->
  db w !! ("username:" +:+ old) = Some (index_to (models.ID user)) ->
  db w !! ("username:" +:+ models.Username user) = None ->
  db w2 = db (snd (models.Update user w)) ->
  redis.next_fault w2 = false ->
  redis.next_fault (redis.served w2) = false ->
  fst (models.GetByUsername old w2) = Ok (updated_at user (now w)) /\
  fst (models.GetByUsername (models.Username user) w2) = Err "user not found".
Proof.
  intros Hok Hold Hnew Hdb Hf Hf'.
  destruct (Update_run user w) as [_ Hst]. rewrite Hok in Hst. rewrite Hst in Hdb.
  split.
  - apply (GetByUsername_found _ _ (index_to (models.ID user))
             (record_of (updated_at user (now w)))); try assumption; try reflexivity.
    + rewrite Hdb. rewrite lookup_insert_ne by apply user_key_not_username_key.
      exact Hold.
    + rewrite Hdb. apply lookup_insert_eq.
    + apply Unmarshal_Marshal.
  - apply GetByUsername_absent; [assumption|].
    rewrite Hdb. rewrite lookup_insert_ne by apply user_key_not_username_key.
    exact Hnew.
Qed.

Lemma Delete_Ok id w w1 :
  models.Delete id w = (Ok tt, w1) ->
  exists user,
    fst (models.GetByID id w) = Ok user /\
    db w1 =
      (if String.eqb (models.OpenID user) "" then fun d => d
       else delete ("openid:" +:+ models.OpenID user))
        (delete ("username:" +:+ models.Username user)
           (delete ("user:" +:+ id) (db w))).
Proof.
  unfold models.Delete, redis.bind.
  destruct (models.GetByID id w) as [[user|e] wa] eqn:Hget; [|discriminate].
  assert (Hwa : db wa = db w).
  { rewrite GetByID_eq in Hget. injection Hget as _ <-. apply served_db. }
  rewrite Del_eq. destruct (redis.next_fault wa); [discriminate|].
  rewrite Del_eq. cbn [redis.db redis.now].
  match goal with |- context [redis.next_fault ?x] => destruct (redis.next_fault x) end;
    [discriminate|].
  destruct (String.eqb (models.OpenID user) "") eqn:Ho; cbn [negb].
  - intros [= <-]. exists user. rewrite Ho, Hwa. split; reflexivity.
  - rewrite Del_eq. cbn [redis.db redis.now].
    match goal with |- context [redis.next_fault ?x] => destruct (redis.next_fault x) end;
      [discriminate|].
    intros [= <-]. exists user. cbn [redis.db]. rewrite Ho, Hwa. split; reflexivity.
Qed.

Lemma user_key_not_openid id o : "user:" +:+ id <> "openid:" +:+ o.
Proof. cbn. discriminate. Qed.

Lemma username_key_not_openid u o : "username:" +:+ u <> "openid:" +:+ o.
Proof. cbn. discriminate. Qed.

(** A successful [Delete] removes the record and the indexes of the
    username and of the OpenID the record names, so that afterwards
    the user is found by none of the three; it removes no ledger
    entry. *)
Theorem Delete_then_lookup (id : string) (w w1 w2 : World) :
  models.Delete id w = (Ok tt, w1) ->
  db w2 = db w1 ->
  redis.next_fault w2 = false ->
  exists user,
    fst (models.GetByID id w) = Ok user /\
    fst (models.GetByID id w2) = Err "user not found" /\
    fst (models.GetByUsername (models.Username user) w2) = Err "user not found" /\
    (models.OpenID user <> "" ->
     fst (models.GetByOpenID (models.OpenID user) w2) = Err "user not found") /\
    (forall refreshToken,
       db w1 !! ledger_key refreshToken = db w !! ledger_key refreshToken).
Proof.
  intros Hrun Hdb Hf.
  apply Delete_Ok in Hrun as (user & Hget & Hst).
  exists user. split; [exact Hget|]. rewrite <- Hdb in Hst.
  destruct (String.eqb_spec (models.OpenID user) "") as [Ho|Ho].
  - split; [|split; [|split]].
    + apply GetByID_absent; [assumption|]. rewrite Hst.
      rewrite lookup_delete_ne by (apply not_eq_sym, user_key_not_username_key).
      apply lookup_delete_eq.
    + apply GetByUsername_absent; [assumption|]. rewrite Hst. apply lookup_delete_eq.
    + intros Hne. contradiction.
    + intros T. rewrite <- Hdb, Hst.
      rewrite lookup_delete_ne by (apply not_eq_sym, ledger_key_not_username).
      apply lookup_delete_ne, not_eq_sym, ledger_key_not_user.
  - split; [|split; [|split]].
    + apply GetByID_absent; [assumption|]. rewrite Hst.
      rewrite lookup_delete_ne by (apply not_eq_sym, user_key_not_openid).
      rewrite lookup_delete_ne by (apply not_eq_sym, user_key_not_username_key).
      apply lookup_delete_eq.
    + apply GetByUsername_absent; [assumption|]. rewrite Hst.
      rewrite lookup_delete_ne by (apply not_eq_sym, username_key_not_openid).
      apply lookup_delete_eq.
    + intros _. apply GetByOpenID_absent; [assumption|]. rewrite Hst.
      apply lookup_delete_eq.
    + intros T. rewrite <- Hdb, Hst.
      rewrite lookup_delete_ne by (apply not_eq_sym, ledger_key_not_openid).
      rewrite lookup_delete_ne by (apply not_eq_sym, ledger_key_not_username).
      apply lookup_delete_ne, not_eq_sym, ledger_key_not_user.
Qed.

Lemma ValidateRefreshToken_clock m tokenString w w' :
  now w = now w' ->
  fst (utils.ValidateRefreshToken m tokenString w) =
  fst (utils.ValidateRefreshToken m tokenString w').
Proof.
  intros Hnow. unfold utils.ValidateRefreshToken, redis.bind.
  rewrite (ValidateToken_eq _ _ w), (ValidateToken_eq _ _ w').
  rewrite (ValidateToken_clock _ _ w w' Hnow).
  destruct (fst (utils.ValidateToken _ _ w')) as [c|e]; [|reflexivity].
  destruct (negb _); reflexivity.
Qed.

Lemma RefreshToken_Writer_eq h c req w w' :
  handlers.ShouldBindJSON_RefreshRequest c = Ok req ->
  now w = now w' ->
  redis.next_fault w = redis.next_fault w' ->
  db w !! ledger_key (handlers.RefreshRequest.RefreshToken req) =
    db w' !! ledger_key (handlers.RefreshRequest.RefreshToken req) ->
  gin.Writer (fst (handlers.RefreshToken h c w)) =
  gin.Writer (fst (handlers.RefreshToken h c w')).
Proof.
  intros Hbind Hnow Hf Hkey.
  unfold handlers.RefreshToken. rewrite Hbind. unfold redis.bind.
  rewrite (ValidateRefreshToken_eq _ _ w), (ValidateRefreshToken_eq _ _ w').
  rewrite (ValidateRefreshToken_clock _ _ w w' Hnow).
  destruct (fst (utils.ValidateRefreshToken _ _ w')) as [claims|e]; [|reflexivity].
  change ("refresh_token:" +:+ handlers.RefreshRequest.RefreshToken req)
    with (ledger_key (handlers.RefreshRequest.RefreshToken req)).
  rewrite !Get_eq. unfold redis.visible. rewrite Hf, Hkey, Hnow.
  destruct (redis.next_fault w'); [reflexivity|].
  destruct (db w' !! _) as [e|]; [|reflexivity].
  destruct (redis.live (now w') e); [|reflexivity].
  destruct (negb _); [reflexivity|].
  rewrite !GenerateAccessToken_eq, !served_now, Hnow. reflexivity.
Qed.

(** What [RefreshToken] answers is decided by the request, the clock,
    whether Redis answers, and the one ledger entry of the token
    presented; no identity record is consulted. *)
Theorem RefreshToken_consults_ledger_only (h : handlers.AuthHandler)
    (c : gin.Context) (req : handlers.RefreshRequest.t) (w w' : World) :
  handlers.ShouldBindJSON_RefreshRequest c = Ok req ->
  now w = now w' ->
  redis.next_fault w = redis.next_fault w' ->
  db w !! ledger_key (handlers.RefreshRequest.RefreshToken req) =
    db w' !! ledger_key (handlers.RefreshRequest.RefreshToken req) ->
  gin.Writer (fst (handlers.RefreshToken h c w)) =
  gin.Writer (fst (handlers.RefreshToken h c w')).
Proof.
  intros Hbind Hnow Hf Hkey.
  exact (RefreshToken_Writer_eq h c req w w' Hbind Hnow Hf Hkey).
Qed.

(** Deleting a user revokes nothing: a refresh request is answered
    after the deletion as it would have been before. *)
Theorem Delete_revokes_nothing (h : handlers.AuthHandler) (id : string)
    (c : gin.Context) (req : handlers.RefreshRequest.t) (w w1 before after : World) :
  models.Delete id w = (Ok tt, w1) ->
  handlers.ShouldBindJSON_RefreshRequest c = Ok req ->
  db before = db w -> db after = db w1 ->
  now before = now after ->
  redis.next_fault before = redis.next_fault after ->
  gin.Writer (fst (handlers.RefreshToken h c before)) =
  gin.Writer (fst (handlers.RefreshToken h c after)).
Proof.
  intros Hdel Hbind Hb Ha Hnow Hf.
  apply Delete_Ok in Hdel as (user & _ & Hst).
  apply (RefreshToken_Writer_eq h c req before after Hbind Hnow Hf).
  rewrite Hb, Ha, Hst.
  destruct (String.eqb (models.OpenID user) "").
  - rewrite lookup_delete_ne by (apply not_eq_sym, ledger_key_not_username).
    symmetry. apply lookup_delete_ne, not_eq_sym, ledger_key_not_user.
  - rewrite lookup_delete_ne by (apply not_eq_sym, ledger_key_not_openid).
    rewrite lookup_delete_ne by (apply not_eq_sym, ledger_key_not_username).
    symmetry. apply lookup_delete_ne, not_eq_sym, ledger_key_not_user.
Qed.

(** ** Registration *)

Lemma RegisterRequest_bound c req :
  handlers.ShouldBindJSON_RegisterRequest c = Ok req ->
  3 <= validator.RuneCountInString (handlers.RegisterRequest.Username req) <= 30 /\
  6 <= validator.RuneCountInString (handlers.RegisterRequest.Password req) /\
  handlers.RegisterRequest.Email req <> "" /\
  validator_email (handlers.RegisterRequest.Email req) = true.
Proof.
  intros Hbind.
  unfold handlers.ShouldBindJSON_RegisterRequest, and_then, validator.Struct in Hbind.
  destruct (json_parse _) as [j|]; [|discriminate].
  destruct (string_field "username" j) as [u|]; [|discriminate].
  destruct (string_field "password" j) as [p|]; [|discriminate].
  destruct (string_field "email" j) as [m|]; [|discriminate].
  unfold validator.min, validator.max, validator.required in Hbind.
  cbn [validator.field_errors validator.first_failed] in Hbind.
  destruct (negb (String.eqb u "")); [|discriminate].
  destruct (Z.leb_spec 3 (validator.RuneCountInString u)); [|discriminate].
  destruct (Z.leb_spec (validator.RuneCountInString u) 30); [|discriminate].
  destruct (negb (String.eqb p "")); [|discriminate].
  destruct (Z.leb_spec 6 (validator.RuneCountInString p)); [|discriminate].
  destruct (String.eqb_spec m ""); cbn [negb] in Hbind; [discriminate|].
  destruct (validator_email m) eqn:Hm; [|discriminate].
  injection Hbind as <-. cbn. auto.
Qed.

(** [Register] gets past binding only with a username of 3 to 30
    runes, a password of at least 6 and an e-mail address the validator
    accepts; any other request is answered 400 before a single Redis
    command is sent. *)
Theorem Register_validates_first (h : handlers.AuthHandler) (c : gin.Context)
    (w : World) :
  (gin.status_of (fst (handlers.Register h c w)) = Some http.StatusBadRequest /\
   snd (handlers.Register h c w) = w /\
   is_Ok (handlers.ShouldBindJSON_RegisterRequest c) = false) \/
  (exists req,
     handlers.ShouldBindJSON_RegisterRequest c = Ok req /\
     3 <= validator.RuneCountInString (handlers.RegisterRequest.Username req) <= 30 /\
     6 <= validator.RuneCountInString (handlers.RegisterRequest.Password req) /\
     handlers.RegisterRequest.Email req <> "" /\
     validator_email (handlers.RegisterRequest.Email req) = true /\
     gin.status_of (fst (handlers.Register h c w)) <> Some http.StatusBadRequest).
Proof.
  unfold handlers.Register.
  destruct (handlers.ShouldBindJSON_RegisterRequest c) as [req|e] eqn:Hbind;
    [right|left; repeat split; reflexivity].
  exists req. split; [reflexivity|].
  assert (Hreq : 3 <= validator.RuneCountInString (handlers.RegisterRequest.Username req) <= 30 /\
                 6 <= validator.RuneCountInString (handlers.RegisterRequest.Password req) /\
                 handlers.RegisterRequest.Email req <> "" /\
                 validator_email (handlers.RegisterRequest.Email req) = true).
  { exact (RegisterRequest_bound c req Hbind). }
  destruct Hreq as (Hu & Hp & He & Hm). repeat (split; [assumption|]).
  unfold redis.bind.
  destruct (models.GetByUsername _ w) as [[u|e] w1]; [discriminate|].
  destruct (bcrypt_GenerateFromPassword _); [|discriminate].
  destruct (models.Create _ w1) as [[[]|e'] w2]; discriminate.
Qed.

Lemma GetByUsername_snd_found username w e :
  redis.next_fault w = false ->
  redis.visible w ("username:" +:+ username) = Some e ->
  snd (models.GetByUsername username w) = redis.served (redis.served w).
Proof.
  intros Hf Hv. unfold models.GetByUsername, redis.bind.
  rewrite Get_eq, Hf, Hv, GetByID_eq. reflexivity.
Qed.

(** What a registration answered 201 has done: past the username
    lookup it hashed the password and [Create] wrote the record and the
    index. *)
Lemma Register_Created h c w :
  gin.status_of (fst (handlers.Register h c w)) = Some http.StatusCreated ->
  exists req hashed t,
    handlers.ShouldBindJSON_RegisterRequest c = Ok req /\
    bcrypt_GenerateFromPassword (handlers.RegisterRequest.Password req) = Ok hashed /\
    let user := {| models.ID := handlers.RegisterRequest.Username req;
                   models.Username := handlers.RegisterRequest.Username req;
                   models.Password := hashed;
                   models.Email := handlers.RegisterRequest.Email req;
                   models.OpenID := "";
                   models.CreatedAt := t; models.UpdatedAt := t |} in
    db (snd (handlers.Register h c w)) =
      <["username:" +:+ handlers.RegisterRequest.Username req :=
          index_to (handlers.RegisterRequest.Username req)]>
        (<["user:" +:+ handlers.RegisterRequest.Username req := record_of user]> (db w)).
Proof.
  unfold handlers.Register.
  destruct (handlers.ShouldBindJSON_RegisterRequest c) as [req|e]; [|discriminate].
  unfold redis.bind.
  pose proof (GetByUsername_world (handlers.RegisterRequest.Username req) w) as [Hn Hd].
  destruct (models.GetByUsername _ w) as [[u|e] w1]; [discriminate|].
  cbn [snd] in Hn, Hd.
  destruct (bcrypt_GenerateFromPassword _) as [hashed|e'] eqn:Hh; [|discriminate].
  match goal with |- context [models.Create ?u w1] => set (user := u) end.
  destruct (models.Create user w1) as [[[]|e'] w2] eqn:Hc; [|discriminate].
  intros _. exists req, hashed, (now w1).
  split; [reflexivity|]. split; [exact Hh|].
  pose proof (Create_Ok_nonempty _ _ _ Hc) as Hid.
  destruct (Create_run user w1 Hid) as (Hres & Hst & _).
  rewrite Hc in Hres, Hst. cbn [fst snd] in Hres, Hst.
  destruct (redis.next_fault w1); [discriminate|].
  destruct (redis.next_fault (redis.served w1)); [discriminate|].
  cbv beta iota zeta. unfold redis.ret. cbn [snd]. rewrite Hst, Hd. reflexivity.
Qed.

(** After a registration answered 201, a second registration of the
    same username is answered 409 and changes nothing, for as long as
    the store keeps what the first wrote and answers the lookup. *)
Theorem Register_twice_conflicts (h : handlers.AuthHandler)
    (c c2 : gin.Context) (w w2 : World) (req req2 : handlers.RegisterRequest.t) :
  gin.status_of (fst (handlers.Register h c w)) = Some http.StatusCreated ->
  handlers.ShouldBindJSON_RegisterRequest c = Ok req ->
  handlers.ShouldBindJSON_RegisterRequest c2 = Ok req2 ->
  handlers.RegisterRequest.Username req2 = handlers.RegisterRequest.Username req ->
  db w2 = db (snd (handlers.Register h c w)) ->
  redis.next_fault w2 = false ->
  redis.next_fault (redis.served w2) = false ->
  gin.status_of (fst (handlers.Register h c2 w2)) = Some http.StatusConflict /\
  db (snd (handlers.Register h c2 w2)) = db w2.
Proof.
  intros H201 Hb Hb2 Hname Hdb Hf Hf'.
  apply Register_Created in H201 as (req' & hashed & t & Hb' & _ & Hst).
  rewrite Hb in Hb'. injection Hb' as <-. cbv zeta in Hst. rewrite Hst in Hdb.
  unfold handlers.Register. rewrite Hb2, Hname. unfold redis.bind.
  pose proof (GetByUsername_world (handlers.RegisterRequest.Username req) w2) as [_ Hd].
  match type of Hdb with _ = <[_ := _]> (<[_ := record_of ?u]> _) => set (user := u) in * end.
  assert (Hget : fst (models.GetByUsername (handlers.RegisterRequest.Username req) w2) =
                 Ok user).
  { apply (GetByUsername_found _ _ (index_to (handlers.RegisterRequest.Username req))
             (record_of user)); try assumption; try reflexivity.
    - rewrite Hdb. apply lookup_insert_eq.
    - rewrite Hdb.
      rewrite lookup_insert_ne by (apply not_eq_sym, user_key_not_username_key).
      apply lookup_insert_eq.
    - apply Unmarshal_Marshal. }
  destruct (models.GetByUsername _ w2) as [r w3]. cbn [fst snd] in Hget, Hd.
  subst r. cbn. split; [reflexivity|exact Hd].
Qed.

(** From registration to login, given a bcrypt that accepts the
    password a hash was made from: after a registration answered 201, a
    login with the same username and password is answered 200 with
    tokens whose subject is that username, for as long as the store
    keeps what the registration wrote and Redis answers. *)
Theorem register_then_login (h : handlers.AuthHandler)
    (c login : gin.Context) (w w2 : World)
    (req : handlers.RegisterRequest.t) (lreq : handlers.LoginRequest.t) :
  (forall password hashed,
     bcrypt_GenerateFromPassword password = Ok hashed ->
     bcrypt_CompareHashAndPassword hashed password = true) ->
  gin.status_of (fst (handlers.Register h c w)) = Some http.StatusCreated ->
  handlers.ShouldBindJSON_RegisterRequest c = Ok req ->
  handlers.ShouldBindJSON_LoginRequest login = Ok lreq ->
  handlers.LoginRequest.Username lreq = handlers.RegisterRequest.Username req ->
  handlers.LoginRequest.Password lreq = handlers.RegisterRequest.Password req ->
  db w2 = db (snd (handlers.Register h c w)) ->
  redis.next_fault w2 = false ->
  redis.next_fault (redis.served w2) = false ->
  redis.next_fault (redis.served (redis.served w2)) = false ->
  gin.status_of (fst (handlers.Login h login w2)) = Some http.StatusOK /\
  principal (fst (handlers.Login h login w2)) =
    Some (handlers.RegisterRequest.Username req).
Proof.
  intros Hbcrypt H201 Hb Hbl Hname Hpw Hdb Hf Hf' Hf''.
  apply Register_Created in H201 as (req' & hashed & t & Hb' & Hh & Hst).
  rewrite Hb in Hb'. injection Hb' as <-. cbv zeta in Hst. rewrite Hst in Hdb.
  match type of Hdb with _ = <[_ := _]> (<[_ := record_of ?u]> _) => set (user := u) in * end.
  assert (Hidx : db w2 !! ("username:" +:+ handlers.RegisterRequest.Username req) =
                 Some (index_to (handlers.RegisterRequest.Username req))).
  { rewrite Hdb. apply lookup_insert_eq. }
  assert (Hget : fst (models.GetByUsername (handlers.RegisterRequest.Username req) w2) =
                 Ok user).
  { apply (GetByUsername_found _ _ (index_to (handlers.RegisterRequest.Username req))
             (record_of user)); try assumption; try reflexivity.
    - rewrite Hdb.
      rewrite lookup_insert_ne by (apply not_eq_sym, user_key_not_username_key).
      apply lookup_insert_eq.
    - apply Unmarshal_Marshal. }
  pose proof (GetByUsername_snd_found _ w2 _ Hf
                (visible_persistent _ _ _ Hidx eq_refl)) as Hsnd.
  assert (Hrun : handlers.Login h login w2 =
                 issue_tokens h (handlers.RegisterRequest.Username req) login
                   (redis.served (redis.served w2))).
  { unfold handlers.Login. rewrite Hbl, Hname, Hpw. unfold redis.bind.
    destruct (models.GetByUsername _ w2) as [r w3]. cbn [fst snd] in Hget, Hsnd.
    subst r w3. cbn [models.Password user].
    rewrite (Hbcrypt _ _ Hh). reflexivity. }
  rewrite Hrun.
  destruct (issue_tokens_served h (handlers.RegisterRequest.Username req) login _ Hf'')
    as (H200 & Hat & _).
  split; [exact H200|].
  unfold principal. rewrite Hat, carried_minted. reflexivity.
Qed.

Lemma GetByUsername_fault username w :
  redis.next_fault w = true ->
  models.GetByUsername username w =
  (Err ("failed to get user ID: " +:+ redis.io_error), redis.served w).
Proof.
  intros Hf. unfold models.GetByUsername, redis.bind. rewrite Get_eq, Hf. reflexivity.
Qed.

(** [Register] takes any error of the username lookup for "not taken",
    a Redis failure included: when the lookup command fails and the two
    writes go through, the answer is 201 and the record stored under
    the username is the new one, whatever was there. *)
Theorem Register_creates_when_lookup_errs (h : handlers.AuthHandler)
    (c : gin.Context) (w : World) (req : handlers.RegisterRequest.t)
    (hashed : string) :
  handlers.ShouldBindJSON_RegisterRequest c = Ok req ->
  bcrypt_GenerateFromPassword (handlers.RegisterRequest.Password req) = Ok hashed ->
  redis.next_fault w = true ->
  redis.next_fault (redis.served w) = false ->
  redis.next_fault (redis.served (redis.served w)) = false ->
  gin.status_of (fst (handlers.Register h c w)) = Some http.StatusCreated /\
  db (snd (handlers.Register h c w)) !! ("user:" +:+ handlers.RegisterRequest.Username req) =
    Some (record_of {| models.ID := handlers.RegisterRequest.Username req;
                       models.Username := handlers.RegisterRequest.Username req;
                       models.Password := hashed;
                       models.Email := handlers.RegisterRequest.Email req;
                       models.OpenID := "";
                       models.CreatedAt := now w; models.UpdatedAt := now w |}).
Proof.
  intros Hb Hh Hf Hf1 Hf2.
  assert (Hne : handlers.RegisterRequest.Username req <> "").
  { destruct (RegisterRequest_bound c req Hb) as [Hu _].
    intros He. rewrite He in Hu. cbn in Hu. lia. }
  unfold handlers.Register. rewrite Hb. unfold redis.bind.
  rewrite (GetByUsername_fault _ _ Hf), Hh.
  match goal with |- context [models.Create ?u _] => set (user := u) end.
  destruct (Create_run user (redis.served w) Hne) as (Hres & Hst & _).
  rewrite Hf1, Hf2 in Hres, Hst.
  destruct (models.Create user (redis.served w)) as [r w2]. cbn [fst snd] in Hres, Hst.
  subst r. cbn [fst snd]. split; [reflexivity|].
  unfold redis.ret. cbn [snd]. rewrite Hst.
  rewrite lookup_insert_ne by (apply not_eq_sym, user_key_not_username_key).
  rewrite lookup_insert_eq, served_now. reflexivity.
Qed.

(** ** WeChat login *)

(** [Code2Session] returns a session only when the endpoint answered
    the URL built from the app id, the app secret and the code with a
    JSON object whose [errcode] is 0 or absent; the session's OpenID is
    the [openid] member of that answer. *)
Theorem Code2Session_Ok (m : utils.WeChatManager) (code : string)
    (sessionInfo : utils.Code2SessionResponse) :
  utils.Code2Session m code = Ok sessionInfo ->
  exists body j,
    http_Get (utils.WeChatCode2SessionURL (config.AppID (utils.wechat_config m))
                (config.AppSecret (utils.wechat_config m)) code) = Ok body /\
    json_parse body = Some j /\
    int_field "errcode" j = Ok 0 /\
    utils.ErrCode sessionInfo = 0 /\
    string_field "openid" j = Ok (utils.OpenID sessionInfo).
Proof.
  unfold utils.Code2Session.
  destruct (http_Get _) as [body|e]; [|discriminate].
  unfold utils.Unmarshal_Code2SessionResponse.
  destruct (json_parse body) as [j|] eqn:Hj; [|discriminate].
  destruct (string_field "openid" j) as [o|] eqn:Ho; [|discriminate].
  destruct (string_field "session_key" j) as [k|]; [|discriminate].
  destruct (string_field "unionid" j) as [u|]; [|discriminate].
  destruct (int_field "errcode" j) as [n|] eqn:Hn; [|discriminate].
  destruct (string_field "errmsg" j) as [msg|]; [|discriminate].
  cbn [utils.ErrCode]. destruct (Z.eqb_spec n 0) as [->|Hne]; [|discriminate].
  cbn. intros [= <-]. exists body, j. cbn. auto.
Qed.

(** A WeChat login whose code exchange fails, or yields an empty
    OpenID, is answered 500 and neither creates a user nor sends Redis
    a command. *)
Theorem WeChatLogin_failure_creates_nothing (h : handlers.AuthHandler)
    (c : gin.Context) (w : World) (req : handlers.WeChatLoginRequest.t) :
  handlers.ShouldBindJSON_WeChatLoginRequest c = Ok req ->
  is_Ok (utils.Code2Session (handlers.wechatManager h)
           (handlers.WeChatLoginRequest.Code req)) = false \/
  (exists sessionInfo,
     utils.Code2Session (handlers.wechatManager h)
       (handlers.WeChatLoginRequest.Code req) = Ok sessionInfo /\
     utils.OpenID sessionInfo = "") ->
  gin.status_of (fst (handlers.WeChatLogin h c w)) =
    Some http.StatusInternalServerError /\
  snd (handlers.WeChatLogin h c w) = w.
Proof.
  intros Hbind Hcase. unfold handlers.WeChatLogin. rewrite Hbind.
  destruct Hcase as [Hbad | (s & Hs & Ho)].
  - destruct (utils.Code2Session _ _); [discriminate|]. split; reflexivity.
  - rewrite Hs. unfold redis.bind, models.CreateWeChatUser. rewrite Ho.
    split; reflexivity.
Qed.

(** ** Routes *)

Lemma rejected_leaves_world m handler c w :
  gin.Aborted c = false ->
  auth_failure m w c ->
  snd (gin.Next [middleware.AuthRequired m; handler] c w) = w.
Proof.
  intros Hfresh Hfail.
  destruct (AuthRequired_rejects m c w Hfail) as [msg Hrej].
  cbn [gin.Next]. rewrite Hfresh. unfold redis.bind. rewrite Hrej. reflexivity.
Qed.

(** Every GET route but /health stands behind [AuthRequired]: a request
    that fails authentication is answered 401 there, the proxied routes
    included, without the world being touched. *)
Theorem GET_routes_require_authentication (Getenv : string -> string)
    (proxyHandler : gin.HandlerFunc) (path : string)
    (chain : list gin.HandlerFunc) (c : gin.Context) (w : World) :
  main.routes Getenv proxyHandler "GET" path = Some chain ->
  path <> "/health" ->
  gin.Aborted c = false ->
  auth_failure (main.authMiddleware Getenv) w c ->
  gin.status_of (fst (gin.Next chain c w)) = Some http.StatusUnauthorized /\
  snd (gin.Next chain c w) = w.
Proof.
  intros Hroute Hpath Hfresh Hfail. unfold main.routes in Hroute.
  change (String.eqb "GET" "POST") with false in Hroute.
  change (String.eqb "GET" "GET") with true in Hroute. cbv iota in Hroute.
  destruct (String.eqb_spec path "/health"); [contradiction|].
  destruct (String.eqb path "/me");
    [|destruct (String.eqb path "/api/protected");
      [|destruct (existsb (String.eqb path) main.proxied); [|discriminate]]];
    injection Hroute as <-; unfold main.protected;
    (split; [apply rejected_is_unauthorized|apply rejected_leaves_world]); assumption.
Qed.

(** ** Ids, usernames and record keys agree

    [coherent] holds of the empty store and every route keeps it. *)

Lemma user_key_inj id id' : "user:" +:+ id = "user:" +:+ id' -> id = id'.
Proof. simpl. intros [= H]. exact H. Qed.

Lemma username_key_inj u u' : "username:" +:+ u = "username:" +:+ u' -> u = u'.
Proof. simpl. intros [= H]. exact H. Qed.

Lemma coherent_empty t fs :
  coherent {| redis.now := t; redis.db := ∅; redis.faults := fs |}.
Proof.
  split; intros ? e; cbn [redis.db]; rewrite lookup_empty; discriminate.
Qed.

Lemma coherent_same_db w w' : db w' = db w -> coherent w -> coherent w'.
Proof. intros Hdb [H1 H2]. split; intros ? e; rewrite Hdb; [apply H1|apply H2]. Qed.

Lemma kc_ret {A} (a : A) : keeps_coherent (ret a).
Proof. intros w Hc. exact Hc. Qed.

Lemma kc_bind {A B} (m : M A) (k : A -> M B) :
  keeps_coherent m -> (forall a, keeps_coherent (k a)) -> keeps_coherent (redis.bind m k).
Proof.
  intros Hm Hk w Hc. unfold redis.bind.
  specialize (Hm w Hc). destruct (m w) as [a w1]. exact (Hk a w1 Hm).
Qed.

Lemma kc_time_Now : keeps_coherent redis.time_Now.
Proof. intros w Hc. exact Hc. Qed.

Lemma kc_Get key : keeps_coherent (redis.Get key).
Proof.
  intros w Hc. rewrite Get_eq. cbn [snd].
  apply (coherent_same_db w); [apply served_db|exact Hc].
Qed.

Lemma kc_Exists key : keeps_coherent (redis.Exists key).
Proof.
  intros w Hc. rewrite Exists_eq. cbn [snd].
  apply (coherent_same_db w); [apply served_db|exact Hc].
Qed.

Lemma kc_Del key : keeps_coherent (redis.Del key).
Proof.
  intros w Hc. rewrite Del_eq. destruct (redis.next_fault w); cbn [snd].
  - apply (coherent_same_db w); [apply served_db|exact Hc].
  - destruct Hc as [H1 H2]. split; intros x e; cbn [redis.db].
    + intros Hk. apply lookup_delete_Some in Hk as [_ Hk]. exact (H1 _ _ Hk).
    + intros user Hk. apply lookup_delete_Some in Hk as [_ Hk]. exact (H2 _ _ _ Hk).
Qed.

(** A write keeps coherence when the entry it writes does. *)
Lemma kc_Set key val expiration :
  (forall username, key = "username:" +:+ username -> val = username) ->
  (forall id user, key = "user:" +:+ id ->
     models.Unmarshal val = Ok user -> models.ID user = id) ->
  keeps_coherent (redis.Set_ key val expiration).
Proof.
  intros Hname Huser w Hc. rewrite Set_eq. destruct (redis.next_fault w); cbn [snd].
  - apply (coherent_same_db w); [apply served_db|exact Hc].
  - destruct Hc as [H1 H2]. split; intros x e; cbn [redis.db].
    + destruct (decide (key = "username:" +:+ x)) as [->|Hne].
      * rewrite lookup_insert_eq. intros [= <-]. cbn. exact (Hname x eq_refl).
      * rewrite lookup_insert_ne by exact Hne. apply H1.
    + intros user. destruct (decide (key = "user:" +:+ x)) as [->|Hne].
      * rewrite lookup_insert_eq. intros [= <-]. cbn. exact (Huser x user eq_refl).
      * rewrite lookup_insert_ne by exact Hne. apply H2.
Qed.

Lemma kc_Set_user id user expiration :
  models.ID user = id ->
  keeps_coherent (redis.Set_ ("user:" +:+ id) (json_render (models.User_json user))
                    expiration).
Proof.
  intros Hid. apply kc_Set.
  - intros u Hk. exfalso. exact (user_key_not_username_key _ _ Hk).
  - intros id' user' Hk Hu. apply user_key_inj in Hk. subst id'.
    rewrite Unmarshal_Marshal in Hu. injection Hu as <-. exact Hid.
Qed.

Lemma kc_Set_username username expiration :
  keeps_coherent (redis.Set_ ("username:" +:+ username) username expiration).
Proof.
  apply kc_Set.
  - intros u Hk. apply username_key_inj in Hk. exact Hk.
  - intros id user Hk. exfalso. symmetry in Hk. exact (user_key_not_username_key _ _ Hk).
Qed.

Lemma kc_Set_openid openID val expiration :
  keeps_coherent (redis.Set_ ("openid:" +:+ openID) val expiration).
Proof.
  apply kc_Set.
  - intros u Hk. exfalso. exact (openid_key_not_username _ _ Hk).
  - intros id user Hk. exfalso. exact (openid_key_not_user _ _ Hk).
Qed.

Lemma kc_Set_ledger T val expiration :
  keeps_coherent (redis.Set_ (ledger_key T) val expiration).
Proof.
  apply kc_Set.
  - intros u Hk. exfalso. exact (ledger_key_not_username _ _ Hk).
  - intros id user Hk. exfalso. exact (ledger_key_not_user _ _ Hk).
Qed.

Ltac cohere_step :=
  first
    [ progress cbv beta iota zeta
    | match goal with
      | |- keeps_coherent (ret _) => apply kc_ret
      | |- keeps_coherent redis.time_Now => apply kc_time_Now
      | |- keeps_coherent (redis.Get _) => apply kc_Get
      | |- keeps_coherent (redis.Exists _) => apply kc_Exists
      | |- keeps_coherent (redis.Del _) => apply kc_Del
      | |- keeps_coherent (redis.Set_ ("user:" +:+ _) _ _) =>
          apply kc_Set_user; reflexivity
      | |- keeps_coherent (redis.Set_ ("username:" +:+ _) _ _) =>
          apply kc_Set_username
      | |- keeps_coherent (redis.Set_ ("openid:" +:+ _) _ _) =>
          apply kc_Set_openid
      | |- keeps_coherent (redis.Set_ ("refresh_token:" +:+ _) _ _) =>
          apply kc_Set_ledger
      | |- keeps_coherent (redis.Set_ (ledger_key _) _ _) =>
          apply kc_Set_ledger
      | |- keeps_coherent (redis.bind _ _) => apply kc_bind; [|intros ?]
      | |- keeps_coherent (match ?x with _ => _ end) => destruct x
      end ].

Ltac cohere := repeat cohere_step.

Lemma kc_GetByID id : keeps_coherent (models.GetByID id).
Proof. unfold models.GetByID. cohere. Qed.

Lemma kc_GetByUsername username : keeps_coherent (models.GetByUsername username).
Proof. unfold models.GetByUsername. cohere. apply kc_GetByID. Qed.

Lemma kc_GetByOpenID openID : keeps_coherent (models.GetByOpenID openID).
Proof. unfold models.GetByOpenID. cohere. apply kc_GetByID. Qed.

(** [Create] keeps the store coherent for a user whose id is the
    username, which is how [Register] calls it. *)
Lemma kc_Create user :
  models.ID user = models.Username user -> keeps_coherent (models.Create user).
Proof.
  intros Hid. unfold models.Create, models.Marshal.
  cbn [models.ID models.Username]. rewrite Hid. cohere.
Qed.

Lemma kc_CreateWeChatUser openID : keeps_coherent (models.CreateWeChatUser openID).
Proof.
  unfold models.CreateWeChatUser, models.Marshal.
  cbn [models.ID models.Username]. cohere. apply kc_GetByID.
Qed.

Lemma kc_Update user : keeps_coherent (models.Update user).
Proof.
  unfold models.Update, models.Marshal. cbn [models.ID]. cohere.
  apply kc_GetByID.
Qed.

Lemma kc_Delete id : keeps_coherent (models.Delete id).
Proof. unfold models.Delete. cohere. apply kc_GetByID. Qed.

Lemma kc_ValidateToken m tokenString : keeps_coherent (utils.ValidateToken m tokenString).
Proof. intros w Hc. rewrite ValidateToken_eq. exact Hc. Qed.

Lemma kc_ValidateAccessToken m tokenString :
  keeps_coherent (utils.ValidateAccessToken m tokenString).
Proof. intros w Hc. rewrite ValidateAccessToken_eq. exact Hc. Qed.

Lemma kc_ValidateRefreshToken m tokenString :
  keeps_coherent (utils.ValidateRefreshToken m tokenString).
Proof. intros w Hc. rewrite ValidateRefreshToken_eq. exact Hc. Qed.

Lemma kc_generateToken m userID tokenType ttl :
  keeps_coherent (utils.generateToken m userID tokenType ttl).
Proof. intros w Hc. exact Hc. Qed.

Ltac cohere_handler :=
  repeat first
    [ cohere_step
    | match goal with
      | |- keeps_coherent (models.GetByID _) => apply kc_GetByID
      | |- keeps_coherent (models.GetByUsername _) => apply kc_GetByUsername
      | |- keeps_coherent (models.Create _) => apply kc_Create; reflexivity
      | |- keeps_coherent (models.CreateWeChatUser _) => apply kc_CreateWeChatUser
      | |- keeps_coherent (utils.ValidateAccessToken _ _) =>
          apply kc_ValidateAccessToken
      | |- keeps_coherent (utils.ValidateRefreshToken _ _) =>
          apply kc_ValidateRefreshToken
      | |- keeps_coherent (utils.generateToken _ _ _ _) => apply kc_generateToken
      end ].

Lemma kc_Register h c : keeps_coherent (handlers.Register h c).
Proof. unfold handlers.Register. cohere_handler. Qed.

Lemma kc_Login h c : keeps_coherent (handlers.Login h c).
Proof.
  unfold handlers.Login, utils.GenerateAccessToken, utils.GenerateRefreshToken.
  cohere_handler.
Qed.

Lemma kc_RefreshToken h c : keeps_coherent (handlers.RefreshToken h c).
Proof. unfold handlers.RefreshToken, utils.GenerateAccessToken. cohere_handler. Qed.

Lemma kc_Logout h c : keeps_coherent (handlers.Logout h c).
Proof. unfold handlers.Logout. cohere_handler. Qed.

Lemma kc_Me h c : keeps_coherent (handlers.Me h c).
Proof. unfold handlers.Me. cohere_handler. Qed.

Lemma kc_WeChatLogin h c : keeps_coherent (handlers.WeChatLogin h c).
Proof.
  unfold handlers.WeChatLogin, utils.GenerateAccessToken, utils.GenerateRefreshToken.
  cohere_handler.
Qed.

Lemma kc_AuthRequired m c : keeps_coherent (middleware.AuthRequired m c).
Proof. unfold middleware.AuthRequired. cohere_handler. Qed.

Lemma kc_Next (chain : list gin.HandlerFunc) :
  Forall (fun handler => forall c, keeps_coherent (handler c)) chain ->
  forall c, keeps_coherent (gin.Next chain c).
Proof.
  induction 1 as [|handler chain Hh _ IH]; intros c; cbn [gin.Next].
  - apply kc_ret.
  - destruct (gin.Aborted c); [apply kc_ret|].
    apply kc_bind; [apply Hh|exact IH].
Qed.

(** Every route keeps the store coherent, provided the reverse proxy
    behind the authenticated routes does: index entries go on pointing
    to their own username and records go on naming the id they are
    stored under. *)
Theorem routes_keep_coherent (Getenv : string -> string)
    (proxyHandler : gin.HandlerFunc) (method path : string)
    (chain : list gin.HandlerFunc) (c : gin.Context) :
  (forall c', keeps_coherent (proxyHandler c')) ->
  main.routes Getenv proxyHandler method path = Some chain ->
  keeps_coherent (gin.Next chain c).
Proof.
  intros Hproxy Hroute. apply kc_Next. unfold main.routes in Hroute.
  repeat match type of Hroute with
         | context [if ?b then _ else _] => destruct b
         end;
    try discriminate; injection Hroute as <-;
    unfold main.protected;
    repeat first [apply Forall_nil_2 | apply Forall_cons_2]; intros c';
    first [ apply kc_Register | apply kc_Login | apply kc_RefreshToken
          | apply kc_Logout | apply kc_WeChatLogin | apply kc_Me
          | apply kc_AuthRequired | apply Hproxy | apply kc_ret ].
Qed.

(** On a coherent store a login answered 200 has issued its tokens to
    the username that was submitted. *)
Theorem login_subject_is_username (h : handlers.AuthHandler) (c : gin.Context)
    (w : World) (req : handlers.LoginRequest.t) :
  coherent w ->
  handlers.ShouldBindJSON_LoginRequest c = Ok req ->
  gin.status_of (fst (handlers.Login h c w)) = Some http.StatusOK ->
  principal (fst (handlers.Login h c w)) = Some (handlers.LoginRequest.Username req).
Proof.
  intros [Hname Huser] Hbind H200.
  assert (Hfound : forall user,
            fst (models.GetByUsername (handlers.LoginRequest.Username req) w) = Ok user ->
            models.ID user = handlers.LoginRequest.Username req).
  { intros user. unfold models.GetByUsername, redis.bind. rewrite Get_eq.
    destruct (redis.next_fault w); [discriminate|].
    destruct (redis.visible w _) as [e|] eqn:Hv; [|discriminate].
    apply visible_db in Hv. rewrite (Hname _ _ Hv).
    rewrite GetByID_eq. cbn [fst].
    destruct (redis.next_fault _); [discriminate|].
    rewrite visible_served.
    destruct (redis.visible w ("user:" +:+ _)) as [e'|] eqn:Hv'; [|discriminate].
    apply visible_db in Hv'.
    destruct (models.Unmarshal (redis.value e')) as [u|err] eqn:Hu; [|discriminate].
    intros [= <-]. exact (Huser _ _ _ Hv' Hu). }
  revert H200. unfold handlers.Login. rewrite Hbind. unfold redis.bind.
  destruct (models.GetByUsername _ w) as [[user|e] w1]; [|discriminate].
  specialize (Hfound user eq_refl).
  destruct (bcrypt_CompareHashAndPassword _ _); [|discriminate].
  cbn [negb].
  change (gin.status_of (fst (issue_tokens h (models.ID user) c w1)) = Some http.StatusOK ->
          principal (fst (issue_tokens h (models.ID user) c w1)) =
            Some (handlers.LoginRequest.Username req)).
  destruct (redis.next_fault w1) eqn:Hf.
  { rewrite issue_tokens_eq, Hf. discriminate. }
  intros _.
  destruct (issue_tokens_served h (models.ID user) c w1 Hf) as (_ & Hat & _).
  unfold principal. rewrite Hat, carried_minted. cbn. rewrite Hfound. reflexivity.
Qed.

End Properties.

(** * The statements at work on the instance *)

#[local] Existing Instance Mock.externals.

(** The scenario of the specification on the instance: Alice registers
    and logs in; her refresh token refreshes until she logs out. *)
Example scenario :
  gin.status_of (fst (handlers.Register Mock.h Mock.register_alice Mock.w0)) = Some 201 /\
  gin.status_of (fst (handlers.Login Mock.h Mock.login_alice Mock.registered)) = Some 200 /\
  body_string "refresh_token" (fst (handlers.Login Mock.h Mock.login_alice Mock.registered))
    = Some Mock.alice_refresh /\
  let refresh := Mock.post [("refresh_token", JString Mock.alice_refresh)] in
  gin.status_of (fst (handlers.RefreshToken Mock.h refresh Mock.logged_in)) = Some 200 /\
  let logged_out := snd (handlers.Logout Mock.h refresh Mock.logged_in) in
  gin.status_of (fst (handlers.Logout Mock.h refresh Mock.logged_in)) = Some 200 /\
  gin.status_of (fst (handlers.RefreshToken Mock.h refresh logged_out)) = Some 401 /\
  gin.status_of (fst (handlers.Logout Mock.h refresh logged_out)) = Some 200.
Proof. vm_compute. repeat split; reflexivity. Qed.

(** A defect of the code, against its own comments ("Omit in JSON
    responses", "password will be omitted due to the json tag"): the
    body GET /me returns for a password user carries the stored hash,
    because [omitempty] drops a member only when it is empty. *)
Example me_returns_password_hash :
  gin.Writer (fst (gin.Next Mock.me (Mock.bearer Mock.alice_access) Mock.logged_in)) =
    Some {| gin.status := 200; gin.body := models.User_json Mock.alice |} /\
  member "password" (models.User_json Mock.alice) = Some (JString "$2a$10$secret1").
Proof. vm_compute. split; reflexivity. Qed.

Lemma C1_witness_refresh_iff :
  let req := {| handlers.RefreshRequest.RefreshToken := Mock.alice_refresh |} in
  let c := Mock.post [("refresh_token", JString Mock.alice_refresh)] in
  let w := Mock.logged_in in
  handlers.ShouldBindJSON_RefreshRequest c = Ok req /\
  let c' := fst (handlers.RefreshToken Mock.h c w) in
  (gin.status_of c' = Some http.StatusOK <-> refreshable Mock.h w Mock.alice_refresh) /\
  (refreshable Mock.h w Mock.alice_refresh ->
   exists claims tok,
     fst (utils.ValidateRefreshToken (handlers.jwtManager Mock.h) Mock.alice_refresh w)
       = Ok claims /\
     utils.GenerateAccessToken (handlers.jwtManager Mock.h) (UserID claims) w = (Ok tok, w) /\
     body_string "access_token" c' = Some tok) /\
  (~ refreshable Mock.h w Mock.alice_refresh ->
   gin.status_of c' = Some http.StatusUnauthorized /\
   body_string "access_token" c' = None).
Proof.
  intros req c w. split.
  - vm_compute. reflexivity.
  - apply (@C1_refresh_iff Mock.externals Mock.h c w req).
    vm_compute. reflexivity.
Defined.

Lemma C4_witness_round_trip :
  now Mock.w0 <= now (Mock.later Mock.w0) /\
  now (Mock.later Mock.w0) <
    (now Mock.w0 + config.AccessTokenTTL (utils.config Mock.m)) `div` Second * Second /\
  exists tok c,
    utils.GenerateAccessToken Mock.m "alice" Mock.w0 = (Ok tok, Mock.w0) /\
    ExpiresAt (Registered c) =
      Some ((now Mock.w0 + config.AccessTokenTTL (utils.config Mock.m))
              `div` Second * Second) /\
    fst (utils.ValidateToken Mock.m tok (Mock.later Mock.w0)) = Ok c /\
    fst (utils.ValidateAccessToken Mock.m tok (Mock.later Mock.w0)) = Ok c /\
    UserID c = "alice" /\ Type_ c = utils.AccessToken.
Proof.
  assert (H1 : now Mock.w0 <= now (Mock.later Mock.w0)) by (vm_compute; discriminate).
  assert (H2 : now (Mock.later Mock.w0) <
               (now Mock.w0 + config.AccessTokenTTL (utils.config Mock.m))
                 `div` Second * Second) by (vm_compute; reflexivity).
  split; [exact H1|]. split; [exact H2|].
  exact (@C4_access_token_round_trip Mock.externals Mock.m "alice" Mock.w0
           (Mock.later Mock.w0) H1 H2).
Defined.

(** C2 fails as stated: a GET /me that authenticates but cannot load
    the principal's record is a failure answered 500, not 401. Alice's
    valid token while Redis is unreachable; a valid token whose subject
    has no record. *)
Lemma C2_counterexample_me_500 :
  let m := main.authMiddleware Mock.Getenv in
  let down := Mock.outage Mock.logged_in in
  (authenticated m down (Mock.bearer Mock.alice_access) "alice" /\
   gin.Writer (fst (gin.Next Mock.me (Mock.bearer Mock.alice_access) down)) =
     Some {| gin.status := http.StatusInternalServerError;
             gin.body := [("error", JString "failed to get user")] |}) /\
  (authenticated m Mock.w0 (Mock.bearer Mock.ghost_access) "ghost" /\
   gin.Writer (fst (gin.Next Mock.me (Mock.bearer Mock.ghost_access) Mock.w0)) =
     Some {| gin.status := http.StatusInternalServerError;
             gin.body := [("error", JString "failed to get user")] |}) /\
  http.StatusInternalServerError <> http.StatusUnauthorized.
Proof.
  intros m down. split; [|split].
  - split.
    + exists Mock.alice_access,
        (minted_claims "alice" utils.AccessToken (15 * Minute) (now Mock.w0)).
      vm_compute. repeat split; reflexivity.
    + vm_compute. reflexivity.
  - split.
    + exists Mock.ghost_access,
        (minted_claims "ghost" utils.AccessToken (15 * Minute) (now Mock.w0)).
      vm_compute. repeat split; reflexivity.
    + vm_compute. reflexivity.
  - discriminate.
Qed.

Lemma C2_witness_me_outcomes :
  let c := Mock.bearer Mock.alice_access in
  let w := Mock.logged_in in
  gin.Aborted c = false /\
  let m := main.authMiddleware Mock.Getenv in
  let c' := fst (gin.Next (main.protected Mock.Getenv
                             (handlers.Me (main.authHandler Mock.Getenv))) c w) in
  (auth_failure m w c -> gin.status_of c' = Some http.StatusUnauthorized) /\
  (forall userID, authenticated m w c userID ->
     match fst (models.GetByID userID w) with
     | Ok user =>
         gin.status_of c' = Some http.StatusOK /\
         exists body, gin.body_of c' = Some body /\ shows_record user body
     | Err _ => gin.status_of c' = Some http.StatusInternalServerError
     end).
Proof.
  intros c w. split; [reflexivity|].
  apply (@C2_me_outcomes Mock.externals Mock.Getenv c w). reflexivity.
Defined.

Lemma C3_witness_kind_isolation :
  exists access refresh,
    utils.GenerateAccessToken Mock.m "alice" Mock.w0 = (Ok access, Mock.w0) /\
    utils.GenerateRefreshToken Mock.m "alice" Mock.w0 = (Ok refresh, Mock.w0) /\
    is_Ok (fst (utils.ValidateRefreshToken Mock.m access (Mock.later Mock.w0))) = false /\
    is_Ok (fst (utils.ValidateAccessToken Mock.m refresh (Mock.later Mock.w0))) = false.
Proof.
  exact (@C3_kind_isolation Mock.externals Mock.m Mock.m "alice" Mock.w0
           (Mock.later Mock.w0)).
Defined.

Lemma C5_witness_login_failures :
  let c1 := Mock.post [("username", JString "bob"); ("password", JString "secret1")] in
  let c2 := Mock.post [("username", JString "alice"); ("password", JString "guess")] in
  let req1 := {| handlers.LoginRequest.Username := "bob";
                 handlers.LoginRequest.Password := "secret1" |} in
  let req2 := {| handlers.LoginRequest.Username := "alice";
                 handlers.LoginRequest.Password := "guess" |} in
  let w := Mock.registered in
  (handlers.ShouldBindJSON_LoginRequest c1 = Ok req1 /\
   handlers.ShouldBindJSON_LoginRequest c2 = Ok req2 /\
   redis.visible w "username:bob" = None /\
   fst (models.GetByUsername "alice" w) = Ok Mock.alice /\
   bcrypt_CompareHashAndPassword (models.Password Mock.alice) "guess" = false) /\
  gin.Writer (fst (handlers.Login Mock.h c1 w)) =
    gin.Writer (fst (handlers.Login Mock.h c2 w)) /\
  gin.Writer (fst (handlers.Login Mock.h c1 w)) =
    Some {| gin.status := http.StatusUnauthorized;
            gin.body := [("error", JString "invalid username or password")] |}.
Proof.
  intros c1 c2 req1 req2 w.
  assert (H1 : handlers.ShouldBindJSON_LoginRequest c1 = Ok req1)
    by (vm_compute; reflexivity).
  assert (H2 : handlers.ShouldBindJSON_LoginRequest c2 = Ok req2)
    by (vm_compute; reflexivity).
  assert (H3 : redis.visible w "username:bob" = None) by (vm_compute; reflexivity).
  assert (H4 : fst (models.GetByUsername "alice" w) = Ok Mock.alice)
    by (vm_compute; reflexivity).
  assert (H5 : bcrypt_CompareHashAndPassword (models.Password Mock.alice) "guess" = false)
    by (vm_compute; reflexivity).
  split; [auto|].
  exact (@C5_login_failures_indistinguishable Mock.externals Mock.h c1 c2 w w
           req1 req2 Mock.alice H1 H2 H3 H4 H5).
Defined.

Lemma C6_witness_uniform_rejection :
  let m := main.authMiddleware Mock.Getenv in
  let handler := handlers.Me Mock.h in
  let c := Mock.bearer Mock.alice_refresh in
  let w := Mock.logged_in in
  (gin.Aborted c = false /\ auth_failure m w c) /\
  let chain := [middleware.AuthRequired m; handler] in
  gin.status_of (fst (gin.Next chain c w)) = Some http.StatusUnauthorized /\
  gin.Aborted (fst (gin.Next chain c w)) = true /\
  gin.Next chain c w = middleware.AuthRequired m c w /\
  snd (gin.Next chain c w) = w /\
  gin.Get "userID" (fst (gin.Next chain c w)) = gin.Get "userID" c.
Proof.
  intros m handler c w.
  assert (H1 : gin.Aborted c = false) by reflexivity.
  assert (H2 : auth_failure m w c).
  { apply (wrong_kind m w c Mock.alice_refresh
             (minted_claims "alice" utils.RefreshToken (7 * 24 * Hour) (now Mock.w0))).
    - vm_compute. reflexivity.
    - vm_compute. reflexivity.
    - vm_compute. discriminate. }
  split; [auto|].
  exact (@C6_uniform_rejection Mock.externals m handler c w H1 H2).
Defined.

Lemma C7_witness_logout :
  let req := {| handlers.RefreshRequest.RefreshToken := "never issued" |} in
  let c := Mock.post [("refresh_token", JString "never issued")] in
  let w := Mock.logged_in in
  handlers.ShouldBindJSON_RefreshRequest c = Ok req /\
  let key := ledger_key (handlers.RefreshRequest.RefreshToken req) in
  let c1 := fst (handlers.Logout Mock.h c w) in
  let w1 := snd (handlers.Logout Mock.h c w) in
  (redis.next_fault w = false ->
   gin.status_of c1 = Some http.StatusOK /\
   body_string "message" c1 = Some "logged out successfully" /\
   db w1 = delete key (db w) /\ db w1 !! key = None) /\
  (redis.next_fault w = true ->
   gin.status_of c1 = Some http.StatusInternalServerError /\ db w1 = db w) /\
  (forall w2, db w2 = db w1 ->
     redis.next_fault w = false -> redis.next_fault w2 = false ->
     gin.status_of (fst (handlers.Logout Mock.h c w2)) = Some http.StatusOK /\
     db (snd (handlers.Logout Mock.h c w2)) = db w1) /\
  (forall h', handlers.Logout h' c w = handlers.Logout Mock.h c w).
Proof.
  intros req c w.
  assert (H1 : handlers.ShouldBindJSON_RefreshRequest c = Ok req)
    by (vm_compute; reflexivity).
  split; [exact H1|].
  exact (@C7_logout_idempotent Mock.externals Mock.h c w req H1).
Defined.

Lemma same_identities_later (w : World) : same_identities (Mock.later w) w.
Proof. intros key _. reflexivity. Qed.

Lemma C8_witness_wechat_login :
  let c1 := Mock.post [("code", JString "code-1")] in
  let c2 := Mock.post [("code", JString "code-2")] in
  let req1 := {| handlers.WeChatLoginRequest.Code := "code-1" |} in
  let req2 := {| handlers.WeChatLoginRequest.Code := "code-2" |} in
  let r1 := handlers.WeChatLogin Mock.h c1 Mock.w0 in
  let w2 := Mock.later (snd r1) in
  let r2 := handlers.WeChatLogin Mock.h c2 w2 in
  (persistent_identities Mock.w0 /\
   handlers.ShouldBindJSON_WeChatLoginRequest c1 = Ok req1 /\
   handlers.ShouldBindJSON_WeChatLoginRequest c2 = Ok req2 /\
   utils.Code2Session (handlers.wechatManager Mock.h) "code-1" = Ok Mock.session /\
   utils.Code2Session (handlers.wechatManager Mock.h) "code-2" = Ok Mock.session /\
   same_identities w2 (snd r1) /\
   gin.status_of (fst r1) = Some http.StatusOK /\
   gin.status_of (fst r2) = Some http.StatusOK) /\
  (exists userID,
     principal (fst r1) = Some userID /\ principal (fst r2) = Some userID) /\
  same_identities (snd r2) w2.
Proof.
  intros c1 c2 req1 req2 r1 w2 r2.
  assert (H0 : persistent_identities Mock.w0).
  { intros key e Hkey. unfold Mock.w0 in Hkey. cbn [redis.db] in Hkey.
    rewrite lookup_empty in Hkey. discriminate. }
  assert (H1 : handlers.ShouldBindJSON_WeChatLoginRequest c1 = Ok req1)
    by (vm_compute; reflexivity).
  assert (H2 : handlers.ShouldBindJSON_WeChatLoginRequest c2 = Ok req2)
    by (vm_compute; reflexivity).
  assert (H3 : utils.Code2Session (handlers.wechatManager Mock.h) "code-1" = Ok Mock.session)
    by (vm_compute; reflexivity).
  assert (H4 : utils.Code2Session (handlers.wechatManager Mock.h) "code-2" = Ok Mock.session)
    by (vm_compute; reflexivity).
  assert (H5 : same_identities w2 (snd r1)) by exact (same_identities_later (snd r1)).
  assert (H6 : gin.status_of (fst r1) = Some http.StatusOK) by (vm_compute; reflexivity).
  assert (H7 : gin.status_of (fst r2) = Some http.StatusOK) by (vm_compute; reflexivity).
  split; [exact (conj H0 (conj H1 (conj H2 (conj H3 (conj H4 (conj H5 (conj H6 H7)))))))|].
  exact (@C8_wechat_login_idempotent Mock.externals Mock.h c1 c2 Mock.w0 w2
           req1 req2 Mock.session Mock.session H0 H1 H2 H3 H4 eq_refl H5 H6 H7).
Defined.

Lemma C9_witness_ledger_ttl :
  let handler := handlers.Login (main.authHandler Mock.Getenv) in
  let c := Mock.login_alice in
  let w := Mock.registered in
  let jwtConfig := config.JWT (main.cfg Mock.Getenv) in
  gin.status_of (fst (handler c w)) = Some http.StatusOK /\
  exists refreshToken claims issuedAt expiresAt,
    body_string "refresh_token" (fst (handler c w)) = Some refreshToken /\
    carried_claims refreshToken = Some claims /\
    Type_ claims = utils.RefreshToken /\
    IssuedAt (Registered claims) = Some issuedAt /\
    ExpiresAt (Registered claims) = Some expiresAt /\
    expiresAt - issuedAt = config.RefreshTokenTTL jwtConfig /\
    db (snd (handler c w)) !! ledger_key refreshToken =
      Some {| redis.value := UserID claims;
              redis.expireAt := Some (now w + config.RefreshTokenTTL jwtConfig) |} /\
    body_number "expires_in" (fst (handler c w)) =
      Some (config.AccessTokenTTL jwtConfig `div` Second).
Proof.
  intros handler c w jwtConfig.
  assert (H1 : gin.status_of (fst (handler c w)) = Some http.StatusOK)
    by (vm_compute; reflexivity).
  split; [exact H1|].
  exact (@C9_ledger_ttl_and_expires_in Mock.externals Mock.Getenv handler c w
           (or_introl eq_refl) H1).
Defined.

Lemma C10_witness_registered_id :
  let c := Mock.register_alice in
  let w := Mock.w0 in
  let c' := fst (handlers.Register Mock.h c w) in
  let w' := snd (handlers.Register Mock.h c w) in
  gin.status_of c' = Some http.StatusCreated /\
  exists req user,
    handlers.ShouldBindJSON_RegisterRequest c = Ok req /\
    body_string "user_id" c' = Some (handlers.RegisterRequest.Username req) /\
    models.ID user = handlers.RegisterRequest.Username req /\
    models.Username user = handlers.RegisterRequest.Username req /\
    db w' !! ("user:" +:+ handlers.RegisterRequest.Username req) =
      Some {| redis.value := json_render (models.User_json user);
              redis.expireAt := None |} /\
    models.Unmarshal (json_render (models.User_json user)) = Ok user /\
    db w' !! ("username:" +:+ handlers.RegisterRequest.Username req) =
      Some {| redis.value := handlers.RegisterRequest.Username req;
              redis.expireAt := None |}.
Proof.
  intros c w c' w'.
  assert (H1 : gin.status_of c' = Some http.StatusCreated) by (vm_compute; reflexivity).
  split; [exact H1|].
  exact (@C10_registered_id_is_username Mock.externals Mock.h c w H1).
Defined.

(** ** The further properties at work on the instance *)

Lemma run_pair {A} (m : M A) (w : World) (a : A) :
  fst (m w) = a -> m w = (a, snd (m w)).
Proof. destruct (m w). cbn. intros ->. reflexivity. Qed.

Lemma ValidateToken_sound_witness :
  let c := minted_claims "alice" utils.AccessToken (15 * Minute) (now Mock.w0) in
  let w := Mock.later Mock.w0 in
  fst (utils.ValidateToken Mock.m Mock.alice_access w) = Ok c /\
  exists alg signingString sig,
    jwt_parse Mock.alice_access = Some (alg, c, signingString, sig) /\
    jwt.is_HMAC alg = true /\
    sig = hmac alg (config.SecretKey (utils.config Mock.m)) signingString /\
    (forall exp, ExpiresAt (Registered c) = Some exp -> now w < exp) /\
    (forall nbf, NotBefore (Registered c) = Some nbf -> nbf <= now w).
Proof.
  intros c w.
  assert (H1 : fst (utils.ValidateToken Mock.m Mock.alice_access w) = Ok c)
    by (vm_compute; reflexivity).
  split; [exact H1|].
  exact (@ValidateToken_sound Mock.externals Mock.m Mock.alice_access w c H1).
Defined.

Lemma foreign_key_rejected_witness :
  let signingString :=
    jwt_signing_input jwt.SigningMethodHS256
      (minted_claims "alice" utils.AccessToken (15 * Minute) (now Mock.w0)) in
  hmac jwt.SigningMethodHS256 (config.SecretKey (utils.config Mock.m)) signingString <>
  hmac jwt.SigningMethodHS256 (config.SecretKey (utils.config Mock.m_rotated))
    signingString /\
  exists tok,
    utils.generateToken Mock.m "alice" utils.AccessToken (15 * Minute) Mock.w0 =
      (Ok tok, Mock.w0) /\
    is_Ok (fst (utils.ValidateToken Mock.m_rotated tok Mock.w0)) = false.
Proof.
  intros signingString.
  assert (H1 : hmac jwt.SigningMethodHS256 (config.SecretKey (utils.config Mock.m))
                 signingString <>
               hmac jwt.SigningMethodHS256
                 (config.SecretKey (utils.config Mock.m_rotated)) signingString)
    by (vm_compute; discriminate).
  split; [exact H1|].
  exact (@foreign_key_rejected Mock.externals Mock.m Mock.m_rotated "alice"
           utils.AccessToken (15 * Minute) Mock.w0 Mock.w0 H1).
Defined.

Lemma AuthRequired_stateless_witness :
  let m := main.authMiddleware Mock.Getenv in
  let c := Mock.bearer Mock.alice_access in
  let w := Mock.logged_in in
  let w' := Mock.w0 in
  now w = now w' /\
  fst (middleware.AuthRequired m c w) = fst (middleware.AuthRequired m c w') /\
  snd (middleware.AuthRequired m c w) = w.
Proof.
  intros m c w w'.
  assert (H1 : now w = now w') by (vm_compute; reflexivity).
  split; [exact H1|].
  exact (@AuthRequired_stateless Mock.externals m c w w' H1).
Defined.

Lemma login_token_opens_protected_route_witness :
  let h := main.authHandler Mock.Getenv in
  let c := Mock.login_alice in
  let w := Mock.registered in
  let w' := Mock.later Mock.logged_in in
  let request := gin.request ("Bearer " +:+ Mock.alice_access) "" in
  gin.status_of (fst (handlers.Login h c w)) = Some http.StatusOK /\
  exists userID,
    principal (fst (handlers.Login h c w)) = Some userID /\
    authenticated (main.authMiddleware Mock.Getenv) w' request userID /\
    gin.Next (main.protected Mock.Getenv main.api_protected) request w' =
      (gin.JSON http.StatusOK
         (gin.H [("message", JString "This is a protected endpoint");
                 ("user_id", JString userID)])
         (gin.Set_ "userID" userID request), w').
Proof.
  intros h c w w' request.
  assert (H1 : gin.status_of (fst (handlers.Login h c w)) = Some http.StatusOK)
    by (vm_compute; reflexivity).
  assert (H2 : body_string "access_token" (fst (handlers.Login h c w)) =
               Some Mock.alice_access) by (vm_compute; reflexivity).
  assert (H3 : strings.Split Mock.alice_access " "%char = [Mock.alice_access])
    by (vm_compute; reflexivity).
  assert (H4 : now w <= now w') by (vm_compute; discriminate).
  assert (H5 : now w' < (now w + 15 * Minute) `div` Second * Second)
    by (vm_compute; reflexivity).
  split; [exact H1|].
  exact (@login_token_opens_protected_route Mock.externals Mock.Getenv c w w'
           Mock.alice_access "" H1 H2 H3 H4 H5).
Defined.

Lemma refresh_token_lifetime_witness :
  let w := Mock.registered in
  let w' := Mock.later Mock.logged_in in
  (gin.status_of (fst (handlers.Login Mock.h Mock.login_alice w)) = Some http.StatusOK /\
   redis.next_fault w' = false /\ now w <= now w') /\
  (gin.status_of (fst (handlers.RefreshToken Mock.h Mock.refresh_alice w')) =
     Some http.StatusOK <->
   now w' < (now w + config.RefreshTokenTTL (utils.config (handlers.jwtManager Mock.h)))
              `div` Second * Second /\
   now w' < now w + 7 * 24 * Hour).
Proof.
  intros w w'.
  assert (H1 : gin.status_of (fst (handlers.Login Mock.h Mock.login_alice w)) =
               Some http.StatusOK) by (vm_compute; reflexivity).
  assert (H2 : body_string "refresh_token" (fst (handlers.Login Mock.h Mock.login_alice w)) =
               Some Mock.alice_refresh) by (vm_compute; reflexivity).
  assert (H3 : handlers.ShouldBindJSON_RefreshRequest Mock.refresh_alice =
               Ok {| handlers.RefreshRequest.RefreshToken := Mock.alice_refresh |})
    by (vm_compute; reflexivity).
  assert (H4 : db w' !! ledger_key Mock.alice_refresh =
               db (snd (handlers.Login Mock.h Mock.login_alice w)) !!
                 ledger_key Mock.alice_refresh) by (vm_compute; reflexivity).
  assert (H5 : redis.next_fault w' = false) by (vm_compute; reflexivity).
  assert (H6 : now w <= now w') by (vm_compute; discriminate).
  split; [exact (conj H1 (conj H5 H6))|].
  exact (@refresh_token_lifetime Mock.externals Mock.h Mock.login_alice
           Mock.refresh_alice w w' Mock.alice_refresh H1 H2 H3 H4 H5 H6).
Defined.

Lemma logout_revokes_this_token_only_witness :
  let req := {| handlers.RefreshRequest.RefreshToken := Mock.alice_refresh |} in
  let c := Mock.refresh_alice in
  let w := Mock.logged_in in
  (handlers.ShouldBindJSON_RefreshRequest c = Ok req /\ redis.next_fault w = false) /\
  let key := ledger_key (handlers.RefreshRequest.RefreshToken req) in
  let w1 := snd (handlers.Logout Mock.h c w) in
  (forall key', key' <> key -> db w1 !! key' = db w !! key') /\
  (forall (refresh : gin.Context) (w2 : World),
     handlers.ShouldBindJSON_RefreshRequest refresh = Ok req ->
     db w2 !! key = db w1 !! key ->
     gin.status_of (fst (handlers.RefreshToken Mock.h refresh w2)) =
       Some http.StatusUnauthorized).
Proof.
  intros req c w.
  assert (H1 : handlers.ShouldBindJSON_RefreshRequest c = Ok req)
    by (vm_compute; reflexivity).
  assert (H2 : redis.next_fault w = false) by (vm_compute; reflexivity).
  split; [exact (conj H1 H2)|].
  exact (@logout_revokes_this_token_only Mock.externals Mock.h c w req H1 H2).
Defined.

Lemma Create_then_lookup_witness :
  let w1 := Mock.created in
  models.Create Mock.alice Mock.w0 = (Ok tt, w1) /\
  fst (models.GetByID (models.ID Mock.alice) w1) =
    Ok (created_at Mock.alice (now Mock.w0)) /\
  (redis.next_fault (redis.served w1) = false ->
   fst (models.GetByUsername (models.Username Mock.alice) w1) =
     Ok (created_at Mock.alice (now Mock.w0))).
Proof.
  intros w1.
  assert (H1 : models.Create Mock.alice Mock.w0 = (Ok tt, w1))
    by (vm_compute; reflexivity).
  assert (H2 : redis.next_fault w1 = false) by (vm_compute; reflexivity).
  split; [exact H1|].
  exact (@Create_then_lookup Mock.externals Mock.alice Mock.w0 w1 w1 H1 eq_refl H2).
Defined.

Lemma Create_without_index_witness :
  let w := Mock.scripted [false; true] Mock.w0 in
  let w2 := Mock.scripted [] (snd (models.Create Mock.alice w)) in
  (redis.next_fault w = false /\ redis.next_fault (redis.served w) = true) /\
  is_Ok (fst (models.Create Mock.alice w)) = false /\
  fst (models.GetByID (models.ID Mock.alice) w2) =
    Ok (created_at Mock.alice (now w)) /\
  db w2 !! ("username:" +:+ models.Username Mock.alice) =
    db w !! ("username:" +:+ models.Username Mock.alice).
Proof.
  intros w w2.
  assert (H1 : models.ID Mock.alice <> "") by (vm_compute; discriminate).
  assert (H2 : redis.next_fault w = false) by (vm_compute; reflexivity).
  assert (H3 : redis.next_fault (redis.served w) = true) by (vm_compute; reflexivity).
  assert (H4 : db w2 = db (snd (models.Create Mock.alice w)))
    by (vm_compute; reflexivity).
  assert (H5 : redis.next_fault w2 = false) by (vm_compute; reflexivity).
  split; [exact (conj H2 H3)|].
  exact (@Create_without_index Mock.externals Mock.alice w w2 H1 H2 H3 H4 H5).
Defined.

Lemma CreateWeChatUser_then_lookup_witness :
  let user := new_wechat_user "o-alice" (now Mock.w0) in
  let w1 := snd (models.CreateWeChatUser "o-alice" Mock.w0) in
  models.CreateWeChatUser "o-alice" Mock.w0 = (Ok user, w1) /\
  (exists createdAt updatedAt, user = wechat_user "o-alice" createdAt updatedAt) /\
  fst (models.GetByOpenID "o-alice" w1) = Ok user /\
  fst (models.GetByID ("wx_" +:+ "o-alice") w1) = Ok user /\
  fst (models.GetByUsername ("wx_" +:+ "o-alice") w1) = Ok user.
Proof.
  intros user w1.
  assert (H1 : redis.visible Mock.w0 ("openid:" +:+ "o-alice") = None)
    by (vm_compute; reflexivity).
  assert (H2 : models.CreateWeChatUser "o-alice" Mock.w0 = (Ok user, w1))
    by (vm_compute; reflexivity).
  assert (H3 : redis.next_fault w1 = false) by (vm_compute; reflexivity).
  assert (H4 : redis.next_fault (redis.served w1) = false) by (vm_compute; reflexivity).
  split; [exact H2|].
  exact (@CreateWeChatUser_then_lookup Mock.externals "o-alice" user Mock.w0 w1 w1
           H1 H2 eq_refl H3 H4).
Defined.

Lemma Update_then_GetByID_witness :
  let w := Mock.created in
  let w1 := snd (models.Update Mock.alicia w) in
  is_Ok (fst (models.Update Mock.alicia w)) = true /\
  (forall key, key <> "user:" +:+ models.ID Mock.alicia -> db w1 !! key = db w !! key) /\
  (forall w2, db w2 = db w1 ->
     redis.next_fault w2 = false ->
     fst (models.GetByID (models.ID Mock.alicia) w2) =
       Ok (updated_at Mock.alicia (now w))).
Proof.
  intros w w1.
  assert (H1 : is_Ok (fst (models.Update Mock.alicia w)) = true)
    by (vm_compute; reflexivity).
  split; [exact H1|].
  exact (proj2 (@Update_then_GetByID Mock.externals Mock.alicia w) H1).
Defined.

Lemma Update_leaves_username_index_witness :
  let w := Mock.created in
  let w2 := snd (models.Update Mock.alicia w) in
  (is_Ok (fst (models.Update Mock.alicia w)) = true /\
   db w !! ("username:" +:+ "alice") = Some (index_to (models.ID Mock.alicia)) /\
   db w !! ("username:" +:+ models.Username Mock.alicia) = None) /\
  fst (models.GetByUsername "alice" w2) = Ok (updated_at Mock.alicia (now w)) /\
  fst (models.GetByUsername (models.Username Mock.alicia) w2) = Err "user not found".
Proof.
  intros w w2.
  assert (H1 : is_Ok (fst (models.Update Mock.alicia w)) = true)
    by (vm_compute; reflexivity).
  assert (H2 : db w !! ("username:" +:+ "alice") =
               Some (index_to (models.ID Mock.alicia))) by (vm_compute; reflexivity).
  assert (H3 : db w !! ("username:" +:+ models.Username Mock.alicia) = None)
    by (vm_compute; reflexivity).
  assert (H4 : redis.next_fault w2 = false) by (vm_compute; reflexivity).
  assert (H5 : redis.next_fault (redis.served w2) = false) by (vm_compute; reflexivity).
  split; [exact (conj H1 (conj H2 H3))|].
  exact (@Update_leaves_username_index Mock.externals Mock.alicia "alice" w w2
           H1 H2 H3 eq_refl H4 H5).
Defined.

Lemma Delete_then_lookup_witness :
  let w := Mock.logged_in in
  let w1 := snd (models.Delete "alice" w) in
  models.Delete "alice" w = (Ok tt, w1) /\
  exists user,
    fst (models.GetByID "alice" w) = Ok user /\
    fst (models.GetByID "alice" w1) = Err "user not found" /\
    fst (models.GetByUsername (models.Username user) w1) = Err "user not found" /\
    (models.OpenID user <> "" ->
     fst (models.GetByOpenID (models.OpenID user) w1) = Err "user not found") /\
    (forall refreshToken,
       db w1 !! ledger_key refreshToken = db w !! ledger_key refreshToken).
Proof.
  intros w w1.
  assert (H0 : fst (models.Delete "alice" w) = Ok tt) by (vm_compute; reflexivity).
  assert (H1 : models.Delete "alice" w = (Ok tt, w1))
    by exact (run_pair (models.Delete "alice") w (Ok tt) H0).
  assert (H2 : redis.next_fault w1 = false) by (vm_compute; reflexivity).
  split; [exact H1|].
  exact (@Delete_then_lookup Mock.externals "alice" w w1 w1 H1 eq_refl H2).
Defined.

Lemma RefreshToken_consults_ledger_only_witness :
  let req := {| handlers.RefreshRequest.RefreshToken := Mock.alice_refresh |} in
  let c := Mock.refresh_alice in
  let w := Mock.logged_in in
  let w' := snd (models.Delete "alice" Mock.logged_in) in
  (handlers.ShouldBindJSON_RefreshRequest c = Ok req /\
   now w = now w' /\
   redis.next_fault w = redis.next_fault w' /\
   db w !! ledger_key (handlers.RefreshRequest.RefreshToken req) =
     db w' !! ledger_key (handlers.RefreshRequest.RefreshToken req)) /\
  gin.Writer (fst (handlers.RefreshToken Mock.h c w)) =
  gin.Writer (fst (handlers.RefreshToken Mock.h c w')).
Proof.
  intros req c w w'.
  assert (H1 : handlers.ShouldBindJSON_RefreshRequest c = Ok req)
    by (vm_compute; reflexivity).
  assert (H2 : now w = now w') by (vm_compute; reflexivity).
  assert (H3 : redis.next_fault w = redis.next_fault w') by (vm_compute; reflexivity).
  assert (H4 : db w !! ledger_key (handlers.RefreshRequest.RefreshToken req) =
               db w' !! ledger_key (handlers.RefreshRequest.RefreshToken req))
    by (vm_compute; reflexivity).
  split; [exact (conj H1 (conj H2 (conj H3 H4)))|].
  exact (@RefreshToken_consults_ledger_only Mock.externals Mock.h c req w w'
           H1 H2 H3 H4).
Defined.

Lemma Delete_revokes_nothing_witness :
  let req := {| handlers.RefreshRequest.RefreshToken := Mock.alice_refresh |} in
  let c := Mock.refresh_alice in
  let w := Mock.logged_in in
  let w1 := snd (models.Delete "alice" w) in
  (models.Delete "alice" w = (Ok tt, w1) /\
   handlers.ShouldBindJSON_RefreshRequest c = Ok req) /\
  gin.Writer (fst (handlers.RefreshToken Mock.h c w)) =
  gin.Writer (fst (handlers.RefreshToken Mock.h c w1)).
Proof.
  intros req c w w1.
  assert (H0 : fst (models.Delete "alice" w) = Ok tt) by (vm_compute; reflexivity).
  assert (H1 : models.Delete "alice" w = (Ok tt, w1))
    by exact (run_pair (models.Delete "alice") w (Ok tt) H0).
  assert (H2 : handlers.ShouldBindJSON_RefreshRequest c = Ok req)
    by (vm_compute; reflexivity).
  assert (H3 : now w = now w1) by (vm_compute; reflexivity).
  assert (H4 : redis.next_fault w = redis.next_fault w1) by (vm_compute; reflexivity).
  split; [exact (conj H1 H2)|].
  exact (@Delete_revokes_nothing Mock.externals Mock.h "alice" c req w w1 w w1
           H1 H2 eq_refl eq_refl H3 H4).
Defined.

Lemma Register_twice_conflicts_witness :
  let c := Mock.register_alice in
  let c2 := Mock.post [("username", JString "alice"); ("password", JString "another1");
                       ("email", JString "b@x.com")] in
  let w := Mock.w0 in
  let w2 := snd (handlers.Register Mock.h c w) in
  gin.status_of (fst (handlers.Register Mock.h c w)) = Some http.StatusCreated /\
  gin.status_of (fst (handlers.Register Mock.h c2 w2)) = Some http.StatusConflict /\
  db (snd (handlers.Register Mock.h c2 w2)) = db w2.
Proof.
  intros c c2 w w2.
  pose (req := {| handlers.RegisterRequest.Username := "alice";
                  handlers.RegisterRequest.Password := "secret1";
                  handlers.RegisterRequest.Email := "a@x.com" |}).
  pose (req2 := {| handlers.RegisterRequest.Username := "alice";
                   handlers.RegisterRequest.Password := "another1";
                   handlers.RegisterRequest.Email := "b@x.com" |}).
  assert (H1 : gin.status_of (fst (handlers.Register Mock.h c w)) =
               Some http.StatusCreated) by (vm_compute; reflexivity).
  assert (H2 : handlers.ShouldBindJSON_RegisterRequest c = Ok req)
    by (vm_compute; reflexivity).
  assert (H3 : handlers.ShouldBindJSON_RegisterRequest c2 = Ok req2)
    by (vm_compute; reflexivity).
  assert (H4 : redis.next_fault w2 = false) by (vm_compute; reflexivity).
  assert (H5 : redis.next_fault (redis.served w2) = false) by (vm_compute; reflexivity).
  split; [exact H1|].
  exact (@Register_twice_conflicts Mock.externals Mock.h c c2 w w2 req req2
           H1 H2 H3 eq_refl eq_refl H4 H5).
Defined.

Lemma bcrypt_accepts_its_own_hash (password hashed : string) :
  bcrypt_GenerateFromPassword password = Ok hashed ->
  bcrypt_CompareHashAndPassword hashed password = true.
Proof.
  cbn. destruct (72 <? _); [discriminate|].
  intros [= <-]. apply String.eqb_refl.
Qed.

Lemma register_then_login_witness :
  let c := Mock.register_alice in
  let login := Mock.login_alice in
  let w := Mock.w0 in
  let w2 := snd (handlers.Register Mock.h c w) in
  let req := {| handlers.RegisterRequest.Username := "alice";
                handlers.RegisterRequest.Password := "secret1";
                handlers.RegisterRequest.Email := "a@x.com" |} in
  gin.status_of (fst (handlers.Register Mock.h c w)) = Some http.StatusCreated /\
  gin.status_of (fst (handlers.Login Mock.h login w2)) = Some http.StatusOK /\
  principal (fst (handlers.Login Mock.h login w2)) =
    Some (handlers.RegisterRequest.Username req).
Proof.
  intros c login w w2 req.
  pose (lreq := {| handlers.LoginRequest.Username := "alice";
                   handlers.LoginRequest.Password := "secret1" |}).
  assert (H1 : gin.status_of (fst (handlers.Register Mock.h c w)) =
               Some http.StatusCreated) by (vm_compute; reflexivity).
  assert (H2 : handlers.ShouldBindJSON_RegisterRequest c = Ok req)
    by (vm_compute; reflexivity).
  assert (H3 : handlers.ShouldBindJSON_LoginRequest login = Ok lreq)
    by (vm_compute; reflexivity).
  assert (H4 : redis.next_fault w2 = false) by (vm_compute; reflexivity).
  assert (H5 : redis.next_fault (redis.served w2) = false) by (vm_compute; reflexivity).
  assert (H6 : redis.next_fault (redis.served (redis.served w2)) = false)
    by (vm_compute; reflexivity).
  split; [exact H1|].
  exact (@register_then_login Mock.externals Mock.h c login w w2 req lreq
           bcrypt_accepts_its_own_hash H1 H2 H3 eq_refl eq_refl eq_refl H4 H5 H6).
Defined.

Lemma Register_creates_when_lookup_errs_witness :
  let c := Mock.register_alice in
  let w := Mock.scripted [true] Mock.w0 in
  let req := {| handlers.RegisterRequest.Username := "alice";
                handlers.RegisterRequest.Password := "secret1";
                handlers.RegisterRequest.Email := "a@x.com" |} in
  redis.next_fault w = true /\
  gin.status_of (fst (handlers.Register Mock.h c w)) = Some http.StatusCreated /\
  db (snd (handlers.Register Mock.h c w)) !! ("user:" +:+ handlers.RegisterRequest.Username req) =
    Some (record_of {| models.ID := handlers.RegisterRequest.Username req;
                       models.Username := handlers.RegisterRequest.Username req;
                       models.Password := "$2a$10$secret1";
                       models.Email := handlers.RegisterRequest.Email req;
                       models.OpenID := "";
                       models.CreatedAt := now w; models.UpdatedAt := now w |}).
Proof.
  intros c w req.
  assert (H1 : handlers.ShouldBindJSON_RegisterRequest c = Ok req)
    by (vm_compute; reflexivity).
  assert (H2 : bcrypt_GenerateFromPassword (handlers.RegisterRequest.Password req) =
               Ok "$2a$10$secret1") by (vm_compute; reflexivity).
  assert (H3 : redis.next_fault w = true) by (vm_compute; reflexivity).
  assert (H4 : redis.next_fault (redis.served w) = false) by (vm_compute; reflexivity).
  assert (H5 : redis.next_fault (redis.served (redis.served w)) = false)
    by (vm_compute; reflexivity).
  split; [exact H3|].
  exact (@Register_creates_when_lookup_errs Mock.externals Mock.h c w req
           "$2a$10$secret1" H1 H2 H3 H4 H5).
Defined.

Lemma Code2Session_Ok_witness :
  let m := handlers.wechatManager Mock.h in
  utils.Code2Session m "code-1" = Ok Mock.session /\
  exists body j,
    http_Get (utils.WeChatCode2SessionURL (config.AppID (utils.wechat_config m))
                (config.AppSecret (utils.wechat_config m)) "code-1") = Ok body /\
    json_parse body = Some j /\
    int_field "errcode" j = Ok 0 /\
    utils.ErrCode Mock.session = 0 /\
    string_field "openid" j = Ok (utils.OpenID Mock.session).
Proof.
  intros m.
  assert (H1 : utils.Code2Session m "code-1" = Ok Mock.session)
    by (vm_compute; reflexivity).
  split; [exact H1|].
  exact (@Code2Session_Ok Mock.externals m "code-1" Mock.session H1).
Defined.

Lemma WeChatLogin_failure_creates_nothing_witness :
  let c := Mock.post [("code", JString "down")] in
  let req := {| handlers.WeChatLoginRequest.Code := "down" |} in
  let w := Mock.w0 in
  (handlers.ShouldBindJSON_WeChatLoginRequest c = Ok req /\
   is_Ok (utils.Code2Session (handlers.wechatManager Mock.h)
            (handlers.WeChatLoginRequest.Code req)) = false) /\
  gin.status_of (fst (handlers.WeChatLogin Mock.h c w)) =
    Some http.StatusInternalServerError /\
  snd (handlers.WeChatLogin Mock.h c w) = w.
Proof.
  intros c req w.
  assert (H1 : handlers.ShouldBindJSON_WeChatLoginRequest c = Ok req)
    by (vm_compute; reflexivity).
  assert (H2 : is_Ok (utils.Code2Session (handlers.wechatManager Mock.h)
                        (handlers.WeChatLoginRequest.Code req)) = false)
    by (vm_compute; reflexivity).
  split; [exact (conj H1 H2)|].
  exact (@WeChatLogin_failure_creates_nothing Mock.externals Mock.h c w req H1
           (or_introl H2)).
Defined.

Lemma GET_routes_require_authentication_witness :
  let chain := main.protected Mock.Getenv Mock.proxy in
  let c := gin.request "" "" in
  let w := Mock.logged_in in
  main.routes Mock.Getenv Mock.proxy "GET" "/v1/daily_house" = Some chain /\
  gin.status_of (fst (gin.Next chain c w)) = Some http.StatusUnauthorized /\
  snd (gin.Next chain c w) = w.
Proof.
  intros chain c w.
  assert (H1 : main.routes Mock.Getenv Mock.proxy "GET" "/v1/daily_house" = Some chain)
    by reflexivity.
  assert (H2 : "/v1/daily_house" <> "/health") by discriminate.
  assert (H3 : gin.Aborted c = false) by reflexivity.
  assert (H4 : auth_failure (main.authMiddleware Mock.Getenv) w c)
    by (apply missing_header; reflexivity).
  split; [exact H1|].
  exact (@GET_routes_require_authentication Mock.externals Mock.Getenv Mock.proxy
           "/v1/daily_house" chain c w H1 H2 H3 H4).
Defined.

Lemma routes_keep_coherent_witness :
  let chain := [handlers.Login (main.authHandler Mock.Getenv)] in
  main.routes Mock.Getenv Mock.proxy "POST" "/login" = Some chain /\
  keeps_coherent (gin.Next chain Mock.login_alice).
Proof.
  intros chain.
  assert (H1 : main.routes Mock.Getenv Mock.proxy "POST" "/login" = Some chain)
    by reflexivity.
  split; [exact H1|].
  exact (@routes_keep_coherent Mock.externals Mock.Getenv Mock.proxy "POST" "/login"
           chain Mock.login_alice (fun c' => @kc_ret Mock.externals _ c') H1).
Defined.

Lemma routes_keep_identities_persistent_witness :
  let chain := [handlers.WeChatLogin (main.authHandler Mock.Getenv)] in
  main.routes Mock.Getenv Mock.proxy "POST" "/wechat/login" = Some chain /\
  keeps_persistent (gin.Next chain (Mock.post [("code", JString "code-1")])).
Proof.
  intros chain.
  assert (H1 : main.routes Mock.Getenv Mock.proxy "POST" "/wechat/login" = Some chain)
    by reflexivity.
  split; [exact H1|].
  exact (@routes_keep_identities_persistent Mock.externals Mock.Getenv Mock.proxy
           "POST" "/wechat/login" chain (Mock.post [("code", JString "code-1")])
           (fun c' => keeps_ret c') H1).
Defined.

Lemma coherent_after_register :
  coherent (snd (handlers.Register Mock.h Mock.register_alice Mock.w0)).
Proof.
  apply (@kc_Register Mock.externals Mock.h Mock.register_alice Mock.w0).
  exact (@coherent_empty Mock.externals (1700000000 * Second) []).
Qed.

Lemma login_subject_is_username_witness :
  let c := Mock.login_alice in
  let w := snd (handlers.Register Mock.h Mock.register_alice Mock.w0) in
  let req := {| handlers.LoginRequest.Username := "alice";
                handlers.LoginRequest.Password := "secret1" |} in
  (coherent w /\
   gin.status_of (fst (handlers.Login Mock.h c w)) = Some http.StatusOK) /\
  principal (fst (handlers.Login Mock.h c w)) = Some (handlers.LoginRequest.Username req).
Proof.
  intros c w req.
  assert (H1 : handlers.ShouldBindJSON_LoginRequest c = Ok req)
    by (vm_compute; reflexivity).
  assert (H2 : gin.status_of (fst (handlers.Login Mock.h c w)) = Some http.StatusOK)
    by (vm_compute; reflexivity).
  split; [exact (conj coherent_after_register H2)|].
  exact (@login_subject_is_username Mock.externals Mock.h c w req
           coherent_after_register H1 H2).
Defined.
